(** * ChiefTain hotel concierge client: booking and payment orchestration

    A shallow embedding of the two React components of the front end,
    [Chatbot] (chat, room service, booking + payment panel) and
    [PaymentPage] (stand-alone payment), and proofs about their event
    handlers.

    Modelling conventions.
    - A component's [useState] cells are the fields of a record.
    - An [async] handler is a [Task]: a finite tree whose nodes are the
      handler's effects in program order.  An [await] on an HTTP call is a
      node whose continuation receives the outcome chosen by the
      environment, so [try]/[catch]/[finally] are functions on trees.
    - A handler is a function of the state *of the render it was created
      in* (its closure) to a task; [setX(v)] and [setX(prev => ...)] are
      state transformers applied to the state current when they run.
    - The event loop is [step]: one user event, one HTTP completion, one
      script-load completion or one checkout callback at a time, each run
      to its next [await]. *)

From Stdlib Require Import String Ascii List ZArith Bool Lia DecimalString.
From Stdlib Require DecimalFacts DecimalPos DecimalN Nnat.
Import ListNotations.
Open Scope string_scope.
Set Warnings "-register-all,-notation-for-abbreviation".

(* ================================================================== *)
(** ** JavaScript values *)

Module JS.

(** JSON-shaped values as they reach the handlers in [res.data] and in
    error objects.  Numbers are integers (amounts are minor currency
    units); arrays are not modelled. *)
Inductive value : Type :=
| Undefined
| Null
| Bool (b : bool)
| Num (z : Z)
| Str (s : string)
| Obj (fields : list (string * value)).

Definition str_truthy (s : string) : bool :=
  match s with EmptyString => false | String _ _ => true end.

(** [ToBoolean]: what [!v], [v || w], [v && w] and [v ? a : b] test. *)
Definition truthy (v : value) : bool :=
  match v with
  | Undefined | Null => false
  | Bool b => b
  | Num z => negb (Z.eqb z 0)
  | Str s => str_truthy s
  | Obj _ => true
  end.

(** [a || b]. *)
Definition or (a b : value) : value := if truthy a then a else b.

Fixpoint assoc (k : string) (fs : list (string * value)) : value :=
  match fs with
  | [] => Undefined
  | (k', v) :: rest => if String.eqb k k' then v else assoc k rest
  end.

(** [v?.k]: [undefined] on [null]/[undefined], the property otherwise
    (own properties of primitives are never among the keys used here). *)
Definition opt (v : value) (k : string) : value :=
  match v with
  | Obj fs => assoc k fs
  | _ => Undefined
  end.

(** [v.k] throws a [TypeError] exactly when [v] is [null] or
    [undefined]. *)
Definition nullish (v : value) : bool :=
  match v with Undefined | Null => true | _ => false end.

Definition dec (z : Z) : string := NilZero.string_of_int (Z.to_int z).

(** A value as a JSX child: strings and numbers render as text,
    [null], [undefined] and booleans render nothing, and React refuses
    a plain object ([None]). *)
Definition child (v : value) : option string :=
  match v with
  | Undefined | Null | Bool _ => Some ""
  | Num z => Some (dec z)
  | Str s => Some s
  | Obj _ => None
  end.

(** [String(v)], as applied by template literals and by [alert]; an
    integer prints as its decimal digits (exact below [10^21]). *)
Definition to_string (v : value) : string :=
  match v with
  | Undefined => "undefined"
  | Null => "null"
  | Bool true => "true"
  | Bool false => "false"
  | Num z => dec z
  | Str s => s
  | Obj _ => "[object Object]"
  end.

(** [v === "lit"]. *)
Definition is_str (v : value) (lit : string) : bool :=
  match v with Str s => String.eqb s lit | _ => false end.

(** *** [String.prototype.trim]

    Strings are byte strings holding UTF-8.  [trim] removes, at both
    ends, the ECMAScript [WhiteSpace] and [LineTerminator] code points,
    listed here by their UTF-8 encodings. *)
Definition white_space : list (list nat) :=
  [ [9]; [10]; [11]; [12]; [13]; [32];            (* TAB LF VT FF CR SP *)
    [194; 160];                                   (* U+00A0 *)
    [225; 154; 128];                              (* U+1680 *)
    [226; 128; 128]; [226; 128; 129]; [226; 128; 130]; [226; 128; 131];
    [226; 128; 132]; [226; 128; 133]; [226; 128; 134]; [226; 128; 135];
    [226; 128; 136]; [226; 128; 137]; [226; 128; 138];  (* U+2000..200A *)
    [226; 128; 168]; [226; 128; 169];             (* U+2028 U+2029 *)
    [226; 128; 175];                              (* U+202F *)
    [226; 129; 159];                              (* U+205F *)
    [227; 128; 128];                              (* U+3000 *)
    [239; 187; 191] ].                            (* U+FEFF *)

Fixpoint bytes (s : string) : list nat :=
  match s with
  | EmptyString => []
  | String c r => nat_of_ascii c :: bytes r
  end.

Fixpoint of_bytes (l : list nat) : string :=
  match l with
  | [] => EmptyString
  | b :: r => String (ascii_of_nat b) (of_bytes r)
  end.

Fixpoint drop_prefix (p l : list nat) : option (list nat) :=
  match p, l with
  | [], _ => Some l
  | a :: p', b :: l' => if Nat.eqb a b then drop_prefix p' l' else None
  | _ :: _, [] => None
  end.

Fixpoint drop_any (tokens : list (list nat)) (l : list nat)
  : option (list nat) :=
  match tokens with
  | [] => None
  | t :: ts =>
      match drop_prefix t l with
      | Some r => Some r
      | None => drop_any ts l
      end
  end.

Fixpoint strip (fuel : nat) (tokens : list (list nat)) (l : list nat)
  : list nat :=
  match fuel with
  | O => l
  | S n =>
      match drop_any tokens l with
      | Some r => strip n tokens r
      | None => l
      end
  end.

Definition trim_start (l : list nat) : list nat :=
  strip (length l) white_space l.

Definition trim_end (l : list nat) : list nat :=
  rev (strip (length l) (map (@rev nat) white_space) (rev l)).

Definition trim (s : string) : string :=
  of_bytes (trim_end (trim_start (bytes s))).

(** *** [(amount / 100).toFixed(2)]

    [amount] is an integer count of minor units.  For [|amount| < 2^52]
    the double nearest to [amount / 100] lies within half an ulp
    (at most [2^-8]) of the exact quotient, so the integer [n] that
    [toFixed] picks — the one with [n / 100] nearest the double — is
    [|amount|] itself.  From there the steps are those of
    [Number.prototype.toFixed] with [f = 2]: the digits of [n], padded
    on the left with zeros to at least [f + 1] digits, a point inserted
    before the last [f], and the sign in front. *)
Fixpoint zeros (n : nat) : string :=
  match n with O => "" | S m => String "0" (zeros m) end.

Definition toFixed2_digits (n : N) : string :=
  let m := NilZero.string_of_uint (N.to_uint n) in
  let k := String.length m in
  let m := if Nat.leb k 2 then zeros (3 - k) ++ m else m in
  let k := String.length m in
  substring 0 (k - 2) m ++ "." ++ substring (k - 2) 2 m.

Definition div100_toFixed2 (amount : Z) : string :=
  (if Z.ltb amount 0 then "-" else "") ++ toFixed2_digits (Z.abs_N amount).

(** [(v / 100).toFixed(2)] for a value: integers in the exactly
    modelled range, [null] (which converts to [0]) and [undefined]
    (which converts to [NaN]); [None] for the conversions left out
    (booleans, numeric strings, objects, larger numbers). *)
Definition amount_text (v : value) : option string :=
  match v with
  | Num z => if Z.ltb (Z.abs z) (2 ^ 52) then Some (div100_toFixed2 z) else None
  | Null => Some "0.00"
  | Undefined => Some "NaN"
  | _ => None
  end.

(** Thrown and rejected values: [err.message] and [err.response?.data]
    ([Undefined] when the error carries no response: a network failure,
    [new Error(...)], a [TypeError]). *)
Record error : Type := mkError {
  message : string;
  response_data : value
}.

Definition Error (msg : string) : error := mkError msg Undefined.

(** The message text is the engine's; V8's wording is used. *)
Definition TypeError (k : string) (v : value) : error :=
  Error ("Cannot read properties of " ++ to_string v
         ++ " (reading '" ++ k ++ "')").

End JS.

(* ================================================================== *)
(** ** Asynchronous handlers and the event loop *)

Inductive method : Type := GET | POST.

(** An axios call: [axios.post(url, body)] or [axios.get(url, {params})].
    [payload] is the body or the query parameters, [Undefined] when the
    call passes none. *)
Record request : Type := mkRequest {
  meth : method;
  url : string;
  payload : JS.value
}.

(** How an HTTP call settles: the promise resolves with [res.data], or
    rejects with an error. *)
Inductive outcome : Type :=
| Resolved (data : JS.value)
| Rejected (e : JS.error).

(** The options object handed to [new window.Razorpay(...)], less its
    callbacks.  [theme] and the [prefill] pair are as the call site
    writes them. *)
Record checkout_options : Type := mkOptions {
  key : JS.value;
  order_id : JS.value;
  name : string;
  description : string;
  prefill_name : JS.value;
  prefill_email : JS.value;
  notes_booking_id : JS.value;
  theme_color : option string
}.

(** What the checkout widget passes to [handler] on success. *)
Record checkout_response : Type := mkResponse {
  razorpay_order_id : JS.value;
  razorpay_payment_id : JS.value;
  razorpay_signature : JS.value
}.

(** Everything a handler does that is visible outside the component. *)
Inductive obs : Type :=
| Http (r : request)                 (* the call is issued *)
| Alert (text : string)              (* window.alert *)
| ConsoleError (label : string) (e : JS.error)
| CheckoutOpened (o : checkout_options)   (* rzp.open() *)
| ReloadScheduled                    (* setTimeout(reload, 3000) *)
| Unhandled (e : JS.error).          (* an async handler's promise rejects *)

Section Async.

Context {St : Type}.

Inductive Task : Type :=
| Done
| Throw (e : JS.error)
| Await (r : request) (k : outcome -> Task)
| LoadScript (k : bool -> Task)        (* s.onload / s.onerror *)
| ReadRazorpay (k : bool -> Task)      (* is window.Razorpay truthy *)
| Emit (o : obs) (k : Task)
| SetState (f : St -> St) (k : Task)
| OpenCheckout (o : checkout_options)
    (handler : checkout_response -> Task)
    (ondismiss : option Task) (k : Task).

(** [await axios...]: resume with [res.data], or throw the rejection. *)
Definition await (r : request) (k : JS.value -> Task) : Task :=
  Await r (fun res =>
    match res with
    | Resolved data => k data
    | Rejected e => Throw e
    end).

(** [v.k] in a position where [v] may be [null] or [undefined]. *)
Definition member (v : JS.value) (k : string) (cont : JS.value -> Task)
  : Task :=
  if JS.nullish v then Throw (JS.TypeError k v) else cont (JS.opt v k).

(** [const { k, ... } = v], which throws when [v] is [null] or
    [undefined]; [src] is the source text of [v], which V8 quotes. *)
Definition destructure (v : JS.value) (k src : string)
           (cont : JS.value -> Task) : Task :=
  if JS.nullish v
  then Throw (JS.Error ("Cannot destructure property '" ++ k ++ "' of '"
                        ++ src ++ "' as it is " ++ JS.to_string v ++ "."))
  else cont (JS.opt v k).

(** [t1; t2] *)
Fixpoint seq (t1 t2 : Task) : Task :=
  match t1 with
  | Done => t2
  | Throw e => Throw e
  | Await r k => Await r (fun x => seq (k x) t2)
  | LoadScript k => LoadScript (fun x => seq (k x) t2)
  | ReadRazorpay k => ReadRazorpay (fun x => seq (k x) t2)
  | Emit o k => Emit o (seq k t2)
  | SetState f k => SetState f (seq k t2)
  | OpenCheckout o h d k => OpenCheckout o h d (seq k t2)
  end.

(** [try { t } catch (err) { h err }] *)
Fixpoint try_catch (t : Task) (h : JS.error -> Task) : Task :=
  match t with
  | Done => Done
  | Throw e => h e
  | Await r k => Await r (fun x => try_catch (k x) h)
  | LoadScript k => LoadScript (fun x => try_catch (k x) h)
  | ReadRazorpay k => ReadRazorpay (fun x => try_catch (k x) h)
  | Emit o k => Emit o (try_catch k h)
  | SetState f k => SetState f (try_catch k h)
  | OpenCheckout o hd d k => OpenCheckout o hd d (try_catch k h)
  end.

(** [try { t } finally { f }]: [f] runs on both exits, and a pending
    exception is rethrown after it. *)
Fixpoint try_finally (t : Task) (f : Task) : Task :=
  match t with
  | Done => f
  | Throw e => seq f (Throw e)
  | Await r k => Await r (fun x => try_finally (k x) f)
  | LoadScript k => LoadScript (fun x => try_finally (k x) f)
  | ReadRazorpay k => ReadRazorpay (fun x => try_finally (k x) f)
  | Emit o k => Emit o (try_finally k f)
  | SetState g k => SetState g (try_finally k f)
  | OpenCheckout o hd d k => OpenCheckout o hd d (try_finally k f)
  end.

(** [loadRazorpay()], awaited: resolves at once when the SDK is already
    on [window], otherwise appends the script tag and settles with its
    [onload] or [onerror]. *)
Definition loadRazorpay (k : Task) : Task :=
  ReadRazorpay (fun present =>
    if present then k
    else LoadScript (fun loaded =>
           if loaded then k
           else Throw (JS.Error "Failed to load Razorpay"))).

(** An open checkout widget: its options and its two callbacks. *)
Record widget : Type := mkWidget {
  options : checkout_options;
  on_success : checkout_response -> Task;
  on_dismiss : option Task
}.

(** The component instance and its surroundings. *)
Record World : Type := mkWorld {
  ui : St;                                         (* the useState cells *)
  window_Razorpay : bool;                          (* window.Razorpay *)
  inflight : list (request * (outcome -> Task));   (* awaited HTTP calls *)
  scripts : list (bool -> Task);                   (* script tags loading *)
  widgets : list widget;                           (* open checkouts *)
  log : list obs                                   (* oldest first *)
}.

Definition note (o : obs) (w : World) : World :=
  mkWorld (ui w) (window_Razorpay w) (inflight w) (scripts w) (widgets w)
          (log w ++ [o]).

(** Run a task up to its next suspension point. *)
Fixpoint run (t : Task) (w : World) : World :=
  match t with
  | Done => w
  | Throw e => note (Unhandled e) w
  | Await r k =>
      mkWorld (ui w) (window_Razorpay w) (inflight w ++ [(r, k)])
              (scripts w) (widgets w) (log w ++ [Http r])
  | LoadScript k =>
      mkWorld (ui w) (window_Razorpay w) (inflight w)
              (scripts w ++ [k]) (widgets w) (log w)
  | ReadRazorpay k => run (k (window_Razorpay w)) w
  | Emit o k => run k (note o w)
  | SetState f k =>
      run k (mkWorld (f (ui w)) (window_Razorpay w) (inflight w)
                     (scripts w) (widgets w) (log w))
  | OpenCheckout o h d k =>
      run k (mkWorld (ui w) (window_Razorpay w) (inflight w) (scripts w)
                     (widgets w ++ [mkWidget o h d])
                     (log w ++ [CheckoutOpened o]))
  end.

(** Remove the [i]-th element of a list. *)
Fixpoint take_out {A : Type} (i : nat) (l : list A) : option (A * list A) :=
  match l, i with
  | [], _ => None
  | x :: r, O => Some (x, r)
  | x :: r, S j =>
      match take_out j r with
      | Some (y, r') => Some (y, x :: r')
      | None => None
      end
  end.

(** What the surroundings can do to a mounted component. *)
Inductive external : Type :=
| Settle (i : nat) (res : outcome)            (* i-th awaited call settles *)
| ScriptLoaded (i : nat) (defines_sdk : bool) (* i-th script tag: onload *)
| ScriptFailed (i : nat)                      (* i-th script tag: onerror *)
| PaymentSucceeded (i : nat) (resp : checkout_response)
| CheckoutDismissed (i : nat).

(** One turn of the event loop for an external event; [None] when the
    event names nothing that is pending. *)
Definition deliver (e : external) (w : World) : option World :=
  match e with
  | Settle i res =>
      match take_out i (inflight w) with
      | Some ((_, k), rest) =>
          Some (run (k res)
                    (mkWorld (ui w) (window_Razorpay w) rest (scripts w)
                             (widgets w) (log w)))
      | None => None
      end
  | ScriptLoaded i defines_sdk =>
      match take_out i (scripts w) with
      | Some (k, rest) =>
          Some (run (k true)
                    (mkWorld (ui w) (window_Razorpay w || defines_sdk)
                             (inflight w) rest (widgets w) (log w)))
      | None => None
      end
  | ScriptFailed i =>
      match take_out i (scripts w) with
      | Some (k, rest) =>
          Some (run (k false)
                    (mkWorld (ui w) (window_Razorpay w) (inflight w) rest
                             (widgets w) (log w)))
      | None => None
      end
  | PaymentSucceeded i resp =>
      match take_out i (widgets w) with
      | Some (wd, rest) =>
          Some (run (on_success wd resp)
                    (mkWorld (ui w) (window_Razorpay w) (inflight w)
                             (scripts w) rest (log w)))
      | None => None
      end
  | CheckoutDismissed i =>
      match take_out i (widgets w) with
      | Some (wd, rest) =>
          let w' := mkWorld (ui w) (window_Razorpay w) (inflight w)
                            (scripts w) rest (log w) in
          Some (match on_dismiss wd with
                | Some t => run t w'
                | None => w'
                end)
      | None => None
      end
  end.

(** A handler run on its own from its first statement to its last, every
    [await] answered at once by [answer], a script load settling as
    [script_loads] says and, when it loads, defining the SDK or not as
    [script_defines_sdk] says.  The result is the cells, [window.Razorpay]
    and the effects in order.  Callbacks given to a checkout are not run:
    they belong to the widget. *)
Record answers : Type := mkAnswers {
  answer : request -> outcome;
  script_loads : bool;
  script_defines_sdk : bool
}.

Fixpoint complete (env : answers) (t : Task) (s : St) (sdk : bool)
  : St * bool * list obs :=
  match t with
  | Done => (s, sdk, [])
  | Throw e => (s, sdk, [Unhandled e])
  | Await r k =>
      let '(s', sdk', l) := complete env (k (answer env r)) s sdk in
      (s', sdk', Http r :: l)
  | LoadScript k =>
      if script_loads env
      then complete env (k true) s (sdk || script_defines_sdk env)
      else complete env (k false) s sdk
  | ReadRazorpay k => complete env (k sdk) s sdk
  | Emit o k =>
      let '(s', sdk', l) := complete env k s sdk in (s', sdk', o :: l)
  | SetState f k => complete env k (f s) sdk
  | OpenCheckout o _ _ k =>
      let '(s', sdk', l) := complete env k s sdk in
      (s', sdk', CheckoutOpened o :: l)
  end.

End Async.

Arguments Task : clear implicits.
Arguments World : clear implicits.
Arguments widget : clear implicits.

(* ================================================================== *)
(** ** The [Chatbot] component

    Left out: speech input and output ([startListening], [speakResponse]),
    the two reset helpers that nothing calls ([resetBookingUI],
    [resetRoomServiceUI]), and the page reload that the failed ping
    schedules (it is recorded as an effect and not carried out). *)

Module Chatbot.

Definition API_BASE : string := "https://chieftrain.onrender.com".

Inductive sender : Type := user | bot.

(** A chat log entry, [{ from, text }]. *)
Record message : Type := mkMessage {
  from : sender;
  text : JS.value
}.

(** The [paySummary] object.  [status] is absent ([Undefined]) when the
    summary is created and is written only by the verify handler. *)
Record summary : Type := mkSummary {
  amount : JS.value;
  currency : JS.value;
  orderId : JS.value;
  status : JS.value
}.

(** The [useState] cells, in declaration order. *)
Record state : Type := mkState {
  section : option string;
  chatMessages : list message;
  currentInput : string;
  roomNumber : string;
  phoneNumber : string;
  requestText : string;
  requestSuccess : bool;
  email : string;
  roomType : string;
  checkIn : string;
  checkOut : string;
  bookingSuccess : string;
  availability : JS.value;
  openFAQ : option nat;
  isRequestLoading : bool;
  isBookingLoading : bool;
  isCheckingLoading : bool;
  paySummary : option summary;
  loading : bool
}.

Definition initial : state :=
  mkState None [mkMessage bot (JS.Str "How can I help you today?")] ""
          "" "" "" false
          "" "Deluxe" "" "" "" JS.Null None
          false false false None true.

Definition setSection (v : option string) (s : state) : state :=
  mkState v (chatMessages s) (currentInput s) (roomNumber s)
    (phoneNumber s) (requestText s) (requestSuccess s) (email s)
    (roomType s) (checkIn s) (checkOut s) (bookingSuccess s)
    (availability s) (openFAQ s) (isRequestLoading s) (isBookingLoading s)
    (isCheckingLoading s) (paySummary s) (loading s).

Definition setChatMessages (v : list message) (s : state) : state :=
  mkState (section s) v (currentInput s) (roomNumber s) (phoneNumber s)
    (requestText s) (requestSuccess s) (email s) (roomType s) (checkIn s)
    (checkOut s) (bookingSuccess s) (availability s) (openFAQ s)
    (isRequestLoading s) (isBookingLoading s) (isCheckingLoading s)
    (paySummary s) (loading s).

Definition setCurrentInput (v : string) (s : state) : state :=
  mkState (section s) (chatMessages s) v (roomNumber s) (phoneNumber s)
    (requestText s) (requestSuccess s) (email s) (roomType s) (checkIn s)
    (checkOut s) (bookingSuccess s) (availability s) (openFAQ s)
    (isRequestLoading s) (isBookingLoading s) (isCheckingLoading s)
    (paySummary s) (loading s).

Definition setRoomNumber (v : string) (s : state) : state :=
  mkState (section s) (chatMessages s) (currentInput s) v (phoneNumber s)
    (requestText s) (requestSuccess s) (email s) (roomType s) (checkIn s)
    (checkOut s) (bookingSuccess s) (availability s) (openFAQ s)
    (isRequestLoading s) (isBookingLoading s) (isCheckingLoading s)
    (paySummary s) (loading s).

Definition setPhoneNumber (v : string) (s : state) : state :=
  mkState (section s) (chatMessages s) (currentInput s) (roomNumber s) v
    (requestText s) (requestSuccess s) (email s) (roomType s) (checkIn s)
    (checkOut s) (bookingSuccess s) (availability s) (openFAQ s)
    (isRequestLoading s) (isBookingLoading s) (isCheckingLoading s)
    (paySummary s) (loading s).

Definition setRequestText (v : string) (s : state) : state :=
  mkState (section s) (chatMessages s) (currentInput s) (roomNumber s)
    (phoneNumber s) v (requestSuccess s) (email s) (roomType s)
    (checkIn s) (checkOut s) (bookingSuccess s) (availability s)
    (openFAQ s) (isRequestLoading s) (isBookingLoading s)
    (isCheckingLoading s) (paySummary s) (loading s).

Definition setRequestSuccess (v : bool) (s : state) : state :=
  mkState (section s) (chatMessages s) (currentInput s) (roomNumber s)
    (phoneNumber s) (requestText s) v (email s) (roomType s) (checkIn s)
    (checkOut s) (bookingSuccess s) (availability s) (openFAQ s)
    (isRequestLoading s) (isBookingLoading s) (isCheckingLoading s)
    (paySummary s) (loading s).

Definition setEmail (v : string) (s : state) : state :=
  mkState (section s) (chatMessages s) (currentInput s) (roomNumber s)
    (phoneNumber s) (requestText s) (requestSuccess s) v (roomType s)
    (checkIn s) (checkOut s) (bookingSuccess s) (availability s)
    (openFAQ s) (isRequestLoading s) (isBookingLoading s)
    (isCheckingLoading s) (paySummary s) (loading s).

Definition setRoomType (v : string) (s : state) : state :=
  mkState (section s) (chatMessages s) (currentInput s) (roomNumber s)
    (phoneNumber s) (requestText s) (requestSuccess s) (email s) v
    (checkIn s) (checkOut s) (bookingSuccess s) (availability s)
    (openFAQ s) (isRequestLoading s) (isBookingLoading s)
    (isCheckingLoading s) (paySummary s) (loading s).

Definition setCheckIn (v : string) (s : state) : state :=
  mkState (section s) (chatMessages s) (currentInput s) (roomNumber s)
    (phoneNumber s) (requestText s) (requestSuccess s) (email s)
    (roomType s) v (checkOut s) (bookingSuccess s) (availability s)
    (openFAQ s) (isRequestLoading s) (isBookingLoading s)
    (isCheckingLoading s) (paySummary s) (loading s).

Definition setCheckOut (v : string) (s : state) : state :=
  mkState (section s) (chatMessages s) (currentInput s) (roomNumber s)
    (phoneNumber s) (requestText s) (requestSuccess s) (email s)
    (roomType s) (checkIn s) v (bookingSuccess s) (availability s)
    (openFAQ s) (isRequestLoading s) (isBookingLoading s)
    (isCheckingLoading s) (paySummary s) (loading s).

Definition setBookingSuccess (v : string) (s : state) : state :=
  mkState (section s) (chatMessages s) (currentInput s) (roomNumber s)
    (phoneNumber s) (requestText s) (requestSuccess s) (email s)
    (roomType s) (checkIn s) (checkOut s) v (availability s) (openFAQ s)
    (isRequestLoading s) (isBookingLoading s) (isCheckingLoading s)
    (paySummary s) (loading s).

Definition setAvailability (v : JS.value) (s : state) : state :=
  mkState (section s) (chatMessages s) (currentInput s) (roomNumber s)
    (phoneNumber s) (requestText s) (requestSuccess s) (email s)
    (roomType s) (checkIn s) (checkOut s) (bookingSuccess s) v (openFAQ s)
    (isRequestLoading s) (isBookingLoading s) (isCheckingLoading s)
    (paySummary s) (loading s).

Definition setOpenFAQ (v : option nat) (s : state) : state :=
  mkState (section s) (chatMessages s) (currentInput s) (roomNumber s)
    (phoneNumber s) (requestText s) (requestSuccess s) (email s)
    (roomType s) (checkIn s) (checkOut s) (bookingSuccess s)
    (availability s) v (isRequestLoading s) (isBookingLoading s)
    (isCheckingLoading s) (paySummary s) (loading s).

Definition setIsRequestLoading (v : bool) (s : state) : state :=
  mkState (section s) (chatMessages s) (currentInput s) (roomNumber s)
    (phoneNumber s) (requestText s) (requestSuccess s) (email s)
    (roomType s) (checkIn s) (checkOut s) (bookingSuccess s)
    (availability s) (openFAQ s) v (isBookingLoading s)
    (isCheckingLoading s) (paySummary s) (loading s).

Definition setIsBookingLoading (v : bool) (s : state) : state :=
  mkState (section s) (chatMessages s) (currentInput s) (roomNumber s)
    (phoneNumber s) (requestText s) (requestSuccess s) (email s)
    (roomType s) (checkIn s) (checkOut s) (bookingSuccess s)
    (availability s) (openFAQ s) (isRequestLoading s) v
    (isCheckingLoading s) (paySummary s) (loading s).

Definition setIsCheckingLoading (v : bool) (s : state) : state :=
  mkState (section s) (chatMessages s) (currentInput s) (roomNumber s)
    (phoneNumber s) (requestText s) (requestSuccess s) (email s)
    (roomType s) (checkIn s) (checkOut s) (bookingSuccess s)
    (availability s) (openFAQ s) (isRequestLoading s) (isBookingLoading s)
    v (paySummary s) (loading s).

Definition setPaySummary (v : option summary) (s : state) : state :=
  mkState (section s) (chatMessages s) (currentInput s) (roomNumber s)
    (phoneNumber s) (requestText s) (requestSuccess s) (email s)
    (roomType s) (checkIn s) (checkOut s) (bookingSuccess s)
    (availability s) (openFAQ s) (isRequestLoading s) (isBookingLoading s)
    (isCheckingLoading s) v (loading s).

Definition setLoading (v : bool) (s : state) : state :=
  mkState (section s) (chatMessages s) (currentInput s) (roomNumber s)
    (phoneNumber s) (requestText s) (requestSuccess s) (email s)
    (roomType s) (checkIn s) (checkOut s) (bookingSuccess s)
    (availability s) (openFAQ s) (isRequestLoading s) (isBookingLoading s)
    (isCheckingLoading s) (paySummary s) v.

(** *** Event handlers

    Each takes the state of the render whose closure it is. *)

(** [goHome], the Back button of the room-service and booking panels. *)
Definition goHome : Task state :=
  (* clear Booking UI *)
  SetState (setEmail "")
  (SetState (setRoomType "Deluxe")
  (SetState (setCheckIn "")
  (SetState (setCheckOut "")
  (SetState (setAvailability JS.Null)
  (SetState (setPaySummary None)
  (SetState (setBookingSuccess "")
  (SetState (setIsBookingLoading false)
  (SetState (setIsCheckingLoading false)
  (* clear Room Service UI *)
  (SetState (setRoomNumber "")
  (SetState (setPhoneNumber "")
  (SetState (setRequestText "")
  (SetState (setIsRequestLoading false)
  (SetState (setRequestSuccess false)
  (* go to main menu *)
  (SetState (setSection None) Done)))))))))))))).

(** The mount effect: [axios.get(API_BASE/chat/ping).then(..).catch(..)]. *)
Definition ping_request : request :=
  mkRequest GET (API_BASE ++ "/chat/ping") JS.Undefined.

Definition ping : Task state :=
  Await ping_request
    (fun res =>
       match res with
       | Resolved _ => SetState (setLoading false) Done
       | Rejected err =>
           Emit (ConsoleError "Backend not ready yet:" err)
                (Emit ReloadScheduled Done)
       end).

(** [axios.post(API_BASE/chat/, { user_id: email || "guest", message })] *)
Definition chat_request (s : state) : request :=
  mkRequest POST (API_BASE ++ "/chat/")
    (JS.Obj [("user_id", JS.Str (if JS.str_truthy (email s)
                                then email s else "guest"));
             ("message", JS.Str (currentInput s))]).

Definition handleChatSubmit (s : state) : Task state :=
  if negb (JS.str_truthy (JS.trim (currentInput s))) then Done
  else
    let userMessage := mkMessage user (JS.Str (currentInput s)) in
    SetState (fun prev => setChatMessages (chatMessages prev ++ [userMessage]) prev)
    (SetState (setCurrentInput "")
    (try_catch
       (await (chat_request s)
          (fun data =>
             member data "response" (fun response =>
             let botMessage := mkMessage bot response in
             SetState (fun prev =>
                         setChatMessages (chatMessages prev ++ [botMessage]) prev)
             (SetState (setCurrentInput "") Done))))
       (fun err => Emit (ConsoleError "Chat error:" err) Done))).

Definition room_service_request (s : state) : request :=
  mkRequest POST (API_BASE ++ "/request/")
    (JS.Obj [("room_number", JS.Str (roomNumber s));
             ("phone_number", JS.Str (phoneNumber s));
             ("request", JS.Str (requestText s))]).

Definition handleRequestSubmit (s : state) : Task state :=
  if negb (JS.str_truthy (roomNumber s))
     || negb (JS.str_truthy (phoneNumber s))
     || negb (JS.str_truthy (requestText s))
  then Emit (Alert "Please fill all fields.") Done
  else
    SetState (setIsRequestLoading true)
    (try_finally
       (await (room_service_request s)
          (fun _ =>
             SetState (setRequestSuccess true)
             (SetState (setRoomNumber "")
             (SetState (setPhoneNumber "")
             (SetState (setRequestText "") Done)))))
       (SetState (setIsRequestLoading false) Done)).

Definition verify_request (resp : checkout_response) : request :=
  mkRequest POST (API_BASE ++ "/booking/payment/verify")
    (JS.Obj [("razorpay_order_id", razorpay_order_id resp);
             ("razorpay_payment_id", razorpay_payment_id resp);
             ("razorpay_signature", razorpay_signature resp)]).

(** [{ ...prev, status: "paid" }] *)
Definition mark_paid (prev : summary) : summary :=
  mkSummary (amount prev) (currency prev) (orderId prev) (JS.Str "paid").

(** The Razorpay success callback built by [handleBookingSubmit]:
    verify server-side, then mark the summary paid and clear the form.
    It has no [try]: a rejected verify call rejects the callback. *)
Definition verify_handler (resp : checkout_response) : Task state :=
  await (verify_request resp)
    (fun _ =>
       SetState (fun st =>
                   setPaySummary
                     (match paySummary st with
                      | Some prev => Some (mark_paid prev)
                      | None => None
                      end) st)
       (SetState (setBookingSuccess "✅ Payment successful! Your booking is confirmed.")
       (SetState (setEmail "")
       (SetState (setRoomType "Deluxe")
       (SetState (setCheckIn "")
       (SetState (setCheckOut "")
       (SetState (setAvailability JS.Null) Done))))))).

(** The text of the [catch] block's alert:
    [err?.response?.data?.detail || err?.message || "Booking/payment failed."] *)
Definition booking_alert (err : JS.error) : string :=
  JS.to_string
    (JS.or (JS.or (JS.opt (JS.response_data err) "detail")
                  (JS.Str (JS.message err)))
           (JS.Str "Booking/payment failed.")).

Definition booking_request (s : state) : request :=
  mkRequest POST (API_BASE ++ "/booking/")
    (JS.Obj [("user_id", JS.Str (email s));
             ("name", JS.Str (email s));
             ("room_type", JS.Str (roomType s));
             ("check_in", JS.Str (checkIn s));
             ("check_out", JS.Str (checkOut s))]).

(** [axios.post(`${API_BASE}/booking/${booking.id}/create-order`)] *)
Definition order_request (id : JS.value) : request :=
  mkRequest POST (API_BASE ++ "/booking/" ++ JS.to_string id ++ "/create-order")
    JS.Undefined.

Definition handleBookingSubmit (s : state) : Task state :=
  if negb (JS.str_truthy (email s))
     || negb (JS.str_truthy (checkIn s))
     || negb (JS.str_truthy (checkOut s))
  then Emit (Alert "Please fill all fields.") Done
  else
    SetState (setIsBookingLoading true)
    (try_finally
       (try_catch
          (* 1) Create booking on backend *)
          (await (booking_request s)
             (fun data =>
                let booking := JS.opt data "booking" in
                let id := JS.opt booking "id" in
                if negb (JS.truthy id)
                then Throw (JS.Error "Booking create failed")
                else
                  (* 2) Create Razorpay order for this booking *)
                  await (order_request id)
                    (fun data =>
                       (* const { key_id, order } = orderRes.data *)
                       destructure data "key_id" "orderRes.data" (fun key_id =>
                       let order := JS.opt data "order" in
                       member order "amount" (fun order_amount =>
                       SetState (setPaySummary
                                   (Some (mkSummary order_amount
                                                    (JS.opt order "currency")
                                                    (JS.opt order "id")
                                                    JS.Undefined)))
                       (* 3) Ensure Razorpay is loaded *)
                       (loadRazorpay
                          (ReadRazorpay (fun present =>
                             if negb present
                             then Throw (JS.Error "Razorpay SDK not available")
                             else
                               (* 4) Open Razorpay Checkout *)
                               OpenCheckout
                                 (mkOptions key_id (JS.opt order "id")
                                    "The Grand Palace Hotel"
                                    ("Room booking for " ++ email s)
                                    (JS.Str (email s)) (JS.Str (email s))
                                    id None)
                                 verify_handler None Done))))))))
          (fun err =>
             Emit (ConsoleError "Book & Pay error:" err)
                  (Emit (Alert (booking_alert err)) Done)))
       (SetState (setIsBookingLoading false) Done)).

Definition availability_request (s : state) : request :=
  mkRequest GET (API_BASE ++ "/booking/availability/")
    (JS.Obj [("check_in", JS.Str (checkIn s));
             ("check_out", JS.Str (checkOut s))]).

Definition checkRoomAvailability (s : state) : Task state :=
  if negb (JS.str_truthy (checkIn s)) || negb (JS.str_truthy (checkOut s))
  then Emit (Alert "Select both check-in & check-out dates.") Done
  else
    SetState (setIsCheckingLoading true)
    (try_finally
       (try_catch
          (await (availability_request s)
             (fun data => SetState (setAvailability data) Done))
          (fun err =>
             Emit (ConsoleError "Availability check failed:" err)
                  (Emit (Alert "Failed to fetch availability.") Done)))
       (SetState (setIsCheckingLoading false) Done)).

(** *** What is rendered *)

(** [disabled={...}] of the three buttons that carry one.  The chat
    send button has no [disabled] attribute. *)
Definition send_request_disabled (s : state) : bool := isRequestLoading s.
Definition check_availability_disabled (s : state) : bool := isCheckingLoading s.
Definition book_pay_disabled (s : state) : bool := isBookingLoading s.
Definition chat_send_disabled (s : state) : bool := false.

(** The status chip of the payment summary. *)
Definition chip_text (p : summary) : string :=
  if JS.is_str (status p) "paid" then "Paid" else "Payment Pending".

Definition chip_class (p : summary) : string :=
  "chip " ++ (if JS.is_str (status p) "paid" then "chip--paid" else "chip--pending").

(** [₹{(paySummary.amount / 100).toFixed(2)} {paySummary.currency}],
    the text after the [Amount:] label. *)
Definition price_text (p : summary) : option string :=
  match JS.amount_text (amount p), JS.child (currency p) with
  | Some a, Some c => Some ("₹" ++ a ++ " " ++ c)
  | _, _ => None
  end.

(** The booking panel's payment block: [None] while [paySummary] is
    [null], else the chip text and the price text. *)
Definition payment_block (s : state) : option (string * option string) :=
  match paySummary s with
  | Some p => Some (chip_text p, price_text p)
  | None => None
  end.

(** The availability list: shown when [availability] is truthy, with
    the three counts read off it. *)
Definition availability_list (s : state)
  : option (JS.value * JS.value * JS.value) :=
  if JS.truthy (availability s)
  then Some (JS.opt (availability s) "Deluxe",
             JS.opt (availability s) "Suite",
             JS.opt (availability s) "Standard")
  else None.

(** *** User actions

    One constructor per control.  The [select] offers three options, so
    a selection carries one of them.  The two microphone buttons (speech
    recognition) are left out. *)
Inductive room_option : Type := Deluxe | Suite | Standard.

Definition option_value (o : room_option) : string :=
  match o with
  | Deluxe => "Deluxe"
  | Suite => "Suite"
  | Standard => "Standard"
  end.

Inductive menu_button : Type := AskQuestion | RoomService | BookRoom | FAQs.

Definition menu_target (b : menu_button) : string :=
  match b with
  | AskQuestion => "faq"
  | RoomService => "request"
  | BookRoom => "booking"
  | FAQs => "faqList"
  end.

Inductive action : Type :=
(* main menu *)
| OpenSection (b : menu_button)
(* chat panel *)
| TypeChat (v : string)
| ClickChatSend
| ClickChatBack
(* room-service panel *)
| TypeRoomNumber (v : string)
| TypePhoneNumber (v : string)
| TypeRequest (v : string)
| ClickSendRequest
(* booking panel *)
| TypeEmail (v : string)
| SelectRoomType (o : room_option)
| PickCheckIn (v : string)
| PickCheckOut (v : string)
| ClickCheckAvailability
| ClickBookPay
(* Back in the room-service and booking panels *)
| ClickBack
(* FAQ list *)
| ToggleFAQ (idx : nat)
| ClickFAQBack.

Definition shows (s : state) (name : string) : bool :=
  match section s with
  | Some n => String.eqb n name
  | None => false
  end.

Definition at_menu (s : state) : bool :=
  match section s with
  | Some n => negb (JS.str_truthy n)      (* !section *)
  | None => true
  end.

Definition when (b : bool) (t : Task state) : option (Task state) :=
  if b then Some t else None.

(** The handler a user action runs, or [None] when its control is not
    on screen (spinner, other panel) or is disabled. *)
Definition handler_of (s : state) (a : action) : option (Task state) :=
  if loading s then None
  else
    match a with
    | OpenSection b =>
        when (at_menu s) (SetState (setSection (Some (menu_target b))) Done)
    | TypeChat v => when (shows s "faq") (SetState (setCurrentInput v) Done)
    | ClickChatSend => when (shows s "faq") (handleChatSubmit s)
    | ClickChatBack => when (shows s "faq") (SetState (setSection None) Done)
    | TypeRoomNumber v =>
        when (shows s "request") (SetState (setRoomNumber v) Done)
    | TypePhoneNumber v =>
        when (shows s "request") (SetState (setPhoneNumber v) Done)
    | TypeRequest v =>
        when (shows s "request") (SetState (setRequestText v) Done)
    | ClickSendRequest =>
        when (shows s "request" && negb (send_request_disabled s))
             (handleRequestSubmit s)
    | TypeEmail v => when (shows s "booking") (SetState (setEmail v) Done)
    | SelectRoomType o =>
        when (shows s "booking") (SetState (setRoomType (option_value o)) Done)
    | PickCheckIn v => when (shows s "booking") (SetState (setCheckIn v) Done)
    | PickCheckOut v => when (shows s "booking") (SetState (setCheckOut v) Done)
    | ClickCheckAvailability =>
        when (shows s "booking" && negb (check_availability_disabled s))
             (checkRoomAvailability s)
    | ClickBookPay =>
        when (shows s "booking" && negb (book_pay_disabled s))
             (handleBookingSubmit s)
    | ClickBack =>
        when (shows s "request" || shows s "booking") goHome
    | ToggleFAQ idx =>
        when (shows s "faqList" && Nat.ltb idx 12)
             (SetState (setOpenFAQ
                          (match openFAQ s with
                           | Some j => if Nat.eqb j idx then None else Some idx
                           | None => Some idx
                           end)) Done)
    | ClickFAQBack => when (shows s "faqList") (SetState (setSection None) Done)
    end.

Inductive event : Type :=
| User (a : action)
| Env (e : external).

(** One turn of the event loop. *)
Definition step (w : World state) (ev : event) : option (World state) :=
  match ev with
  | User a =>
      match handler_of (ui w) a with
      | Some t => Some (run t w)
      | None => None
      end
  | Env e => deliver e w
  end.

Fixpoint steps (w : World state) (evs : list event) : option (World state) :=
  match evs with
  | [] => Some w
  | ev :: rest =>
      match step w ev with
      | Some w' => steps w' rest
      | None => None
      end
  end.

(** The component as mounted: initial cells, the ping in flight. *)
Definition mounted (sdk_present : bool) : World state :=
  run ping (mkWorld initial sdk_present [] [] [] []).

End Chatbot.

(* ================================================================== *)
(** ** The [PaymentPage] component *)

Module PaymentPage.

Definition API_BASE : string := "http://localhost:8000".

Record state : Type := mkState {
  bookingId : string;
  creating : bool;
  order : JS.value;
  keyId : JS.value;
  sdkReady : bool
}.

Definition initial : state := mkState "" false JS.Null (JS.Str "") false.

Definition setBookingId (v : string) (s : state) : state :=
  mkState v (creating s) (order s) (keyId s) (sdkReady s).
Definition setCreating (v : bool) (s : state) : state :=
  mkState (bookingId s) v (order s) (keyId s) (sdkReady s).
Definition setOrder (v : JS.value) (s : state) : state :=
  mkState (bookingId s) (creating s) v (keyId s) (sdkReady s).
Definition setKeyId (v : JS.value) (s : state) : state :=
  mkState (bookingId s) (creating s) (order s) v (sdkReady s).
Definition setSdkReady (v : bool) (s : state) : state :=
  mkState (bookingId s) (creating s) (order s) (keyId s) v.

(** The mount effect:
    [loadRazorpay().then(() => setSdkReady(true)).catch(() => alert(..))]. *)
Definition load_sdk : Task state :=
  try_catch (loadRazorpay (SetState (setSdkReady true) Done))
    (fun _ =>
       Emit (Alert "Could not load Razorpay. Check your network/adblock.") Done).

(** [e?.response?.data?.detail || "Failed to create order. ..."] *)
Definition order_alert (e : JS.error) : string :=
  JS.to_string
    (JS.or (JS.opt (JS.response_data e) "detail")
           (JS.Str "Failed to create order. Check backend logs.")).

(** [axios.post(`${API_BASE}/booking/${bookingId}/create-order`)] *)
Definition order_request (s : state) : request :=
  mkRequest POST (API_BASE ++ "/booking/" ++ bookingId s ++ "/create-order")
    JS.Undefined.

Definition createOrder (s : state) : Task state :=
  if negb (JS.str_truthy (JS.trim (bookingId s)))
  then Emit (Alert "Enter a Booking ID first.") Done
  else
    SetState (setCreating true)
    (try_finally
       (try_catch
          (await (order_request s)
             (fun data =>
                member data "order" (fun data_order =>
                SetState (setOrder data_order)
                (SetState (setKeyId (JS.opt data "key_id"))
                (member data_order "id" (fun id =>
                 Emit (Alert ("Order created: " ++ JS.to_string id)) Done))))))
          (fun e =>
             Emit (ConsoleError "" e) (Emit (Alert (order_alert e)) Done)))
       (SetState (setCreating false) Done)).

(** [e?.response?.data?.detail || "Verification failed. ..."] *)
Definition verify_alert (e : JS.error) : string :=
  JS.to_string
    (JS.or (JS.opt (JS.response_data e) "detail")
           (JS.Str "Verification failed. See server logs for details.")).

Definition verify_request (resp : checkout_response) : request :=
  mkRequest POST (API_BASE ++ "/booking/payment/verify")
    (JS.Obj [("razorpay_order_id", razorpay_order_id resp);
             ("razorpay_payment_id", razorpay_payment_id resp);
             ("razorpay_signature", razorpay_signature resp)]).

(** The success callback built by [payNow]. *)
Definition verify_handler (resp : checkout_response) : Task state :=
  try_catch
    (await (verify_request resp)
       (fun _ => Emit (Alert "✅ Payment verified! Booking confirmed.") Done))
    (fun e => Emit (ConsoleError "" e) (Emit (Alert (verify_alert e)) Done)).

(** The options [payNow] passes to [new window.Razorpay]. *)
Definition pay_options (s : state) : checkout_options :=
  mkOptions (keyId s) (JS.opt (order s) "id")
    "The Grand Palace Hotel" "Room booking payment"
    (JS.Str "Guest") (JS.Str "guest@example.com")
    (JS.Str (bookingId s)) (Some "#3399cc").

Definition payNow (s : state) : Task state :=
  if negb (JS.truthy (order s)) || negb (JS.truthy (keyId s))
  then Emit (Alert "Create an order first.") Done
  else
    ReadRazorpay (fun present =>
      if negb (sdkReady s) || negb present
      then Emit (Alert "Razorpay SDK not loaded yet.") Done
      else
        OpenCheckout (pay_options s)
          verify_handler
          (Some (Emit (Alert "❌ Payment cancelled by user.") Done))
          Done).

(** *** What is rendered *)

Definition create_order_disabled (s : state) : bool := creating s.

Definition pay_now_disabled (s : state) : bool :=
  negb (JS.truthy (order s)) || negb (JS.truthy (keyId s)) || negb (sdkReady s).

(** [₹{(order.amount / 100).toFixed(2)} {order.currency}] *)
Definition price_text (o : JS.value) : option string :=
  match JS.amount_text (JS.opt o "amount"), JS.child (JS.opt o "currency") with
  | Some a, Some c => Some ("₹" ++ a ++ " " ++ c)
  | _, _ => None
  end.

(** [{order.status || "created"}] *)
Definition status_text (o : JS.value) : option string :=
  JS.child (JS.or (JS.opt o "status") (JS.Str "created")).

(** The order block: [None] while [order] is falsy, else the price and
    status texts. *)
Definition order_block (s : state) : option (option string * option string) :=
  if JS.truthy (order s)
  then Some (price_text (order s), status_text (order s))
  else None.

(** *** User actions *)
Inductive action : Type :=
| TypeBookingId (v : string)
| ClickCreateOrder
| ClickPayNow.

Definition handler_of (s : state) (a : action) : option (Task state) :=
  match a with
  | TypeBookingId v => Some (SetState (setBookingId v) Done)
  | ClickCreateOrder =>
      if create_order_disabled s then None else Some (createOrder s)
  | ClickPayNow =>
      if pay_now_disabled s then None else Some (payNow s)
  end.

Inductive event : Type :=
| User (a : action)
| Env (e : external).

Definition step (w : World state) (ev : event) : option (World state) :=
  match ev with
  | User a =>
      match handler_of (ui w) a with
      | Some t => Some (run t w)
      | None => None
      end
  | Env e => deliver e w
  end.

Fixpoint steps (w : World state) (evs : list event) : option (World state) :=
  match evs with
  | [] => Some w
  | ev :: rest =>
      match step w ev with
      | Some w' => steps w' rest
      | None => None
      end
  end.

Definition mounted (sdk_present : bool) : World state :=
  run load_sdk (mkWorld initial sdk_present [] [] [] []).

End PaymentPage.

(* ================================================================== *)
(** ** Vocabulary of the properties *)

(** A byte sequence that consists of white-space code points only (the
    empty sequence included). *)
Inductive blank : list nat -> Prop :=
| blank_nil : blank []
| blank_cons (t l : list nat) :
    In t JS.white_space -> blank l -> blank (t ++ l).

(** The displayed amount in the specification's words: the amount in minor units
    divided by 100 and written with two decimal places, that is the
    decimal digits of the quotient by 100, a point, then the tens and
    the ones digit of the amount, with the sign in front.  To be
    compared with [JS.div100_toFixed2], which follows the steps of
    [toFixed]. *)
Definition two_decimal_places (a : Z) : string :=
  (if Z.ltb a 0 then "-" else "")
  ++ JS.dec (Z.abs a / 100) ++ "."
  ++ JS.dec (Z.abs a / 10 mod 10) ++ JS.dec (Z.abs a mod 10).

(** The world a trace of events leads to; an event that cannot happen
    where it stands is skipped. *)
Fixpoint chatbot_after (w : World Chatbot.state) (evs : list Chatbot.event)
  : World Chatbot.state :=
  match evs with
  | [] => w
  | ev :: rest =>
      match Chatbot.step w ev with
      | Some w' => chatbot_after w' rest
      | None => chatbot_after w rest
      end
  end.

Fixpoint payment_after (w : World PaymentPage.state)
         (evs : list PaymentPage.event) : World PaymentPage.state :=
  match evs with
  | [] => w
  | ev :: rest =>
      match PaymentPage.step w ev with
      | Some w' => payment_after w' rest
      | None => payment_after w rest
      end
  end.

(** The example scenario: a Suite from 2024-06-01 to 2024-06-03. *)
Definition example_booking_data : JS.value :=
  JS.Obj [("booking", JS.Obj [("id", JS.Str "abc-123")])].

Definition example_order_data : JS.value :=
  JS.Obj [("key_id", JS.Str "rzp_test_x");
          ("order", JS.Obj [("id", JS.Str "order_1");
                            ("amount", JS.Num 400000);
                            ("currency", JS.Str "INR")])].

Definition example_payment : checkout_response :=
  mkResponse (JS.Str "order_1") (JS.Str "pay_1") (JS.Str "sig_1").

(** The booking panel filled in as in the scenario, the backend awake. *)
Definition example_form : list Chatbot.event :=
  [ Chatbot.Env (Settle 0 (Resolved JS.Null));
    Chatbot.User (Chatbot.OpenSection Chatbot.BookRoom);
    Chatbot.User (Chatbot.TypeEmail "guest@example.com");
    Chatbot.User (Chatbot.SelectRoomType Chatbot.Suite);
    Chatbot.User (Chatbot.PickCheckIn "2024-06-01");
    Chatbot.User (Chatbot.PickCheckOut "2024-06-03") ].

(** ... then booked, the order created and the checkout opened ... *)
Definition example_checkout : list Chatbot.event :=
  example_form ++
  [ Chatbot.User Chatbot.ClickBookPay;
    Chatbot.Env (Settle 0 (Resolved example_booking_data));
    Chatbot.Env (Settle 0 (Resolved example_order_data)) ].

(** ... then paid and verified. *)
Definition example_paid : list Chatbot.event :=
  example_checkout ++
  [ Chatbot.Env (PaymentSucceeded 0 example_payment);
    Chatbot.Env (Settle 0 (Resolved JS.Null)) ].

(** The Payment Page with the scenario's booking id typed in. *)
Definition example_page : list PaymentPage.event :=
  [ PaymentPage.User (PaymentPage.TypeBookingId "abc-123") ].

(** What stays suspended at the [await] of [checkRoomAvailability]: the
    rest of its [try] block with its [catch] and [finally]. *)
Definition availability_settled (res : outcome) : Task Chatbot.state :=
  try_finally
    (try_catch
       (match res with
        | Resolved data => SetState (Chatbot.setAvailability data) Done
        | Rejected e => Throw e
        end)
       (fun err =>
          Emit (ConsoleError "Availability check failed:" err)
               (Emit (Alert "Failed to fetch availability.") Done)))
    (SetState (Chatbot.setIsCheckingLoading false) Done).

(** Two availability answers. *)
Definition counts (deluxe suite standard : Z) : JS.value :=
  JS.Obj [("Deluxe", JS.Num deluxe); ("Suite", JS.Num suite);
          ("Standard", JS.Num standard)].


(** A query for June is started; the panel is left and entered again
    and a query for July is started and answered. *)
Definition overtaken_query : list Chatbot.event :=
  [ Chatbot.Env (Settle 0 (Resolved JS.Null));
    Chatbot.User (Chatbot.OpenSection Chatbot.BookRoom);
    Chatbot.User (Chatbot.PickCheckIn "2024-06-01");
    Chatbot.User (Chatbot.PickCheckOut "2024-06-03");
    Chatbot.User Chatbot.ClickCheckAvailability;
    Chatbot.User Chatbot.ClickBack;
    Chatbot.User (Chatbot.OpenSection Chatbot.BookRoom);
    Chatbot.User (Chatbot.PickCheckIn "2024-07-10");
    Chatbot.User (Chatbot.PickCheckOut "2024-07-12");
    Chatbot.User Chatbot.ClickCheckAvailability;
    Chatbot.Env (Settle 1 (Resolved (counts 5 2 9))) ].

(** An order is created for one booking, the booking id is edited, and
    Pay Now is pressed. *)
Definition order_for (id : string) : JS.value :=
  JS.Obj [("key_id", JS.Str "rzp_test_x");
          ("order", JS.Obj [("id", JS.Str ("order_for_" ++ id));
                            ("amount", JS.Num 400000);
                            ("currency", JS.Str "INR")])].

Definition stale_order : list PaymentPage.event :=
  [ PaymentPage.User (PaymentPage.TypeBookingId "booking-A");
    PaymentPage.User PaymentPage.ClickCreateOrder;
    PaymentPage.Env (Settle 0 (Resolved (order_for "booking-A")));
    PaymentPage.User (PaymentPage.TypeBookingId "booking-B");
    PaymentPage.User PaymentPage.ClickPayNow ].

Definition network_error : JS.error := JS.Error "Network Error".

(** A chat message is sent and the call fails. *)
Definition failed_chat : list Chatbot.event :=
  [ Chatbot.Env (Settle 0 (Resolved JS.Null));
    Chatbot.User (Chatbot.OpenSection Chatbot.AskQuestion);
    Chatbot.User (Chatbot.TypeChat "Is breakfast free?");
    Chatbot.User Chatbot.ClickChatSend;
    Chatbot.Env (Settle 0 (Rejected network_error)) ].

(** *** Invariants of the cells

    A task [obeys] an invariant [I] of the cells when every state update
    it can ever make keeps [I] — in the task itself, in what stays
    suspended at its [await]s, and in the callbacks it hands to a
    checkout.  [exempt r res] singles out settlements (call [r] settling
    as [res]) after which nothing is promised. *)
Section Obeying.

Context {St : Type}.
Variable I : St -> Prop.
Variable exempt : request -> outcome -> bool.

Fixpoint obeys (t : Task St) : Prop :=
  match t with
  | Done | Throw _ => True
  | Await r k => forall res, exempt r res = false -> obeys (k res)
  | LoadScript k => forall b, obeys (k b)
  | ReadRazorpay k => forall b, obeys (k b)
  | Emit _ k => obeys k
  | SetState f k => (forall s, I s -> I (f s)) /\ obeys k
  | OpenCheckout _ h d k =>
      (forall resp, obeys (h resp))
      /\ match d with Some t' => obeys t' | None => True end
      /\ obeys k
  end.

Definition call_obeys (rk : request * (outcome -> Task St)) : Prop :=
  forall res, exempt (fst rk) res = false -> obeys (snd rk res).

Definition script_obeys (k : bool -> Task St) : Prop := forall b, obeys (k b).

Definition widget_obeys (wd : widget St) : Prop :=
  (forall resp, obeys (on_success wd resp))
  /\ match on_dismiss wd with Some t => obeys t | None => True end.

(** The invariant holds now and everything pending will keep it. *)
Definition world_obeys (w : World St) : Prop :=
  I (ui w)
  /\ Forall call_obeys (inflight w)
  /\ Forall script_obeys (scripts w)
  /\ Forall widget_obeys (widgets w).

(** The external event is an exempt settlement. *)
Definition exempted (w : World St) (e : external) : bool :=
  match e with
  | Settle i res =>
      match nth_error (inflight w) i with
      | Some (r, _) => exempt r res
      | None => false
      end
  | _ => false
  end.

End Obeying.

(** *** Reachable worlds of the two components *)

(** The mounted [Chatbot] after any events. *)
Inductive chatbot_reachable : World Chatbot.state -> Prop :=
| chatbot_mounted (sdk : bool) : chatbot_reachable (Chatbot.mounted sdk)
| chatbot_stepped (w w' : World Chatbot.state) (ev : Chatbot.event) :
    chatbot_reachable w -> Chatbot.step w ev = Some w' -> chatbot_reachable w'.

(** The room type is one of the three options of the [select]. *)
Definition room_type_offered (s : Chatbot.state) : Prop :=
  Chatbot.roomType s = "Deluxe"
  \/ Chatbot.roomType s = "Suite"
  \/ Chatbot.roomType s = "Standard".

Definition never (r : request) (res : outcome) : bool := false.

(** *** Before a payment is verified *)

(** The call is a payment verification and it succeeds. *)
Definition verification_succeeds (r : request) (res : outcome) : bool :=
  String.eqb (url r) (Chatbot.API_BASE ++ "/booking/payment/verify")
  && match res with Resolved _ => true | Rejected _ => false end.

Definition verifies (w : World Chatbot.state) (ev : Chatbot.event) : bool :=
  match ev with
  | Chatbot.Env e => exempted verification_succeeds w e
  | Chatbot.User _ => false
  end.

(** The mounted [Chatbot] after any events among which no verify call
    has succeeded. *)
Inductive chatbot_unverified : World Chatbot.state -> Prop :=
| unverified_mounted (sdk : bool) : chatbot_unverified (Chatbot.mounted sdk)
| unverified_stepped (w w' : World Chatbot.state) (ev : Chatbot.event) :
    chatbot_unverified w -> verifies w ev = false ->
    Chatbot.step w ev = Some w' -> chatbot_unverified w'.

(** Every event of the trace happens and none is a successful
    verification. *)
Fixpoint unverified_trace (w : World Chatbot.state) (evs : list Chatbot.event)
  : bool :=
  match evs with
  | [] => true
  | ev :: rest =>
      negb (verifies w ev)
      && match Chatbot.step w ev with
         | Some w' => unverified_trace w' rest
         | None => false
         end
  end.

(** The payment summary, if there is one, carries no status yet. *)
Definition unpaid (s : Chatbot.state) : Prop :=
  forall p, Chatbot.paySummary s = Some p -> Chatbot.status p = JS.Undefined.

(** The Payment Page: an order is created, paid in the checkout, and
    the payment is verified. *)
Definition page_order_created : list PaymentPage.event :=
  [ PaymentPage.User (PaymentPage.TypeBookingId "abc-123");
    PaymentPage.User PaymentPage.ClickCreateOrder;
    PaymentPage.Env (Settle 0 (Resolved example_order_data)) ].

Definition page_verified : list PaymentPage.event :=
  page_order_created ++
  [ PaymentPage.User PaymentPage.ClickPayNow;
    PaymentPage.Env (PaymentSucceeded 0 example_payment);
    PaymentPage.Env (Settle 0 (Resolved JS.Null)) ].

(** A backend that refuses every call with a [detail], and one that is
    unreachable. *)
Definition sold_out : JS.error :=
  JS.mkError "Request failed with status code 409"
             (JS.Obj [("detail", JS.Str "No rooms left for these dates")]).

Definition refusing_backend : answers :=
  mkAnswers (fun _ => Rejected sold_out) true true.

Definition unreachable_backend : answers :=
  mkAnswers (fun _ => Rejected network_error) true true.

(** *** Loading flags

    A loading flag ([flag]) guards an operation whose calls are singled
    out by [mine]; [scripts_mine] says whether a script load belongs to
    it too.  A task is a [bystander] when it never writes the flag and
    never issues one of these calls.  It is the [owner] of the flag when
    every call it awaits is one of them and, until the first update that
    may write the flag, it awaits nothing else; after that update it is a
    bystander. *)
Section Discipline.

Context {St : Type}.
Variable flag : St -> bool.
Variable mine : request -> bool.
Variable scripts_mine : bool.

Fixpoint bystander (t : Task St) : Prop :=
  match t with
  | Done | Throw _ => True
  | Await r k => mine r = false /\ forall res, bystander (k res)
  | LoadScript k => scripts_mine = false /\ forall b, bystander (k b)
  | ReadRazorpay k => forall b, bystander (k b)
  | Emit _ k => bystander k
  | SetState f k => (forall s, flag (f s) = flag s) /\ bystander k
  | OpenCheckout _ h d k =>
      (forall resp, bystander (h resp))
      /\ match d with Some t' => bystander t' | None => True end
      /\ bystander k
  end.

Fixpoint owner (t : Task St) : Prop :=
  match t with
  | Done | Throw _ => True
  | Await r k => mine r = true /\ forall res, owner (k res)
  | LoadScript k => scripts_mine = true /\ forall b, owner (k b)
  | ReadRazorpay k => forall b, owner (k b)
  | Emit _ k => owner k
  | SetState f k =>
      ((forall s, flag (f s) = flag s) /\ owner k) \/ bystander k
  | OpenCheckout _ h d k =>
      (forall resp, bystander (h resp))
      /\ match d with Some t' => bystander t' | None => True end
      /\ owner k
  end.

(** A click handler of the operation: it sets the flag and owns it. *)
Definition starter (t : Task St) : Prop :=
  match t with
  | SetState f k => (forall s, flag (f s) = true) /\ owner k
  | _ => False
  end.

Definition call_mine (rk : request * (outcome -> Task St)) : bool :=
  mine (fst rk).

(** How many suspended continuations belong to the operation. *)
Definition pending_mine (w : World St) : nat :=
  length (filter call_mine (inflight w))
  + (if scripts_mine then length (scripts w) else 0).

Definition call_tidy (rk : request * (outcome -> Task St)) : Prop :=
  forall res, if mine (fst rk) then owner (snd rk res)
              else bystander (snd rk res).

Definition script_tidy (k : bool -> Task St) : Prop :=
  forall b, if scripts_mine then owner (k b) else bystander (k b).

Definition widget_tidy (wd : widget St) : Prop :=
  (forall resp, bystander (on_success wd resp))
  /\ match on_dismiss wd with Some t => bystander t | None => True end.

Definition tidy (w : World St) : Prop :=
  Forall call_tidy (inflight w)
  /\ Forall script_tidy (scripts w)
  /\ Forall widget_tidy (widgets w).

(** At most one continuation of the operation is suspended, and none
    when the flag is clear. *)
Definition disciplined (w : World St) : Prop :=
  tidy w
  /\ pending_mine w <= 1
  /\ (flag (ui w) = false -> pending_mine w = 0).

End Discipline.

(** *** The four guarded operations *)

Definition is_post (r : request) : bool :=
  match meth r with POST => true | GET => false end.

Definition is_get (r : request) : bool :=
  match meth r with GET => true | POST => false end.

(** [s] ends with [suffix]. *)
Definition ends_with (suffix s : string) : bool :=
  match JS.drop_prefix (rev (JS.bytes suffix)) (rev (JS.bytes s)) with
  | Some _ => true
  | None => false
  end.

(** [POST /request/] *)
Definition is_room_service_call (r : request) : bool :=
  is_post r && String.eqb (url r) (Chatbot.API_BASE ++ "/request/").

(** [GET /booking/availability/] *)
Definition is_availability_call (r : request) : bool :=
  is_get r && String.eqb (url r) (Chatbot.API_BASE ++ "/booking/availability/").

(** [POST /booking/] and [POST /booking/{id}/create-order], the two
    calls of Book & Pay. *)
Definition is_booking_call (r : request) : bool :=
  is_post r
  && (String.eqb (url r) (Chatbot.API_BASE ++ "/booking/")
      || ends_with "/create-order" (url r)).

(** [POST /booking/{id}/create-order] *)
Definition is_order_call (r : request) : bool :=
  is_post r && ends_with "/create-order" (url r).

(** The mounted [Chatbot] in a world where Back has not been pressed
    since the operation ([mine], [scripts_mine]) last had nothing
    suspended: some reachable world had no call and no script load of
    the operation suspended, and no event since was a press of Back.
    A press of Back while the operation is idle leads to such a world
    again. *)
Inductive chatbot_kept (mine : request -> bool) (scripts_mine : bool)
  : World Chatbot.state -> Prop :=
| kept_idle (w : World Chatbot.state) :
    chatbot_reachable w -> pending_mine mine scripts_mine w = 0 ->
    chatbot_kept mine scripts_mine w
| kept_stepped (w w' : World Chatbot.state) (ev : Chatbot.event) :
    chatbot_kept mine scripts_mine w ->
    ev <> Chatbot.User Chatbot.ClickBack ->
    Chatbot.step w ev = Some w' -> chatbot_kept mine scripts_mine w'.

(** The mounted [PaymentPage] after any events. *)
Inductive payment_reachable : World PaymentPage.state -> Prop :=
| payment_mounted (sdk : bool) : payment_reachable (PaymentPage.mounted sdk)
| payment_stepped (w w' : World PaymentPage.state) (ev : PaymentPage.event) :
    payment_reachable w -> PaymentPage.step w ev = Some w' ->
    payment_reachable w'.

(** Two chat messages sent in a row, neither answered yet. *)
Definition double_chat : list Chatbot.event :=
  [ Chatbot.Env (Settle 0 (Resolved JS.Null));
    Chatbot.User (Chatbot.OpenSection Chatbot.AskQuestion);
    Chatbot.User (Chatbot.TypeChat "Is breakfast free?");
    Chatbot.User Chatbot.ClickChatSend;
    Chatbot.User (Chatbot.TypeChat "Is breakfast free?");
    Chatbot.User Chatbot.ClickChatSend ].

(** An availability query is started and the panel is left and entered
    again while it is in flight. *)
Definition back_during_query : list Chatbot.event :=
  [ Chatbot.Env (Settle 0 (Resolved JS.Null));
    Chatbot.User (Chatbot.OpenSection Chatbot.BookRoom);
    Chatbot.User (Chatbot.PickCheckIn "2024-06-01");
    Chatbot.User (Chatbot.PickCheckOut "2024-06-03");
    Chatbot.User Chatbot.ClickCheckAvailability;
    Chatbot.User Chatbot.ClickBack;
    Chatbot.User (Chatbot.OpenSection Chatbot.BookRoom) ].

Definition is_back (ev : Chatbot.event) : bool :=
  match ev with
  | Chatbot.User Chatbot.ClickBack => true
  | _ => false
  end.

(** Every event of the trace happens and none is a press of Back. *)
Fixpoint stay_trace (w : World Chatbot.state) (evs : list Chatbot.event) : bool :=
  match evs with
  | [] => true
  | ev :: rest =>
      negb (is_back ev)
      && match Chatbot.step w ev with
         | Some w' => stay_trace w' rest
         | None => false
         end
  end.

(** An ordinary session: towels are asked for and the call is answered,
    the guest goes back to the menu and fills in the booking form. *)
Definition towels_then_form : list Chatbot.event :=
  [ Chatbot.Env (Settle 0 (Resolved JS.Null));
    Chatbot.User (Chatbot.OpenSection Chatbot.RoomService);
    Chatbot.User (Chatbot.TypeRoomNumber "204");
    Chatbot.User (Chatbot.TypePhoneNumber "5550100");
    Chatbot.User (Chatbot.TypeRequest "Two extra towels");
    Chatbot.User Chatbot.ClickSendRequest;
    Chatbot.Env (Settle 0 (Resolved JS.Null));
    Chatbot.User Chatbot.ClickBack;
    Chatbot.User (Chatbot.OpenSection Chatbot.BookRoom);
    Chatbot.User (Chatbot.TypeEmail "guest@example.com");
    Chatbot.User (Chatbot.SelectRoomType Chatbot.Suite);
    Chatbot.User (Chatbot.PickCheckIn "2024-06-01");
    Chatbot.User (Chatbot.PickCheckOut "2024-06-03") ].

(** On the Payment Page the order is created, the checkout is opened
    and paid, and the verify call is in flight. *)
Definition page_verifying : list PaymentPage.event :=
  page_order_created ++
  [ PaymentPage.User PaymentPage.ClickPayNow;
    PaymentPage.Env (PaymentSucceeded 0 example_payment) ].
(* ================================================================== *)
(** ** Vocabulary of the further properties *)

(** The chat log of [s] continues [l]. *)
Definition extends (l : list Chatbot.message) (s : Chatbot.state) : Prop :=
  exists more, Chatbot.chatMessages s = (l ++ more)%list.

(** The section cell holds [null] or one of the four names the menu
    buttons set. *)
Definition section_known (s : Chatbot.state) : Prop :=
  Chatbot.section s = None
  \/ exists b, Chatbot.section s = Some (Chatbot.menu_target b).

(** The spinner is gone. *)
Definition awake (s : Chatbot.state) : Prop := Chatbot.loading s = false.

(** What is pending will keep an invariant of the cells, whether or not
    it holds now. *)
Definition pending_obeys {St : Type} (I : St -> Prop)
           (w : World St) : Prop :=
  Forall (call_obeys I never) (inflight w)
  /\ Forall (script_obeys I never) (scripts w)
  /\ Forall (widget_obeys I never) (widgets w).

(** The [ondismiss] callback [payNow] gives the checkout. *)
Definition page_cancelled : Task PaymentPage.state :=
  Emit (Alert "❌ Payment cancelled by user.") Done.

(** The Payment Page's SDK flag, read as "not ready". *)
Definition sdk_unready (s : PaymentPage.state) : bool :=
  negb (PaymentPage.sdkReady s).

Definition no_call (r : request) : bool := false.

(** A guest asks a question from the chat panel. *)
Definition example_question : list Chatbot.event :=
  [ Chatbot.Env (Settle 0 (Resolved JS.Null));
    Chatbot.User (Chatbot.OpenSection Chatbot.AskQuestion);
    Chatbot.User (Chatbot.TypeChat "Is breakfast free?") ].

(** A guest fills in the room-service form. *)
Definition example_towels : list Chatbot.event :=
  [ Chatbot.Env (Settle 0 (Resolved JS.Null));
    Chatbot.User (Chatbot.OpenSection Chatbot.RoomService);
    Chatbot.User (Chatbot.TypeRoomNumber "204");
    Chatbot.User (Chatbot.TypePhoneNumber "5550100");
    Chatbot.User (Chatbot.TypeRequest "Two extra towels") ].

(** The summary and the checkout options that Book & Pay builds from the
    booking id and the create-order body. *)
Definition summary_of (created : JS.value) : Chatbot.summary :=
  Chatbot.mkSummary (JS.opt (JS.opt created "order") "amount")
                    (JS.opt (JS.opt created "order") "currency")
                    (JS.opt (JS.opt created "order") "id")
                    JS.Undefined.

Definition panel_options (s : Chatbot.state) (id created : JS.value)
  : checkout_options :=
  mkOptions (JS.opt created "key_id") (JS.opt (JS.opt created "order") "id")
            "The Grand Palace Hotel" ("Room booking for " ++ Chatbot.email s)
            (JS.Str (Chatbot.email s)) (JS.Str (Chatbot.email s)) id None.

(** A backend that books and creates the order of the example; the
    checkout script may load or not. *)
Definition example_backend (loads defines : bool) : answers :=
  mkAnswers
    (fun r => if String.eqb (url r) (Chatbot.API_BASE ++ "/booking/")
              then Resolved example_booking_data
              else Resolved example_order_data)
    loads defines.

(** The branches of the [Chatbot]'s render: the spinner of the early
    [return], the menu and the four panels. *)
Inductive view : Type :=
| Spinner | Menu | ChatPanel | RoomServicePanel | BookingPanel | FaqPanel.

(** The branches the render selects: [if (loading) return <spinner>]
    comes first; past it, each of the five blocks [{cond && (...)}]
    whose condition on [section] holds. *)
Definition selected (s : Chatbot.state) : list view :=
  if Chatbot.loading s then [Spinner]
  else
    ((if Chatbot.at_menu s then [Menu] else [])
     ++ (if Chatbot.shows s "faq" then [ChatPanel] else [])
     ++ (if Chatbot.shows s "request" then [RoomServicePanel] else [])
     ++ (if Chatbot.shows s "booking" then [BookingPanel] else [])
     ++ (if Chatbot.shows s "faqList" then [FaqPanel] else []))%list.

(** The values a branch places in its JSX as children and that are not
    strings by construction: [{msg.text}] of every chat message, the
    three counts [{availability.Deluxe}], ... under
    [availability &&], and [{paySummary.currency}] and
    [{paySummary.orderId}] under [paySummary &&]. *)
Definition children (s : Chatbot.state) (v : view) : list JS.value :=
  match v with
  | ChatPanel => map Chatbot.text (Chatbot.chatMessages s)
  | BookingPanel =>
      ((if JS.truthy (Chatbot.availability s)
        then [ JS.opt (Chatbot.availability s) "Deluxe";
               JS.opt (Chatbot.availability s) "Suite";
               JS.opt (Chatbot.availability s) "Standard" ]
        else [])
       ++ match Chatbot.paySummary s with
          | Some p => [ Chatbot.currency p; Chatbot.orderId p ]
          | None => []
          end)%list
  | Spinner | Menu | RoomServicePanel | FaqPanel => []
  end.

Definition renders (c : JS.value) : bool :=
  match JS.child c with
  | Some _ => true
  | None => false
  end.

(** The render: the selected branches, or [None] when React throws
    because a child of a selected branch is a plain object. *)
Definition render (s : Chatbot.state) : option (list view) :=
  if forallb renders (flat_map (children s) (selected s))
  then Some (selected s)
  else None.

(** The backend answers a question with an object where the text of
    the reply is expected. *)
Definition object_reply : list Chatbot.event :=
  example_question ++
  [ Chatbot.User Chatbot.ClickChatSend;
    Chatbot.Env (Settle 0 (Resolved
      (JS.Obj [("response", JS.Obj [("text", JS.Str "Yes, it is.")])]))) ].

(** While the spinner shows, nothing has happened yet: the cells are the
    initial ones and at most the ping is pending. *)
Definition dormant (w : World Chatbot.state) : Prop :=
  ui w = Chatbot.initial
  /\ scripts w = []
  /\ widgets w = []
  /\ (inflight w = [] \/ inflight w = inflight (Chatbot.mounted true)).

(** The two reset helpers of [Chatbot], which nothing calls.
    [resetRoomServiceUI] names two setters ([setGuestPhone],
    [setRoomRequestText]) that the component does not declare; reading
    an undeclared name throws before the optional call is tried. *)
Definition resetBookingUI : Task Chatbot.state :=
  SetState (Chatbot.setEmail "")
  (SetState (Chatbot.setRoomType "Deluxe")
  (SetState (Chatbot.setCheckIn "")
  (SetState (Chatbot.setCheckOut "")
  (SetState (Chatbot.setAvailability JS.Null)
  (* payment-related *)
  (SetState (Chatbot.setPaySummary None)
  (SetState (Chatbot.setBookingSuccess "")
  (SetState (Chatbot.setIsBookingLoading false)
  (SetState (Chatbot.setIsCheckingLoading false) Done)))))))).

Definition ReferenceError (name : string) : JS.error :=
  JS.Error (name ++ " is not defined").

Definition resetRoomServiceUI : Task Chatbot.state :=
  SetState (Chatbot.setRoomNumber "")
  (Throw (ReferenceError "setGuestPhone")).

(** The FAQ list is open. *)
Definition example_faqs : list Chatbot.event :=
  [ Chatbot.Env (Settle 0 (Resolved JS.Null));
    Chatbot.User (Chatbot.OpenSection Chatbot.FAQs) ].


(* ================================================================== *)
(** ** The JavaScript primitives on examples *)

Example trim_strips_both_ends : JS.trim "  late check-out  " = "late check-out".
Proof. reflexivity. Qed.

Example trim_of_white_space :
  JS.trim (JS.of_bytes [32; 9; 226; 128; 131; 10; 194; 160]) = "".
Proof. reflexivity. Qed.

Example trim_keeps_inner_bytes :
  JS.trim (JS.of_bytes [32; 226; 130; 185; 32]) = JS.of_bytes [226; 130; 185].
Proof. reflexivity. Qed.

Example toFixed_pads_small_amounts : JS.div100_toFixed2 5 = "0.05".
Proof. reflexivity. Qed.

Example toFixed_keeps_the_sign : JS.div100_toFixed2 (-12345) = "-123.45".
Proof. reflexivity. Qed.

Example toFixed_of_zero : JS.amount_text (JS.Num 0) = Some "0.00".
Proof. reflexivity. Qed.

Example detail_wins_over_message :
  Chatbot.booking_alert
    (JS.mkError "Request failed with status code 409"
                (JS.Obj [("detail", JS.Str "Room not available")]))
  = "Room not available".
Proof. reflexivity. Qed.

Example message_when_no_response :
  Chatbot.booking_alert (JS.Error "Network Error") = "Network Error".
Proof. reflexivity. Qed.

(* ================================================================== *)
(** ** Facts about the event loop *)

Lemma some_eq {A : Type} (a b : A) : Some a = Some b -> a = b.
Proof. congruence. Qed.

Section AsyncFacts.

Context {St : Type}.

Lemma take_out_last {A : Type} (l : list A) (x : A) :
  take_out (length l) (l ++ [x]) = Some (x, l).
Proof.
  induction l as [|y l IH]; cbn; [reflexivity|].
  now rewrite IH.
Qed.

(** The call issued last settles: its continuation runs in the world
    that remains. *)
Lemma settle_last (u : St) g fl sc wd lg r k res :
  deliver (Settle (length fl) res) (mkWorld u g (fl ++ [(r, k)]) sc wd lg)
  = Some (run (k res) (mkWorld u g fl sc wd lg)).
Proof.
  unfold deliver; cbn [inflight ui window_Razorpay scripts widgets log].
  now rewrite take_out_last.
Qed.

End AsyncFacts.

(** *** White space *)

Lemma strip_blank (l : list nat) :
  blank l -> forall fuel, length l <= fuel -> JS.strip fuel JS.white_space l = [].
Proof.
  induction 1 as [|t l Ht _ IH]; intros fuel Hfuel.
  - destruct fuel; reflexivity.
  - assert (Hlen : exists n, fuel = S n /\ length l <= n
                             /\ JS.drop_any JS.white_space (t ++ l) = Some l).
    { cbn in Ht.
      repeat (destruct Ht as [<- | Ht];
              [ cbn in Hfuel; destruct fuel as [|n]; [lia|];
                exists n; split; [reflexivity | split; [lia | reflexivity]] | ]).
      contradiction. }
    destruct Hlen as (n & -> & Hn & Hdrop).
    cbn [JS.strip]. rewrite Hdrop. now apply IH.
Qed.

Lemma trim_blank (s : string) : blank (JS.bytes s) -> JS.trim s = "".
Proof.
  intros H. unfold JS.trim, JS.trim_start.
  rewrite (strip_blank _ H) by lia. reflexivity.
Qed.

(** *** Handlers in closed form *)

(** [goHome] resets the booking and room-service cells and the section,
    and leaves the chat log, the chat input and the open FAQ alone. *)
Lemma goHome_run (w : World Chatbot.state) :
  run Chatbot.goHome w
  = mkWorld
      (Chatbot.mkState None (Chatbot.chatMessages (ui w))
         (Chatbot.currentInput (ui w)) "" "" "" false "" "Deluxe" "" "" ""
         JS.Null (Chatbot.openFAQ (ui w)) false false false None
         (Chatbot.loading (ui w)))
      (window_Razorpay w) (inflight w) (scripts w) (widgets w) (log w).
Proof. destruct w as [[] g fl sc wd lg]. vm_compute. reflexivity. Qed.

(** Symbolic execution of a handler: unfold the event loop and the
    control-flow combinators, leave the cells and the values alone. *)
Ltac exec :=
  lazy [negb orb andb run try_finally try_catch await seq note
        ui window_Razorpay inflight scripts widgets log
        options on_success on_dismiss].

Lemma obj_of_opt (v : JS.value) (k : string) :
  JS.opt v k <> JS.Undefined -> exists fs, v = JS.Obj fs.
Proof. destruct v; cbn; try congruence; eauto. Qed.

(** Follow a handler run on its own through every branch that depends on
    what the surroundings answer. *)
Ltac follow :=
  lazy [negb orb andb complete try_finally try_catch await seq
        member destructure loadRazorpay fst snd].

Ltac branch :=
  match goal with
  | |- context [match answer ?env ?r with _ => _ end] =>
      destruct (answer env r) as [?data|?e] eqn:?
  | |- context [if JS.truthy ?v then _ else _] => destruct (JS.truthy v) eqn:?
  | |- context [if JS.nullish ?v then _ else _] => destruct (JS.nullish v) eqn:?
  | |- context [if script_loads ?env then _ else _] =>
      destruct (script_loads env) eqn:?
  | |- context [if script_defines_sdk ?env then _ else _] =>
      destruct (script_defines_sdk env) eqn:?
  | |- context [if ?b then _ else _] => is_var b; destruct b
  end.

Ltac paths := follow; repeat (branch; follow).

(** *** Invariants of the cells *)

Section TakeOut.

Context {A : Type}.

Lemma take_out_Forall (P : A -> Prop) (i : nat) (l rest : list A) (x : A) :
  take_out i l = Some (x, rest) -> Forall P l -> P x /\ Forall P rest.
Proof.
  revert i rest. induction l as [|y l IH]; intros i rest Ht Hall.
  - destruct i; discriminate.
  - inversion Hall as [|? ? Hy Hl]; subst.
    destruct i as [|j]; cbn in Ht.
    + apply some_eq in Ht. inversion Ht; subst. now split.
    + destruct (take_out j l) as [[z r']|] eqn:E; [|discriminate].
      apply some_eq in Ht. inversion Ht; subst.
      destruct (IH j r' E Hl) as [Hz Hr]. split; [exact Hz|].
      now constructor.
Qed.

Lemma take_out_nth (i : nat) (l rest : list A) (x : A) :
  take_out i l = Some (x, rest) -> nth_error l i = Some x.
Proof.
  revert i rest. induction l as [|y l IH]; intros i rest Ht.
  - destruct i; discriminate.
  - destruct i as [|j]; cbn in Ht |- *.
    + apply some_eq in Ht. now inversion Ht.
    + destruct (take_out j l) as [[z r']|] eqn:E; [|discriminate].
      apply some_eq in Ht. inversion Ht; subst. exact (IH j r' E).
Qed.

End TakeOut.

Section ObeyingFacts.

Context {St : Type}.
Variable I : St -> Prop.
Variable exempt : request -> outcome -> bool.

Lemma run_obeys (t : Task St) :
  forall w, obeys I exempt t -> world_obeys I exempt w ->
            world_obeys I exempt (run t w).
Proof.
  induction t as [ | e | r k IH | k IH | k IH | o k IH | f k IH | o h _ d k IH ];
    intros w Ht (HI & Hfl & Hsc & Hwd); cbn [run].
  - repeat split; assumption.
  - repeat split; assumption.
  - repeat split; cbn; try assumption.
    apply Forall_app; split; [assumption|].
    constructor; [|constructor]. exact Ht.
  - repeat split; cbn; try assumption.
    apply Forall_app; split; [assumption|].
    constructor; [|constructor]. exact Ht.
  - apply IH; [apply Ht|]. repeat split; assumption.
  - apply IH; [exact Ht|]. repeat split; assumption.
  - destruct Ht as [Hf Hk]. apply IH; [exact Hk|].
    repeat split; cbn; try assumption. now apply Hf.
  - destruct Ht as (Hh & Hd & Hk). apply IH; [exact Hk|].
    repeat split; cbn; try assumption.
    apply Forall_app; split; [assumption|].
    constructor; [|constructor]. split; assumption.
Qed.

Lemma deliver_obeys (w w' : World St) (e : external) :
  world_obeys I exempt w ->
  exempted exempt w e = false ->
  deliver e w = Some w' ->
  world_obeys I exempt w'.
Proof.
  intros (HI & Hfl & Hsc & Hwd) Hex Hd.
  destruct e as [i res | i b | i | i resp | i]; cbn [deliver] in Hd.
  - destruct (take_out i (inflight w)) as [[[r k] rest]|] eqn:E; [|discriminate].
    apply some_eq in Hd. subst w'.
    cbn [exempted] in Hex. rewrite (take_out_nth _ _ _ _ E) in Hex.
    destruct (take_out_Forall _ _ _ _ _ E Hfl) as [Hk Hrest].
    apply run_obeys; [now apply Hk|]. repeat split; assumption.
  - destruct (take_out i (scripts w)) as [[k rest]|] eqn:E; [|discriminate].
    apply some_eq in Hd. subst w'.
    destruct (take_out_Forall _ _ _ _ _ E Hsc) as [Hk Hrest].
    apply run_obeys; [apply Hk|]. repeat split; assumption.
  - destruct (take_out i (scripts w)) as [[k rest]|] eqn:E; [|discriminate].
    apply some_eq in Hd. subst w'.
    destruct (take_out_Forall _ _ _ _ _ E Hsc) as [Hk Hrest].
    apply run_obeys; [apply Hk|]. repeat split; assumption.
  - destruct (take_out i (widgets w)) as [[wd rest]|] eqn:E; [|discriminate].
    apply some_eq in Hd. subst w'.
    destruct (take_out_Forall _ _ _ _ _ E Hwd) as [[Hs _] Hrest].
    apply run_obeys; [apply Hs|]. repeat split; assumption.
  - destruct (take_out i (widgets w)) as [[wd rest]|] eqn:E; [|discriminate].
    apply some_eq in Hd.
    destruct (take_out_Forall _ _ _ _ _ E Hwd) as [[_ Hdis] Hrest].
    destruct (on_dismiss wd) as [t|]; subst w'.
    + apply run_obeys; [exact Hdis|]. repeat split; assumption.
    + repeat split; assumption.
Qed.

End ObeyingFacts.

(** Walk a handler's tree for [obeys]; [keep] proves that a state update
    keeps the invariant. *)
Ltac obey keep :=
  repeat
    first
      [ progress cbn [obeys try_finally try_catch await seq]
      | progress unfold member, destructure, loadRazorpay
      | match goal with
        | |- True => exact Logic.I
        | |- _ /\ _ => split
        | |- forall s : Chatbot.state, _ -> _ => solve [keep]
        | |- forall s : PaymentPage.state, _ -> _ => solve [keep]
        | |- forall _, _ => intro
        | |- obeys _ _ ?t =>
            match t with
            | context [match ?x with Resolved _ => _ | Rejected _ => _ end] =>
                destruct x
            | context [if ?b then _ else _] => destruct b
            end
        end ].

Lemma handlers_keep_room_type (s : Chatbot.state) (a : Chatbot.action)
      (t : Task Chatbot.state) :
  Chatbot.handler_of s a = Some t -> obeys room_type_offered never t.
Proof.
  intros H. unfold Chatbot.handler_of, Chatbot.when in H.
  destruct (Chatbot.loading s); [discriminate|].
  destruct a;
    match type of H with
    | (if ?b then _ else _) = Some _ => destruct b; [|discriminate H]
    end;
    apply some_eq in H; subst t;
    unfold Chatbot.handleChatSubmit, Chatbot.handleRequestSubmit,
      Chatbot.checkRoomAvailability, Chatbot.handleBookingSubmit,
      Chatbot.verify_handler, Chatbot.goHome;
    obey ltac:(unfold room_type_offered;
               try (destruct o); intros [] Hs; cbn; tauto).
Qed.

Lemma reachable_room_type (w : World Chatbot.state) :
  chatbot_reachable w -> world_obeys room_type_offered never w.
Proof.
  induction 1 as [sdk | w w' ev _ IH Hstep].
  - apply run_obeys.
    + unfold Chatbot.ping.
      obey ltac:(unfold room_type_offered; intros [] Hs; cbn; tauto).
    + split; [left; reflexivity | repeat split; constructor].
  - destruct ev as [a | e]; cbn [Chatbot.step] in Hstep.
    + destruct (Chatbot.handler_of (ui w) a) as [t|] eqn:E; [|discriminate].
      apply some_eq in Hstep. subst w'.
      apply run_obeys; [|exact IH].
      exact (handlers_keep_room_type _ _ _ E).
    + apply (deliver_obeys _ _ w w' e IH); [|exact Hstep].
      destruct e; cbn; try reflexivity.
      destruct (nth_error (inflight w) i) as [[]|]; reflexivity.
Qed.

Lemma handlers_keep_unpaid (s : Chatbot.state) (a : Chatbot.action)
      (t : Task Chatbot.state) :
  Chatbot.handler_of s a = Some t -> obeys unpaid verification_succeeds t.
Proof.
  intros H. unfold Chatbot.handler_of, Chatbot.when in H.
  destruct (Chatbot.loading s); [discriminate|].
  destruct a;
    match type of H with
    | (if ?b then _ else _) = Some _ => destruct b; [|discriminate H]
    end;
    apply some_eq in H; subst t;
    unfold Chatbot.handleChatSubmit, Chatbot.handleRequestSubmit,
      Chatbot.checkRoomAvailability, Chatbot.handleBookingSubmit,
      Chatbot.verify_handler, Chatbot.goHome;
    obey ltac:(unfold unpaid; intros [] Hs; cbn;
               first [exact Hs | intros ? [= <-]; reflexivity | discriminate]).
Qed.

Lemma unverified_unpaid (w : World Chatbot.state) :
  chatbot_unverified w -> world_obeys unpaid verification_succeeds w.
Proof.
  induction 1 as [sdk | w w' ev _ IH Hno Hstep].
  - apply run_obeys.
    + unfold Chatbot.ping.
      obey ltac:(unfold unpaid; intros [] Hs; cbn; exact Hs).
    + split; [intros p Hp; discriminate Hp | repeat split; constructor].
  - destruct ev as [a | e]; cbn [Chatbot.step verifies] in Hstep, Hno.
    + destruct (Chatbot.handler_of (ui w) a) as [t|] eqn:E; [|discriminate].
      apply some_eq in Hstep. subst w'.
      apply run_obeys; [|exact IH].
      exact (handlers_keep_unpaid _ _ _ E).
    + exact (deliver_obeys _ _ w w' e IH Hno Hstep).
Qed.

Lemma unverified_after (evs : list Chatbot.event) :
  forall w, chatbot_unverified w -> unverified_trace w evs = true ->
            chatbot_unverified (chatbot_after w evs).
Proof.
  induction evs as [|ev evs IH]; intros w Hw Htr; cbn in *; [exact Hw|].
  apply andb_prop in Htr. destruct Htr as [Hno Hrest].
  destruct (Chatbot.step w ev) as [w'|] eqn:E; [|discriminate].
  apply IH; [|exact Hrest].
  apply (unverified_stepped w w' ev Hw); [|exact E].
  now destruct (verifies w ev).
Qed.

Lemma reachable_after (evs : list Chatbot.event) :
  forall w, chatbot_reachable w -> chatbot_reachable (chatbot_after w evs).
Proof.
  induction evs as [|ev evs IH]; intros w Hw; cbn; [exact Hw|].
  destruct (Chatbot.step w ev) as [w'|] eqn:E; apply IH; [|exact Hw].
  exact (chatbot_stepped w w' ev Hw E).
Qed.

(** *** Loading flags *)

Lemma take_out_filter {A : Type} (p : A -> bool) (i : nat) (l rest : list A) (x : A) :
  take_out i l = Some (x, rest) ->
  length (filter p l) = (if p x then 1 else 0) + length (filter p rest).
Proof.
  revert i rest. induction l as [|y l IH]; intros i rest Ht.
  - destruct i; discriminate.
  - destruct i as [|j]; cbn in Ht.
    + apply some_eq in Ht. inversion Ht; subst. cbn.
      destruct (p x); reflexivity.
    + destruct (take_out j l) as [[z r']|] eqn:E; [|discriminate].
      apply some_eq in Ht. inversion Ht; subst.
      cbn. destruct (p y); cbn; rewrite (IH j r' E); destruct (p x); lia.
Qed.

Lemma take_out_length {A : Type} (i : nat) (l rest : list A) (x : A) :
  take_out i l = Some (x, rest) -> length l = S (length rest).
Proof.
  revert i rest. induction l as [|y l IH]; intros i rest Ht.
  - destruct i; discriminate.
  - destruct i as [|j]; cbn in Ht.
    + apply some_eq in Ht. now inversion Ht.
    + destruct (take_out j l) as [[z r']|] eqn:E; [|discriminate].
      apply some_eq in Ht. inversion Ht; subst.
      cbn. now rewrite (IH j r' E).
Qed.

Lemma filter_In_length {A : Type} (p : A -> bool) (l : list A) (x : A) :
  In x l -> p x = true -> 1 <= length (filter p l).
Proof.
  induction l as [|y l IH]; intros Hin Hp; [contradiction|].
  cbn. destruct Hin as [-> | Hin].
  - rewrite Hp. cbn. lia.
  - specialize (IH Hin Hp). destruct (p y); cbn; lia.
Qed.

Section DisciplineFacts.

Context {St : Type}.
Variable flag : St -> bool.
Variable mine : request -> bool.
Variable scripts_mine : bool.

Local Notation bystander := (bystander flag mine scripts_mine).
Local Notation owner := (owner flag mine scripts_mine).
Local Notation tidy := (tidy flag mine scripts_mine).
Local Notation pending_mine := (pending_mine mine scripts_mine).
Local Notation disciplined := (disciplined flag mine scripts_mine).

Lemma run_bystander (t : Task St) :
  forall w, bystander t -> tidy w ->
            tidy (run t w)
            /\ pending_mine (run t w) = pending_mine w
            /\ flag (ui (run t w)) = flag (ui w).
Proof.
  induction t as [ | e | r k IH | k IH | k IH | o k IH | f k IH | o h _ d k IH ];
    intros w Ht (Hfl & Hsc & Hwd); cbn [run].
  - repeat split; assumption.
  - repeat split; assumption.
  - destruct Ht as [Hr Hk]. unfold pending_mine. cbn.
    rewrite filter_app, length_app. cbn. unfold call_mine at 2. cbn.
    rewrite Hr. cbn. repeat split; try assumption; try lia.
    apply Forall_app; split; [assumption|].
    constructor; [|constructor]. intros res. cbn. rewrite Hr. apply Hk.
  - destruct Ht as [Hs Hk]. unfold pending_mine. cbn.
    destruct scripts_mine; [discriminate|].
    repeat split; try assumption.
    apply Forall_app; split; [assumption|].
    constructor; [|constructor]. intros b. apply Hk.
  - apply IH; [apply Ht|]. repeat split; assumption.
  - apply (IH (note o w)); [exact Ht|]. repeat split; assumption.
  - destruct Ht as [Hf Hk].
    destruct (IH (mkWorld (f (ui w)) (window_Razorpay w) (inflight w)
                          (scripts w) (widgets w) (log w)) Hk)
      as (H1 & H2 & H3); [repeat split; assumption|].
    split; [exact H1|]. split; [exact H2|]. rewrite H3. cbn. apply Hf.
  - destruct Ht as (Hh & Hd & Hk).
    destruct (IH (mkWorld (ui w) (window_Razorpay w) (inflight w) (scripts w)
                          (widgets w ++ [mkWidget o h d])
                          (log w ++ [CheckoutOpened o])) Hk)
      as (H1 & H2 & H3).
    + repeat split; cbn; try assumption.
      apply Forall_app; split; [assumption|].
      constructor; [|constructor]. split; assumption.
    + split; [exact H1|]. split; [exact H2|exact H3].
Qed.

(** A task of the operation leaves what is suspended tidy, whatever the
    flag is. *)
Lemma run_owner_tidy (t : Task St) :
  forall w, owner t -> tidy w -> tidy (run t w).
Proof.
  induction t as [ | e | r k IH | k IH | k IH | o k IH | f k IH | o h _ d k IH ];
    intros w Ht Htidy; cbn [run].
  - exact Htidy.
  - exact Htidy.
  - destruct Ht as [Hr Hk]. destruct Htidy as (Hfl & Hsc & Hwd).
    repeat split; cbn; try assumption.
    apply Forall_app; split; [assumption|].
    constructor; [|constructor]. intros res. cbn. rewrite Hr. apply Hk.
  - destruct Ht as [Hs Hk]. destruct Htidy as (Hfl & Hsc & Hwd).
    repeat split; cbn; try assumption.
    apply Forall_app; split; [assumption|].
    constructor; [|constructor]. intros b.
    destruct scripts_mine; [apply Hk|discriminate].
  - now apply IH.
  - apply (IH (note o w)); assumption.
  - destruct Ht as [[Hf Hk] | Hk].
    + apply IH; assumption.
    + apply (run_bystander k
               (mkWorld (f (ui w)) (window_Razorpay w) (inflight w)
                        (scripts w) (widgets w) (log w)) Hk Htidy).
  - destruct Ht as (Hh & Hd & Hk). destruct Htidy as (Hfl & Hsc & Hwd).
    apply IH; try assumption.
    repeat split; cbn; try assumption.
    apply Forall_app; split; [assumption|].
    constructor; [|constructor]. split; assumption.
Qed.

Lemma idle_disciplined (w : World St) :
  tidy w -> pending_mine w = 0 -> disciplined w.
Proof. intros Ht Hp. split; [exact Ht|]. split; [lia|]. now intros _. Qed.

Lemma run_owner (t : Task St) :
  forall w, owner t -> tidy w -> pending_mine w = 0 -> flag (ui w) = true ->
            disciplined (run t w).
Proof.
  induction t as [ | e | r k IH | k IH | k IH | o k IH | f k IH | o h _ d k IH ];
    intros w Ht Htidy Hp Hflag; cbn [run].
  - now apply idle_disciplined.
  - now apply idle_disciplined.
  - destruct Ht as [Hr Hk]. destruct Htidy as (Hfl & Hsc & Hwd).
    unfold pending_mine in Hp.
    split; [|split].
    + repeat split; cbn; try assumption.
      apply Forall_app; split; [assumption|].
      constructor; [|constructor]. intros res. cbn. rewrite Hr. apply Hk.
    + unfold pending_mine. cbn. rewrite filter_app, length_app. cbn.
      unfold call_mine at 2. cbn. rewrite Hr. cbn. lia.
    + cbn. congruence.
  - destruct Ht as [Hs Hk]. destruct Htidy as (Hfl & Hsc & Hwd).
    unfold pending_mine in Hp.
    destruct scripts_mine; [|discriminate].
    split; [|split].
    + repeat split; cbn; try assumption.
      apply Forall_app; split; [assumption|].
      constructor; [|constructor]. intros b. apply Hk.
    + unfold pending_mine. cbn. rewrite length_app. cbn. lia.
    + cbn. congruence.
  - now apply IH.
  - apply (IH (note o w)); assumption.
  - destruct Ht as [[Hf Hk] | Hk].
    + apply IH; try assumption. cbn. now rewrite Hf.
    + destruct (run_bystander k
                  (mkWorld (f (ui w)) (window_Razorpay w) (inflight w)
                           (scripts w) (widgets w) (log w)) Hk)
        as (H1 & H2 & _); [exact Htidy|].
      apply idle_disciplined; [exact H1|]. now rewrite H2.
  - destruct Ht as (Hh & Hd & Hk). destruct Htidy as (Hfl & Hsc & Hwd).
    apply IH; try assumption.
    repeat split; cbn; try assumption.
    apply Forall_app; split; [assumption|].
    constructor; [|constructor]. split; assumption.
Qed.

(** A task that does not touch the operation keeps the discipline. *)
Lemma bystander_disciplined (t : Task St) (w : World St) :
  bystander t -> disciplined w -> disciplined (run t w).
Proof.
  intros Ht (Htidy & Hle & Hz).
  destruct (run_bystander t w Ht Htidy) as (H1 & H2 & H3).
  split; [exact H1|]. rewrite H2, H3. split; assumption.
Qed.

(** The operation's click handler, run while the flag is clear, keeps
    the discipline. *)
Lemma starter_disciplined (t : Task St) (w : World St) :
  starter flag mine scripts_mine t -> disciplined w -> flag (ui w) = false ->
  disciplined (run t w).
Proof.
  intros Ht (Htidy & _ & Hz) Hflag.
  destruct t as [ | | | | | | f k | ]; try contradiction.
  destruct Ht as [Hf Hk]. cbn [run].
  apply run_owner; try assumption.
  - now apply Hz.
  - cbn. apply Hf.
Qed.

Lemma script_tidy_owner (k : bool -> Task St) (b : bool) :
  scripts_mine = true -> script_tidy flag mine scripts_mine k -> owner (k b).
Proof.
  intros Hs Hk. specialize (Hk b).
  destruct scripts_mine; [exact Hk|discriminate].
Qed.

Lemma script_tidy_bystander (k : bool -> Task St) (b : bool) :
  scripts_mine = false -> script_tidy flag mine scripts_mine k -> bystander (k b).
Proof.
  intros Hs Hk. specialize (Hk b).
  destruct scripts_mine; [discriminate|exact Hk].
Qed.

Lemma pending_with_scripts (w : World St) :
  scripts_mine = true ->
  pending_mine w
  = length (filter (call_mine mine) (inflight w)) + length (scripts w).
Proof. intros Hs. unfold pending_mine. destruct scripts_mine; [reflexivity|discriminate]. Qed.

Lemma pending_without_scripts (w : World St) :
  scripts_mine = false ->
  pending_mine w = length (filter (call_mine mine) (inflight w)) + 0.
Proof. intros Hs. unfold pending_mine. destruct scripts_mine; [discriminate|reflexivity]. Qed.

(** Settling anything suspended leaves the rest tidy. *)
Lemma deliver_tidy (w w' : World St) (e : external) :
  tidy w -> deliver e w = Some w' -> tidy w'.
Proof.
  intros (Hfl & Hsc & Hwd) Hd.
  destruct e as [i res | i b | i | i resp | i]; cbn [deliver] in Hd.
  - destruct (take_out i (inflight w)) as [[[r k] rest]|] eqn:E; [|discriminate].
    apply some_eq in Hd. subst w'.
    destruct (take_out_Forall _ _ _ _ _ E Hfl) as [Hk Hrest].
    specialize (Hk res). cbn in Hk.
    destruct (mine r).
    + apply run_owner_tidy; [exact Hk | repeat split; assumption].
    + apply run_bystander; [exact Hk | repeat split; assumption].
  - destruct (take_out i (scripts w)) as [[k rest]|] eqn:E; [|discriminate].
    apply some_eq in Hd. subst w'.
    destruct (take_out_Forall _ _ _ _ _ E Hsc) as [Hk Hrest].
    destruct (Bool.bool_dec scripts_mine true) as [Hs | Hs].
    + apply run_owner_tidy;
        [exact (script_tidy_owner k true Hs Hk) | repeat split; assumption].
    + apply not_true_is_false in Hs.
      apply run_bystander;
        [exact (script_tidy_bystander k true Hs Hk) | repeat split; assumption].
  - destruct (take_out i (scripts w)) as [[k rest]|] eqn:E; [|discriminate].
    apply some_eq in Hd. subst w'.
    destruct (take_out_Forall _ _ _ _ _ E Hsc) as [Hk Hrest].
    destruct (Bool.bool_dec scripts_mine true) as [Hs | Hs].
    + apply run_owner_tidy;
        [exact (script_tidy_owner k false Hs Hk) | repeat split; assumption].
    + apply not_true_is_false in Hs.
      apply run_bystander;
        [exact (script_tidy_bystander k false Hs Hk) | repeat split; assumption].
  - destruct (take_out i (widgets w)) as [[wd rest]|] eqn:E; [|discriminate].
    apply some_eq in Hd. subst w'.
    destruct (take_out_Forall _ _ _ _ _ E Hwd) as [[Hs _] Hrest].
    apply run_bystander; [apply Hs | repeat split; assumption].
  - destruct (take_out i (widgets w)) as [[wd rest]|] eqn:E; [|discriminate].
    apply some_eq in Hd.
    destruct (take_out_Forall _ _ _ _ _ E Hwd) as [[_ Hdis] Hrest].
    destruct (on_dismiss wd) as [t|]; subst w'.
    + apply run_bystander; [exact Hdis | repeat split; assumption].
    + repeat split; assumption.
Qed.

(** Settling a script load of the operation, or of another one. *)
Lemma script_settles (w : World St) (i : nat) (k : bool -> Task St)
      (rest : list (bool -> Task St)) (b sdk : bool) :
  disciplined w -> take_out i (scripts w) = Some (k, rest) ->
  disciplined (run (k b) (mkWorld (ui w) sdk (inflight w) rest (widgets w) (log w))).
Proof.
  intros ((Hfl & Hsc & Hwd) & Hle & Hz) E.
  destruct (take_out_Forall _ _ _ _ _ E Hsc) as [Hk Hrest].
  pose proof (take_out_length _ _ _ _ E) as Hlen.
  destruct (Bool.bool_dec scripts_mine true) as [Hs | Hs].
  - rewrite (pending_with_scripts w Hs) in Hle, Hz.
    apply run_owner;
      [ exact (script_tidy_owner k b Hs Hk) | repeat split; assumption | | ].
    + rewrite pending_with_scripts by exact Hs. cbn. lia.
    + cbn. destruct (flag (ui w)); [reflexivity|].
      specialize (Hz eq_refl). lia.
  - apply not_true_is_false in Hs.
    rewrite (pending_without_scripts w Hs) in Hle, Hz.
    apply bystander_disciplined; [exact (script_tidy_bystander k b Hs Hk)|].
    split; [repeat split; assumption|].
    rewrite pending_without_scripts by exact Hs. cbn. split; [lia|].
    intros Hf. specialize (Hz Hf). lia.
Qed.

Lemma deliver_disciplined (w w' : World St) (e : external) :
  disciplined w -> deliver e w = Some w' -> disciplined w'.
Proof.
  intros ((Hfl & Hsc & Hwd) & Hle & Hz) Hd.
  destruct e as [i res | i b | i | i resp | i]; cbn [deliver] in Hd.
  - destruct (take_out i (inflight w)) as [[[r k] rest]|] eqn:E; [|discriminate].
    apply some_eq in Hd. subst w'.
    destruct (take_out_Forall _ _ _ _ _ E Hfl) as [Hk Hrest].
    pose proof (take_out_filter (call_mine mine) _ _ _ _ E) as Hcount.
    specialize (Hk res). cbn in Hk, Hcount. unfold call_mine at 2 in Hcount.
    cbn in Hcount. unfold pending_mine in Hle, Hz.
    destruct (mine r) eqn:Hr.
    + apply run_owner; [exact Hk | repeat split; assumption | | ].
      * unfold pending_mine. cbn. lia.
      * cbn. destruct (flag (ui w)); [reflexivity|].
        specialize (Hz eq_refl). lia.
    + apply bystander_disciplined; [exact Hk|].
      split; [repeat split; assumption|].
      unfold pending_mine. cbn. split; [lia|].
      intros Hf. specialize (Hz Hf). lia.
  - destruct (take_out i (scripts w)) as [[k rest]|] eqn:E; [|discriminate].
    apply some_eq in Hd. subst w'.
    apply (script_settles w i k rest true); [|exact E].
    split; [repeat split; assumption|]. split; assumption.
  - destruct (take_out i (scripts w)) as [[k rest]|] eqn:E; [|discriminate].
    apply some_eq in Hd. subst w'.
    apply (script_settles w i k rest false); [|exact E].
    split; [repeat split; assumption|]. split; assumption.
  - destruct (take_out i (widgets w)) as [[wd rest]|] eqn:E; [|discriminate].
    apply some_eq in Hd. subst w'.
    destruct (take_out_Forall _ _ _ _ _ E Hwd) as [[Hs _] Hrest].
    apply bystander_disciplined; [apply Hs|].
    split; [repeat split; assumption|]. split; assumption.
  - destruct (take_out i (widgets w)) as [[wd rest]|] eqn:E; [|discriminate].
    apply some_eq in Hd.
    destruct (take_out_Forall _ _ _ _ _ E Hwd) as [[_ Hdis] Hrest].
    assert (Hw : disciplined (mkWorld (ui w) (window_Razorpay w) (inflight w)
                                      (scripts w) rest (log w))).
    { split; [repeat split; assumption|]. split; assumption. }
    destruct (on_dismiss wd) as [t|]; subst w'.
    + now apply bystander_disciplined.
    + exact Hw.
Qed.

(** Under the discipline a suspended call of the operation means the
    flag is set. *)
Lemma disciplined_flag (w : World St) r k :
  disciplined w -> In (r, k) (inflight w) -> mine r = true ->
  flag (ui w) = true.
Proof.
  intros (_ & _ & Hz) Hin Hr.
  destruct (flag (ui w)); [reflexivity|].
  specialize (Hz eq_refl). unfold pending_mine in Hz.
  pose proof (filter_In_length (call_mine mine) _ _ Hin Hr). lia.
Qed.

End DisciplineFacts.

(** *** The four guarded operations *)

Lemma bytes_app (a b : string) :
  JS.bytes (a ++ b) = (JS.bytes a ++ JS.bytes b)%list.
Proof. induction a as [|c a IH]; cbn; [reflexivity|]. now rewrite IH. Qed.

Lemma drop_prefix_app (p q : list nat) : JS.drop_prefix p (p ++ q) = Some q.
Proof.
  induction p as [|a p IH]; cbn; [reflexivity|].
  now rewrite Nat.eqb_refl.
Qed.

Lemma ends_with_app (a suffix : string) : ends_with suffix (a ++ suffix) = true.
Proof.
  unfold ends_with. rewrite bytes_app, rev_app_distr, drop_prefix_app.
  reflexivity.
Qed.

Lemma append_assoc (a b c : string) : ((a ++ b) ++ c)%string = (a ++ b ++ c)%string.
Proof. induction a as [|x a IH]; cbn; [reflexivity|]. now rewrite IH. Qed.

Lemma order_url_ends (base id : string) :
  ends_with "/create-order" (base ++ "/booking/" ++ id ++ "/create-order") = true.
Proof.
  replace (base ++ "/booking/" ++ id ++ "/create-order")
    with ((base ++ "/booking/" ++ id) ++ "/create-order").
  - apply ends_with_app.
  - now rewrite !append_assoc.
Qed.

Lemma panel_order_call_is_booking (id : JS.value) :
  is_booking_call (Chatbot.order_request id) = true.
Proof.
  unfold is_booking_call, Chatbot.order_request. cbn [is_post meth url].
  rewrite order_url_ends. now rewrite orb_true_r.
Qed.

Lemma page_order_call (s : PaymentPage.state) :
  is_order_call (PaymentPage.order_request s) = true.
Proof.
  unfold is_order_call, PaymentPage.order_request. cbn [is_post meth url].
  now rewrite order_url_ends.
Qed.

(** *** Decimal digits *)

Lemma uint_app_cons (u v : Decimal.uint) :
  Decimal.app (Decimal.D0 u) v = Decimal.D0 (Decimal.app u v)
  /\ Decimal.app (Decimal.D1 u) v = Decimal.D1 (Decimal.app u v)
  /\ Decimal.app (Decimal.D2 u) v = Decimal.D2 (Decimal.app u v)
  /\ Decimal.app (Decimal.D3 u) v = Decimal.D3 (Decimal.app u v)
  /\ Decimal.app (Decimal.D4 u) v = Decimal.D4 (Decimal.app u v)
  /\ Decimal.app (Decimal.D5 u) v = Decimal.D5 (Decimal.app u v)
  /\ Decimal.app (Decimal.D6 u) v = Decimal.D6 (Decimal.app u v)
  /\ Decimal.app (Decimal.D7 u) v = Decimal.D7 (Decimal.app u v)
  /\ Decimal.app (Decimal.D8 u) v = Decimal.D8 (Decimal.app u v)
  /\ Decimal.app (Decimal.D9 u) v = Decimal.D9 (Decimal.app u v).
Proof.
  repeat split; apply DecimalFacts.to_list_inj; cbn [DecimalFacts.to_list];
    rewrite !DecimalFacts.app_spec; reflexivity.
Qed.

Ltac app_cons :=
  match goal with
  | |- context [Decimal.app (_ ?u) ?v] =>
      let E0 := fresh in let E1 := fresh in let E2 := fresh in
      let E3 := fresh in let E4 := fresh in let E5 := fresh in
      let E6 := fresh in let E7 := fresh in let E8 := fresh in
      let E9 := fresh in
      destruct (uint_app_cons u v)
        as (E0 & E1 & E2 & E3 & E4 & E5 & E6 & E7 & E8 & E9);
      rewrite ?E0, ?E1, ?E2, ?E3, ?E4, ?E5, ?E6, ?E7, ?E8, ?E9;
      clear E0 E1 E2 E3 E4 E5 E6 E7 E8 E9
  end.

Lemma string_of_uint_app (u v : Decimal.uint) :
  NilEmpty.string_of_uint (Decimal.app u v)
  = NilEmpty.string_of_uint u ++ NilEmpty.string_of_uint v.
Proof.
  induction u as [|u IH|u IH|u IH|u IH|u IH|u IH|u IH|u IH|u IH|u IH];
    [now rewrite DecimalFacts.app_nil_l|..];
    app_cons; cbn [NilEmpty.string_of_uint append]; now rewrite IH.
Qed.

Lemma uint_rev_app (u v : Decimal.uint) :
  Decimal.rev (Decimal.app u v) = Decimal.app (Decimal.rev v) (Decimal.rev u).
Proof.
  apply DecimalFacts.to_list_inj.
  rewrite DecimalFacts.rev_spec, !DecimalFacts.app_spec, !DecimalFacts.rev_spec.
  apply rev_app_distr.
Qed.

Lemma of_uint_app (u v : Decimal.uint) :
  (N.of_uint (Decimal.app u v)
   = N.of_uint u * 10 ^ DecimalPos.Unsigned.usize v + N.of_uint v)%N.
Proof.
  unfold N.of_uint.
  rewrite !DecimalPos.Unsigned.of_uint_alt, uint_rev_app.
  unfold Decimal.app at 1. rewrite DecimalFacts.rev_rev.
  rewrite DecimalPos.Unsigned.of_lu_revapp. lia.
Qed.

Lemma unorm_app (u v : Decimal.uint) :
  Decimal.unorm u = u -> u <> Decimal.zero ->
  Decimal.unorm (Decimal.app u v) = Decimal.app u v.
Proof.
  intros Hu Hz.
  destruct u as [|u|u|u|u|u|u|u|u|u|u];
    try (app_cons; reflexivity).
  - discriminate Hu.
  - exfalso. rewrite DecimalFacts.unorm_D0 in Hu. unfold Decimal.unorm in Hu.
    destruct (Decimal.nzhead u) eqn:E; try discriminate Hu.
    + injection Hu as <-. now apply Hz.
    + apply (DecimalFacts.nzhead_nonzero u u). congruence.
Qed.

Lemma to_uint_app (q : N) (v : Decimal.uint) :
  q <> 0%N ->
  N.to_uint (q * 10 ^ DecimalPos.Unsigned.usize v + N.of_uint v)
  = Decimal.app (N.to_uint q) v.
Proof.
  intros Hq.
  rewrite <- (DecimalN.Unsigned.of_to q) at 1.
  rewrite <- of_uint_app, DecimalN.Unsigned.to_of.
  apply unorm_app.
  - rewrite <- DecimalN.Unsigned.to_of. now rewrite DecimalN.Unsigned.of_to.
  - intros H. apply (f_equal N.of_uint) in H.
    rewrite DecimalN.Unsigned.of_to in H. now apply Hq.
Qed.

Lemma digit_cases (d : N) :
  (d < 10)%N ->
  In d [0; 1; 2; 3; 4; 5; 6; 7; 8; 9]%N.
Proof.
  intros H. cbn.
  destruct d as [|p]; [now left|].
  do 9 (destruct p as [p|p|]; try lia; auto 12).
Qed.

Lemma to_uint_snoc (n : N) :
  (10 <= n)%N ->
  N.to_uint n = Decimal.app (N.to_uint (n / 10)) (N.to_uint (n mod 10)).
Proof.
  intros Hn.
  assert (Hq : (n / 10)%N <> 0%N).
  { intros H. apply N.div_small_iff in H; lia. }
  assert (Hd : (n mod 10 < 10)%N) by (apply N.mod_lt; lia).
  rewrite <- (to_uint_app _ _ Hq).
  f_equal. rewrite DecimalN.Unsigned.of_to.
  replace (DecimalPos.Unsigned.usize (N.to_uint (n mod 10))) with 1%N.
  - rewrite N.pow_1_r. rewrite (N.div_mod n 10) at 1 by lia. lia.
  - apply digit_cases in Hd. cbn in Hd.
    repeat (destruct Hd as [<- | Hd]; [reflexivity|]). contradiction.
Qed.

Lemma digit_length (d : N) :
  (d < 10)%N -> String.length (NilZero.string_of_uint (N.to_uint d)) = 1.
Proof.
  intros Hd. apply digit_cases in Hd. cbn in Hd.
  repeat (destruct Hd as [<- | Hd]; [reflexivity|]). contradiction.
Qed.

Lemma string_of_uint_nonnil (u : Decimal.uint) :
  u <> Decimal.Nil -> NilZero.string_of_uint u = NilEmpty.string_of_uint u.
Proof. destruct u; [contradiction|reflexivity..]. Qed.

Lemma to_uint_nonnil (n : N) : N.to_uint n <> Decimal.Nil.
Proof.
  rewrite <- (DecimalN.Unsigned.of_to n), DecimalN.Unsigned.to_of.
  apply DecimalFacts.unorm_nonnil.
Qed.

Lemma substring_prefix (a b : string) :
  substring 0 (String.length a) (a ++ b) = a.
Proof. induction a as [|c a IH]; cbn; [now destruct b|]. now rewrite IH. Qed.

Lemma substring_suffix (a b : string) :
  substring (String.length a) (String.length b) (a ++ b) = b.
Proof.
  induction a as [|c a IH]; cbn; [|exact IH].
  induction b as [|c b IH]; cbn; [reflexivity|]. now rewrite IH.
Qed.

Lemma length_append (a b : string) :
  String.length (a ++ b) = String.length a + String.length b.
Proof. induction a as [|c a IH]; cbn; [reflexivity|]. now rewrite IH. Qed.

(** The digits of [n], a point before the last two: the digits of
    [n / 100], then the tens and the ones digit of [n]. *)
Lemma toFixed2_digits_split (n : N) :
  JS.toFixed2_digits n
  = NilZero.string_of_uint (N.to_uint (n / 100)) ++ "."
    ++ NilZero.string_of_uint (N.to_uint (n / 10 mod 10))
    ++ NilZero.string_of_uint (N.to_uint (n mod 10)).
Proof.
  destruct (N.ltb_spec n 100) as [Hsmall | Hbig].
  - assert (H : forallb
                  (fun n =>
                     String.eqb
                       (JS.toFixed2_digits n)
                       (NilZero.string_of_uint (N.to_uint (n / 100)) ++ "."
                        ++ NilZero.string_of_uint (N.to_uint (n / 10 mod 10))
                        ++ NilZero.string_of_uint (N.to_uint (n mod 10))))
                  (map N.of_nat (List.seq 0 100)) = true)
      by (vm_compute; reflexivity).
    rewrite forallb_forall in H. apply String.eqb_eq, H.
    apply in_map_iff. exists (N.to_nat n).
    split; [apply Nnat.N2Nat.id | apply in_seq; lia].
  - assert (H10 : (10 <= n / 10)%N).
    { apply N.div_le_lower_bound; lia. }
    assert (Hq : (n / 10 / 10 = n / 100)%N).
    { rewrite N.Div0.div_div. reflexivity. }
    unfold JS.toFixed2_digits.
    rewrite (to_uint_snoc n) by lia.
    rewrite (to_uint_snoc (n / 10)) by exact H10.
    rewrite Hq.
    set (a := N.to_uint (n / 100)).
    set (b := N.to_uint (n / 10 mod 10)).
    set (c := N.to_uint (n mod 10)).
    assert (Ha : a <> Decimal.Nil) by apply to_uint_nonnil.
    assert (Hb : String.length (NilZero.string_of_uint b) = 1)
      by (apply digit_length, N.mod_lt; lia).
    assert (Hc : String.length (NilZero.string_of_uint c) = 1)
      by (apply digit_length, N.mod_lt; lia).
    rewrite (string_of_uint_nonnil b) in * by apply to_uint_nonnil.
    rewrite (string_of_uint_nonnil c) in * by apply to_uint_nonnil.
    rewrite (string_of_uint_nonnil a Ha).
    assert (Hm : NilZero.string_of_uint (Decimal.app (Decimal.app a b) c)
                 = NilEmpty.string_of_uint a
                   ++ (NilEmpty.string_of_uint b ++ NilEmpty.string_of_uint c)).
    { rewrite string_of_uint_nonnil.
      - rewrite !string_of_uint_app. apply append_assoc.
      - intros H. apply (f_equal DecimalFacts.to_list) in H.
        rewrite !DecimalFacts.app_spec in H. cbn in H.
        apply app_eq_nil in H. destruct H as [H _].
        apply app_eq_nil in H. destruct H as [H _].
        apply Ha. apply DecimalFacts.to_list_inj. exact H. }
    rewrite Hm.
    set (sa := NilEmpty.string_of_uint a) in *.
    set (sbc := NilEmpty.string_of_uint b ++ NilEmpty.string_of_uint c).
    assert (Hsa : String.length sa <> 0).
    { subst sa. destruct a; try contradiction; cbn; discriminate. }
    assert (Hsbc : String.length sbc = 2).
    { subst sbc. rewrite length_append. lia. }
    cbv zeta. rewrite length_append, Hsbc.
    destruct (Nat.leb_spec (String.length sa + 2) 2) as [Hle | _]; [lia|].
    rewrite length_append, Hsbc.
    replace (String.length sa + 2 - 2) with (String.length sa) by lia.
    rewrite substring_prefix.
    rewrite <- Hsbc at 1. rewrite substring_suffix. reflexivity.
Qed.

Lemma dec_of_N (n : N) :
  JS.dec (Z.of_N n) = NilZero.string_of_uint (N.to_uint n).
Proof. destruct n; reflexivity. Qed.

(** [(amount / 100).toFixed(2)], as modelled, is the amount divided by
    100 and written with two decimal places. *)
Lemma div100_toFixed2_two_places (a : Z) :
  JS.div100_toFixed2 a = two_decimal_places a.
Proof.
  unfold JS.div100_toFixed2, two_decimal_places.
  rewrite toFixed2_digits_split, <- !dec_of_N.
  rewrite N2Z.inj_div, !N2Z.inj_mod, N2Z.inj_div, N2Z.inj_abs_N.
  reflexivity.
Qed.

Lemma amount_text_two_places (a : Z) :
  (Z.abs a < 2 ^ 52)%Z -> JS.amount_text (JS.Num a) = Some (two_decimal_places a).
Proof.
  intros H. unfold JS.amount_text.
  apply Z.ltb_lt in H. rewrite H. now rewrite div100_toFixed2_two_places.
Qed.

(** Walk a handler's tree for [bystander] and [owner]. *)
Ltac disc :=
  repeat
    first
      [ progress cbn [bystander owner try_finally try_catch await seq]
      | progress unfold member, destructure, loadRazorpay
      | match goal with
        | |- True => exact Logic.I
        | |- (_ /\ _) \/ _ =>
            first [ left; split; [solve [intros []; reflexivity]|] | right ]
        | |- _ /\ _ => split
        | |- forall s : Chatbot.state, _ = _ => solve [intros []; reflexivity]
        | |- forall s : PaymentPage.state, _ = _ => solve [intros []; reflexivity]
        | |- @eq bool _ _ =>
            solve [ reflexivity
                  | apply panel_order_call_is_booking
                  | apply page_order_call ]
        | |- forall _, _ => intro
        | |- bystander _ _ _ ?t =>
            match t with
            | context [match ?x with Resolved _ => _ | Rejected _ => _ end] =>
                destruct x
            | context [if ?b then _ else _] => destruct b
            end
        | |- owner _ _ _ ?t =>
            match t with
            | context [match ?x with Resolved _ => _ | Rejected _ => _ end] =>
                destruct x
            | context [if ?b then _ else _] => destruct b
            end
        end ].

Ltac unfold_handlers :=
  unfold Chatbot.handleChatSubmit, Chatbot.handleRequestSubmit,
    Chatbot.checkRoomAvailability, Chatbot.handleBookingSubmit,
    Chatbot.verify_handler, Chatbot.goHome.

(** Every handler but Back's either leaves the room-service flag and
    calls alone, or is Send Request pressed while the flag is clear. *)
Lemma handlers_respect_request_flag (s : Chatbot.state) (a : Chatbot.action)
      (t : Task Chatbot.state) :
  a <> Chatbot.ClickBack ->
  Chatbot.handler_of s a = Some t ->
  bystander Chatbot.isRequestLoading is_room_service_call false t
  \/ (Chatbot.isRequestLoading s = false
      /\ starter Chatbot.isRequestLoading is_room_service_call false t).
Proof.
  intros Hback H. unfold Chatbot.handler_of, Chatbot.when in H.
  destruct (Chatbot.loading s); [discriminate|].
  destruct a; try contradiction;
    match type of H with
    | (if ?b then _ else _) = Some _ => destruct b eqn:Hguard; [|discriminate H]
    end;
    apply some_eq in H; subst t; unfold_handlers;
    try (left; disc; fail).
  unfold Chatbot.send_request_disabled in Hguard.
  apply andb_prop in Hguard. destruct Hguard as [_ Hflag].
  apply negb_true_iff in Hflag.
  match goal with |- context [if ?b then _ else _] => destruct b end.
  - left. disc.
  - right. split; [exact Hflag|]. cbn [starter]. split; [intros []; reflexivity|].
    disc.
Qed.

Lemma handlers_respect_checking_flag (s : Chatbot.state) (a : Chatbot.action)
      (t : Task Chatbot.state) :
  a <> Chatbot.ClickBack ->
  Chatbot.handler_of s a = Some t ->
  bystander Chatbot.isCheckingLoading is_availability_call false t
  \/ (Chatbot.isCheckingLoading s = false
      /\ starter Chatbot.isCheckingLoading is_availability_call false t).
Proof.
  intros Hback H. unfold Chatbot.handler_of, Chatbot.when in H.
  destruct (Chatbot.loading s); [discriminate|].
  destruct a; try contradiction;
    match type of H with
    | (if ?b then _ else _) = Some _ => destruct b eqn:Hguard; [|discriminate H]
    end;
    apply some_eq in H; subst t; unfold_handlers;
    try (left; disc; fail).
  unfold Chatbot.check_availability_disabled in Hguard.
  apply andb_prop in Hguard. destruct Hguard as [_ Hflag].
  apply negb_true_iff in Hflag.
  match goal with |- context [if ?b then _ else _] => destruct b end.
  - left. disc.
  - right. split; [exact Hflag|]. cbn [starter]. split; [intros []; reflexivity|].
    disc.
Qed.

Lemma handlers_respect_booking_flag (s : Chatbot.state) (a : Chatbot.action)
      (t : Task Chatbot.state) :
  a <> Chatbot.ClickBack ->
  Chatbot.handler_of s a = Some t ->
  bystander Chatbot.isBookingLoading is_booking_call true t
  \/ (Chatbot.isBookingLoading s = false
      /\ starter Chatbot.isBookingLoading is_booking_call true t).
Proof.
  intros Hback H. unfold Chatbot.handler_of, Chatbot.when in H.
  destruct (Chatbot.loading s); [discriminate|].
  destruct a; try contradiction;
    match type of H with
    | (if ?b then _ else _) = Some _ => destruct b eqn:Hguard; [|discriminate H]
    end;
    apply some_eq in H; subst t; unfold_handlers;
    try (left; disc; fail).
  unfold Chatbot.book_pay_disabled in Hguard.
  apply andb_prop in Hguard. destruct Hguard as [_ Hflag].
  apply negb_true_iff in Hflag.
  match goal with |- context [if ?b then _ else _] => destruct b end.
  - left. disc.
  - right. split; [exact Hflag|]. cbn [starter]. split; [intros []; reflexivity|].
    disc.
Qed.

Lemma page_handlers_respect_creating (s : PaymentPage.state)
      (a : PaymentPage.action) (t : Task PaymentPage.state) :
  PaymentPage.handler_of s a = Some t ->
  bystander PaymentPage.creating is_order_call false t
  \/ (PaymentPage.creating s = false
      /\ starter PaymentPage.creating is_order_call false t).
Proof.
  intros H. unfold PaymentPage.handler_of in H.
  destruct a.
  - apply some_eq in H. subst t. left. disc.
  - unfold PaymentPage.create_order_disabled in H.
    destruct (PaymentPage.creating s) eqn:Hflag; [discriminate|].
    apply some_eq in H. subst t. unfold PaymentPage.createOrder.
    match goal with |- context [if ?b then _ else _] => destruct b end.
    + left. disc.
    + right. split; [reflexivity|]. cbn [starter].
      split; [intros []; reflexivity|]. disc.
  - destruct (PaymentPage.pay_now_disabled s); [discriminate|].
    apply some_eq in H. subst t. left.
    unfold PaymentPage.payNow, PaymentPage.verify_handler. disc.
Qed.

(** The discipline is an invariant of each component. *)
Section Reach.

Variable flag : Chatbot.state -> bool.
Variable mine : request -> bool.
Variable scripts_mine : bool.

Hypothesis ping_is_bystander : bystander flag mine scripts_mine Chatbot.ping.
Hypothesis handlers_respect :
  forall s a t,
    a <> Chatbot.ClickBack ->
    Chatbot.handler_of s a = Some t ->
    bystander flag mine scripts_mine t
    \/ (flag s = false /\ starter flag mine scripts_mine t).

Hypothesis back_is_owner : owner flag mine scripts_mine Chatbot.goHome.

(** What is suspended is tidy in every reachable world, Back or not. *)
Lemma reachable_tidy (w : World Chatbot.state) :
  chatbot_reachable w -> tidy flag mine scripts_mine w.
Proof.
  induction 1 as [sdk | w w' ev _ IH Hstep].
  - apply run_bystander; [exact ping_is_bystander|].
    repeat split; constructor.
  - destruct ev as [a | e]; cbn [Chatbot.step] in Hstep.
    + destruct (Chatbot.handler_of (ui w) a) as [t|] eqn:E; [|discriminate].
      apply some_eq in Hstep. subst w'.
      assert (Ha : a = Chatbot.ClickBack \/ a <> Chatbot.ClickBack)
        by (destruct a; first [left; reflexivity | right; discriminate]).
      destruct Ha as [-> | Ha].
      * unfold Chatbot.handler_of, Chatbot.when in E.
        destruct (Chatbot.loading (ui w)); [discriminate|].
        destruct (Chatbot.shows (ui w) "request" || Chatbot.shows (ui w) "booking");
          [|discriminate].
        apply some_eq in E. subst t.
        apply run_owner_tidy; [exact back_is_owner | exact IH].
      * destruct (handlers_respect _ _ _ Ha E) as [Hb | [Hf Hs]].
        -- now apply run_bystander.
        -- destruct t as [ | | | | | | f k | ]; try contradiction.
           destruct Hs as [_ Hk]. cbn [run].
           apply run_owner_tidy; [exact Hk|]. exact IH.
    + exact (deliver_tidy _ _ _ w w' e IH Hstep).
Qed.

Lemma kept_disciplined (w : World Chatbot.state) :
  chatbot_kept mine scripts_mine w -> disciplined flag mine scripts_mine w.
Proof.
  induction 1 as [w Hreach Hidle | w w' ev _ IH Hev Hstep].
  - apply idle_disciplined; [|exact Hidle]. now apply reachable_tidy.
  - destruct ev as [a | e]; cbn [Chatbot.step] in Hstep.
    + destruct (Chatbot.handler_of (ui w) a) as [t|] eqn:E; [|discriminate].
      apply some_eq in Hstep. subst w'.
      assert (Ha : a <> Chatbot.ClickBack) by congruence.
      destruct (handlers_respect _ _ _ Ha E) as [Hb | [Hf Hs]].
      * now apply bystander_disciplined.
      * now apply starter_disciplined.
    + exact (deliver_disciplined _ _ _ w w' e IH Hstep).
Qed.

End Reach.

Lemma page_disciplined (w : World PaymentPage.state) :
  payment_reachable w -> disciplined PaymentPage.creating is_order_call false w.
Proof.
  induction 1 as [sdk | w w' ev _ IH Hstep].
  - apply bystander_disciplined.
    + unfold PaymentPage.load_sdk. disc.
    + apply idle_disciplined; [repeat split; constructor | reflexivity].
  - destruct ev as [a | e]; cbn [PaymentPage.step] in Hstep.
    + destruct (PaymentPage.handler_of (ui w) a) as [t|] eqn:E; [|discriminate].
      apply some_eq in Hstep. subst w'.
      destruct (page_handlers_respect_creating _ _ _ E) as [Hb | [Hf Hs]].
      * now apply bystander_disciplined.
      * now apply starter_disciplined.
    + exact (deliver_disciplined _ _ _ w w' e IH Hstep).
Qed.

Lemma kept_after (mine : request -> bool) (scripts_mine : bool)
      (evs : list Chatbot.event) :
  forall w, chatbot_kept mine scripts_mine w -> stay_trace w evs = true ->
            chatbot_kept mine scripts_mine (chatbot_after w evs).
Proof.
  induction evs as [|ev evs IH]; intros w Hw Htr; cbn in *; [exact Hw|].
  apply andb_prop in Htr. destruct Htr as [Hno Hrest].
  destruct (Chatbot.step w ev) as [w'|] eqn:E; [|discriminate].
  apply IH; [|exact Hrest].
  apply (kept_stepped mine scripts_mine w w' ev Hw); [|exact E].
  intros ->. discriminate Hno.
Qed.

Lemma goHome_is_owner (flag : Chatbot.state -> bool) (mine : request -> bool)
      (scripts_mine : bool) :
  flag = Chatbot.isRequestLoading \/ flag = Chatbot.isCheckingLoading
  \/ flag = Chatbot.isBookingLoading ->
  owner flag mine scripts_mine Chatbot.goHome.
Proof.
  intros [-> | [-> | ->]]; unfold Chatbot.goHome; disc.
Qed.

Lemma payment_reachable_after (evs : list PaymentPage.event) :
  forall w, payment_reachable w -> payment_reachable (payment_after w evs).
Proof.
  induction evs as [|ev evs IH]; intros w Hw; cbn; [exact Hw|].
  destruct (PaymentPage.step w ev) as [w'|] eqn:E; apply IH; [|exact Hw].
  exact (payment_stepped w w' ev Hw E).
Qed.


(* ================================================================== *)
(** ** Properties of the components *)

(** C1, as stated, fails on the Payment Page: it displays the order's
    own status, ["created"] when the backend sends none, before the
    payment as well as after a successful verification, which only shows
    an alert. *)
Lemma page_status_is_neither_pending_nor_paid :
  exists w_before w_after,
    PaymentPage.steps (PaymentPage.mounted true) page_order_created = Some w_before
    /\ PaymentPage.order_block (ui w_before)
       = Some (Some "₹4000.00 INR", Some "created")
    /\ PaymentPage.steps (PaymentPage.mounted true) page_verified = Some w_after
    /\ log w_after
       = [ Http (mkRequest POST
                   "http://localhost:8000/booking/abc-123/create-order"
                   JS.Undefined);
           Alert "Order created: order_1";
           CheckoutOpened
             (mkOptions (JS.Str "rzp_test_x") (JS.Str "order_1")
                "The Grand Palace Hotel" "Room booking payment"
                (JS.Str "Guest") (JS.Str "guest@example.com")
                (JS.Str "abc-123") (Some "#3399cc"));
           Http (PaymentPage.verify_request example_payment);
           Alert "✅ Payment verified! Booking confirmed." ]
    /\ PaymentPage.order_block (ui w_after)
       = Some (Some "₹4000.00 INR", Some "created").
Proof.
  eexists; eexists.
  split; [vm_compute; reflexivity|].
  split; [vm_compute; reflexivity|].
  split; [vm_compute; reflexivity|].
  split; vm_compute; reflexivity.
Qed.

(** C1, amended.
    - Booking panel.  The checkout's success callback issues the verify
      call.  When that call succeeds, the payment summary (if one is on
      display) gets status ["paid"], its chip reads ["Paid"], and the
      confirmation banner is set.  When it fails, the cells are as they
      were and no call is issued in its place.
    - Booking panel, before.  As long as no verify call has succeeded, a
      payment summary on display carries no status and its chip reads
      ["Payment Pending"].
    - Payment Page.  The success callback issues the verify call.  When
      it succeeds a confirmation is alerted; when it fails the error is
      alerted (the server's [detail], else a generic text) and no call is
      issued in its place.  Either way the cells, and so the displayed
      order status, are as they were. *)
Theorem verify_step_outcomes :
  (forall (resp : checkout_response) (w : World Chatbot.state),
      exists k,
        run (Chatbot.verify_handler resp) w
        = mkWorld (ui w) (window_Razorpay w)
                  (inflight w ++ [(Chatbot.verify_request resp, k)])
                  (scripts w) (widgets w)
                  (log w ++ [Http (Chatbot.verify_request resp)])
        /\ forall (w1 : World Chatbot.state) i rest,
            take_out i (inflight w1)
            = Some ((Chatbot.verify_request resp, k), rest) ->
            (forall data, exists w2,
                Chatbot.step w1 (Chatbot.Env (Settle i (Resolved data))) = Some w2
                /\ Chatbot.paySummary (ui w2)
                   = option_map Chatbot.mark_paid (Chatbot.paySummary (ui w1))
                /\ (forall p, Chatbot.paySummary (ui w1) = Some p ->
                              Chatbot.payment_block (ui w2)
                              = Some ("Paid", Chatbot.price_text p))
                /\ Chatbot.bookingSuccess (ui w2)
                   = "✅ Payment successful! Your booking is confirmed."
                /\ inflight w2 = rest)
            /\ (forall e, exists w2,
                   Chatbot.step w1 (Chatbot.Env (Settle i (Rejected e))) = Some w2
                   /\ ui w2 = ui w1
                   /\ inflight w2 = rest))
  /\
  (forall w : World Chatbot.state,
      chatbot_unverified w ->
      forall p, Chatbot.paySummary (ui w) = Some p ->
                Chatbot.status p = JS.Undefined
                /\ Chatbot.payment_block (ui w)
                   = Some ("Payment Pending", Chatbot.price_text p))
  /\
  (forall (resp : checkout_response) (w : World PaymentPage.state),
      exists k,
        run (PaymentPage.verify_handler resp) w
        = mkWorld (ui w) (window_Razorpay w)
                  (inflight w ++ [(PaymentPage.verify_request resp, k)])
                  (scripts w) (widgets w)
                  (log w ++ [Http (PaymentPage.verify_request resp)])
        /\ forall (w1 : World PaymentPage.state) i rest,
            take_out i (inflight w1)
            = Some ((PaymentPage.verify_request resp, k), rest) ->
            (forall data, exists w2,
                PaymentPage.step w1 (PaymentPage.Env (Settle i (Resolved data)))
                = Some w2
                /\ log w2
                   = (log w1 ++ [Alert "✅ Payment verified! Booking confirmed."])%list
                /\ ui w2 = ui w1
                /\ inflight w2 = rest)
            /\ (forall e, exists w2,
                   PaymentPage.step w1 (PaymentPage.Env (Settle i (Rejected e)))
                   = Some w2
                   /\ log w2
                      = (log w1 ++ [ConsoleError "" e;
                                    Alert (PaymentPage.verify_alert e)])%list
                   /\ ui w2 = ui w1
                   /\ inflight w2 = rest)).
Proof.
  split; [|split].
  - intros resp w. eexists. split; [reflexivity|].
    intros w1 i rest Hi. split.
    + intros data. unfold Chatbot.step, deliver. rewrite Hi.
      eexists. split; [reflexivity|]. exec.
      destruct w1 as [[? ? ? ? ? ? ? ? ? ? ? ? ? ? ? ? ? ps ?] g fl sc wd lg].
      cbn. repeat split.
      intros p [= ->]. reflexivity.
    + intros e. unfold Chatbot.step, deliver. rewrite Hi.
      eexists. split; [reflexivity|]. exec. split; reflexivity.
  - intros w Hw p Hp.
    destruct (unverified_unpaid w Hw) as [Hunpaid _].
    pose proof (Hunpaid p Hp) as Hst. split; [exact Hst|].
    unfold Chatbot.payment_block, Chatbot.chip_text. rewrite Hp, Hst.
    reflexivity.
  - intros resp w. eexists. split; [reflexivity|].
    intros w1 i rest Hi. split.
    + intros data. unfold PaymentPage.step, deliver. rewrite Hi.
      eexists. split; [reflexivity|]. exec. repeat split.
    + intros e. unfold PaymentPage.step, deliver. rewrite Hi.
      eexists. split; [reflexivity|]. exec.
      rewrite <- app_assoc. repeat split.
Qed.

Lemma verify_step_outcomes_witness :
  let w0 := chatbot_after (Chatbot.mounted true) example_checkout in
  let w1 := chatbot_after w0 [Chatbot.Env (PaymentSucceeded 0 example_payment)] in
  Chatbot.payment_block (ui w0) = Some ("Payment Pending", Some "₹4000.00 INR")
  /\ exists w2,
      Chatbot.step w1 (Chatbot.Env (Settle 0 (Resolved JS.Null))) = Some w2
      /\ Chatbot.payment_block (ui w2) = Some ("Paid", Some "₹4000.00 INR").
Proof.
  intros w0 w1.
  destruct verify_step_outcomes as (Hpanel & Hbefore & _).
  set (p := Chatbot.mkSummary (JS.Num 400000) (JS.Str "INR") (JS.Str "order_1")
                              JS.Undefined).
  split.
  - assert (Hw0 : chatbot_unverified w0).
    { apply unverified_after; [apply unverified_mounted|].
      vm_compute. reflexivity. }
    exact (proj2 (Hbefore w0 Hw0 p eq_refl)).
  - set (w0' := mkWorld (ui w0) (window_Razorpay w0) (inflight w0) (scripts w0)
                        [] (log w0)).
    destruct (Hpanel example_payment w0') as (k & Hrun & Hsettle).
    assert (Hw1 : w1 = run (Chatbot.verify_handler example_payment) w0')
      by (vm_compute; reflexivity).
    assert (Htake : take_out 0 (inflight w1)
                    = Some ((Chatbot.verify_request example_payment, k), [])).
    { rewrite Hw1, Hrun. reflexivity. }
    destruct (Hsettle w1 0 [] Htake) as [Hok _].
    destruct (Hok JS.Null) as (w2 & Hstep & _ & Hblock & _).
    exists w2. split; [exact Hstep|].
    apply (Hblock p). rewrite Hw1, Hrun. reflexivity.
Defined.

(** C2. In every world the mounted component can reach, pressing
    Book & Pay while the email, the room type, the check-in date or the
    check-out date is empty issues no call: the world after the click is
    the world before it plus one alert, ["Please fill all fields."].
    (The handler's guard tests the email and the two dates; the room type
    is always one of the three options of the [select].) *)
Theorem booking_submit_with_empty_input_is_refused
        (w w' : World Chatbot.state) :
  chatbot_reachable w ->
  Chatbot.email (ui w) = "" \/ Chatbot.roomType (ui w) = ""
  \/ Chatbot.checkIn (ui w) = "" \/ Chatbot.checkOut (ui w) = "" ->
  Chatbot.step w (Chatbot.User Chatbot.ClickBookPay) = Some w' ->
  ui w' = ui w
  /\ inflight w' = inflight w
  /\ scripts w' = scripts w
  /\ widgets w' = widgets w
  /\ window_Razorpay w' = window_Razorpay w
  /\ log w' = (log w ++ [Alert "Please fill all fields."])%list.
Proof.
  intros Hreach Hempty Hstep.
  assert (Hguard : negb (JS.str_truthy (Chatbot.email (ui w)))
                   || negb (JS.str_truthy (Chatbot.checkIn (ui w)))
                   || negb (JS.str_truthy (Chatbot.checkOut (ui w))) = true).
  { destruct Hempty as [H | [H | [H | H]]].
    - rewrite H. reflexivity.
    - destruct (reachable_room_type w Hreach) as [Hroom _].
      unfold room_type_offered in Hroom. rewrite H in Hroom.
      destruct Hroom as [Hr | [Hr | Hr]]; discriminate Hr.
    - rewrite H. cbn. now rewrite orb_true_r.
    - rewrite H. cbn. now rewrite orb_true_r. }
  unfold Chatbot.step, Chatbot.handler_of, Chatbot.when in Hstep.
  destruct (Chatbot.loading (ui w)); [discriminate|].
  destruct (Chatbot.shows (ui w) "booking"
            && negb (Chatbot.book_pay_disabled (ui w))); [|discriminate].
  apply some_eq in Hstep. subst w'.
  unfold Chatbot.handleBookingSubmit. rewrite Hguard.
  destruct w as [u g fl sc wd lg]. repeat split.
Qed.

Lemma booking_submit_with_empty_input_is_refused_witness :
  let w := chatbot_after (Chatbot.mounted true)
             [ Chatbot.Env (Settle 0 (Resolved JS.Null));
               Chatbot.User (Chatbot.OpenSection Chatbot.BookRoom);
               Chatbot.User (Chatbot.TypeEmail "guest@example.com");
               Chatbot.User (Chatbot.PickCheckIn "2024-06-01") ] in
  exists w',
    Chatbot.step w (Chatbot.User Chatbot.ClickBookPay) = Some w'
    /\ Chatbot.checkOut (ui w) = ""
    /\ inflight w' = []
    /\ log w' = [Http Chatbot.ping_request; Alert "Please fill all fields."].
Proof.
  intros w.
  assert (Hreach : chatbot_reachable w).
  { apply reachable_after. apply chatbot_mounted. }
  destruct (Chatbot.step w (Chatbot.User Chatbot.ClickBookPay)) as [w'|] eqn:E;
    [|vm_compute in E; discriminate E].
  destruct (booking_submit_with_empty_input_is_refused w w' Hreach
              (or_intror (or_intror (or_intror eq_refl))) E)
    as (_ & Hfl & _ & _ & _ & Hlog).
  exists w'. split; [reflexivity|]. split; [reflexivity|].
  split; [rewrite Hfl | rewrite Hlog]; vm_compute; reflexivity.
Defined.

(** C3. When the booking-create call succeeds but its body carries no
    booking id (no [booking] object, or no truthy [id] in it), the flow
    stops there: ["Booking create failed"] is alerted, the loading flag
    is cleared, and the call leaves nothing in flight in its place, so
    the create-order request is never issued.  This holds whenever the
    call settles, whatever else has happened since Book & Pay was
    pressed. *)
Theorem booking_without_id_aborts (s : Chatbot.state) (w : World Chatbot.state) :
  JS.str_truthy (Chatbot.email s) = true ->
  JS.str_truthy (Chatbot.checkIn s) = true ->
  JS.str_truthy (Chatbot.checkOut s) = true ->
  exists k,
    run (Chatbot.handleBookingSubmit s) w
    = mkWorld (Chatbot.setIsBookingLoading true (ui w)) (window_Razorpay w)
              (inflight w ++ [(Chatbot.booking_request s, k)])
              (scripts w) (widgets w)
              (log w ++ [Http (Chatbot.booking_request s)])
    /\ forall (w1 : World Chatbot.state) i rest data,
        take_out i (inflight w1) = Some ((Chatbot.booking_request s, k), rest) ->
        JS.truthy (JS.opt (JS.opt data "booking") "id") = false ->
        exists w2,
          Chatbot.step w1 (Chatbot.Env (Settle i (Resolved data))) = Some w2
          /\ log w2 = (log w1 ++
                       [ ConsoleError "Book & Pay error:"
                                      (JS.Error "Booking create failed");
                         Alert "Booking create failed" ])%list
          /\ inflight w2 = rest
          /\ scripts w2 = scripts w1
          /\ widgets w2 = widgets w1
          /\ ui w2 = Chatbot.setIsBookingLoading false (ui w1).
Proof.
  intros He Hi Ho.
  unfold Chatbot.handleBookingSubmit. rewrite He, Hi, Ho.
  eexists. split; [reflexivity|].
  intros w1 i rest data Htake Hid.
  unfold Chatbot.step, deliver. rewrite Htake.
  eexists. split; [reflexivity|].
  exec. rewrite Hid. exec.
  rewrite <- !app_assoc. repeat split.
Qed.

Lemma booking_without_id_aborts_witness :
  let w := chatbot_after (Chatbot.mounted true) example_form in
  let w1 := chatbot_after w [Chatbot.User Chatbot.ClickBookPay] in
  let nameless := JS.Obj [("booking", JS.Obj [("name", JS.Str "x")])] in
  exists w2,
    Chatbot.step w1 (Chatbot.Env (Settle 0 (Resolved nameless))) = Some w2
    /\ inflight w2 = []
    /\ log w2 = [ Http Chatbot.ping_request;
                  Http (Chatbot.booking_request (ui w));
                  ConsoleError "Book & Pay error:"
                               (JS.Error "Booking create failed");
                  Alert "Booking create failed" ]
    /\ Chatbot.isBookingLoading (ui w2) = false.
Proof.
  intros w w1 nameless.
  destruct (booking_without_id_aborts (ui w) w eq_refl eq_refl eq_refl)
    as (k & Hrun & Hsettle).
  assert (Hw1 : w1 = run (Chatbot.handleBookingSubmit (ui w)) w)
    by (vm_compute; reflexivity).
  assert (Htake : take_out 0 (inflight w1)
                  = Some ((Chatbot.booking_request (ui w), k), [])).
  { rewrite Hw1, Hrun. reflexivity. }
  destruct (Hsettle w1 0 [] nameless Htake eq_refl)
    as (w2 & Hstep & Hlog & Hfl & _ & _ & Hui).
  exists w2. split; [exact Hstep|]. split; [exact Hfl|].
  split; [rewrite Hlog, Hw1, Hrun; reflexivity|].
  rewrite Hui. reflexivity.
Defined.

(** C4, as stated, fails: a chat call that fails is caught and written to
    the console, and no alert is shown. *)
Lemma failed_chat_is_not_alerted :
  exists w,
    Chatbot.steps (Chatbot.mounted true) failed_chat = Some w
    /\ log w =
       [ Http Chatbot.ping_request;
         Http (mkRequest POST "https://chieftrain.onrender.com/chat/"
                 (JS.Obj [("user_id", JS.Str "guest");
                          ("message", JS.Str "Is breakfast free?")]));
         ConsoleError "Chat error:" network_error ]
    /\ inflight w = [].
Proof.
  eexists. split; [vm_compute; reflexivity|].
  split; vm_compute; reflexivity.
Qed.

(** C4, amended.  Run on its own against any backend ([env]), from any
    cells ([s0]):
    - Book & Pay, Check Availability, the room-service Send Request and
      the Payment Page's Create Order end with their loading flag cleared
      on every path, whatever their calls answer;
    - a failed booking-create or create-order call of Book & Pay is caught
      and alerted: the server's [detail] when it is truthy, else the
      error's message, else a generic text;
    - a failed Create Order call on the Payment Page is caught and alerted:
      the server's [detail] when it is truthy, else a generic text;
    - a failed availability call is caught and alerted with a fixed text;
    - a failed chat call is caught and written to the console, with no
      alert; chat has no loading flag. *)
Theorem network_errors_and_loading_flags (env : answers) :
  (* loading flags *)
  (forall s s0 sdk,
      JS.str_truthy (Chatbot.email s) = true ->
      JS.str_truthy (Chatbot.checkIn s) = true ->
      JS.str_truthy (Chatbot.checkOut s) = true ->
      Chatbot.isBookingLoading
        (fst (fst (complete env (Chatbot.handleBookingSubmit s) s0 sdk))) = false)
  /\ (forall s s0 sdk,
      JS.str_truthy (Chatbot.checkIn s) = true ->
      JS.str_truthy (Chatbot.checkOut s) = true ->
      Chatbot.isCheckingLoading
        (fst (fst (complete env (Chatbot.checkRoomAvailability s) s0 sdk))) = false)
  /\ (forall s s0 sdk,
      JS.str_truthy (Chatbot.roomNumber s) = true ->
      JS.str_truthy (Chatbot.phoneNumber s) = true ->
      JS.str_truthy (Chatbot.requestText s) = true ->
      Chatbot.isRequestLoading
        (fst (fst (complete env (Chatbot.handleRequestSubmit s) s0 sdk))) = false)
  /\ (forall s s0 sdk,
      JS.str_truthy (JS.trim (PaymentPage.bookingId s)) = true ->
      PaymentPage.creating
        (fst (fst (complete env (PaymentPage.createOrder s) s0 sdk))) = false)
  (* Book & Pay: the booking-create call fails *)
  /\ (forall s s0 sdk e,
      JS.str_truthy (Chatbot.email s) = true ->
      JS.str_truthy (Chatbot.checkIn s) = true ->
      JS.str_truthy (Chatbot.checkOut s) = true ->
      answer env (Chatbot.booking_request s) = Rejected e ->
      snd (complete env (Chatbot.handleBookingSubmit s) s0 sdk)
      = [ Http (Chatbot.booking_request s);
          ConsoleError "Book & Pay error:" e;
          Alert (Chatbot.booking_alert e) ])
  (* Book & Pay: the create-order call fails *)
  /\ (forall s s0 sdk booked e,
      JS.str_truthy (Chatbot.email s) = true ->
      JS.str_truthy (Chatbot.checkIn s) = true ->
      JS.str_truthy (Chatbot.checkOut s) = true ->
      answer env (Chatbot.booking_request s) = Resolved booked ->
      JS.truthy (JS.opt (JS.opt booked "booking") "id") = true ->
      answer env (Chatbot.order_request (JS.opt (JS.opt booked "booking") "id"))
      = Rejected e ->
      snd (complete env (Chatbot.handleBookingSubmit s) s0 sdk)
      = [ Http (Chatbot.booking_request s);
          Http (Chatbot.order_request (JS.opt (JS.opt booked "booking") "id"));
          ConsoleError "Book & Pay error:" e;
          Alert (Chatbot.booking_alert e) ])
  /\ (forall e,
      Chatbot.booking_alert e
      = if JS.truthy (JS.opt (JS.response_data e) "detail")
        then JS.to_string (JS.opt (JS.response_data e) "detail")
        else if JS.str_truthy (JS.message e) then JS.message e
             else "Booking/payment failed.")
  (* Payment Page: the create-order call fails *)
  /\ (forall s s0 sdk e,
      JS.str_truthy (JS.trim (PaymentPage.bookingId s)) = true ->
      answer env (PaymentPage.order_request s) = Rejected e ->
      snd (complete env (PaymentPage.createOrder s) s0 sdk)
      = [ Http (PaymentPage.order_request s);
          ConsoleError "" e;
          Alert (PaymentPage.order_alert e) ])
  /\ (forall e,
      PaymentPage.order_alert e
      = if JS.truthy (JS.opt (JS.response_data e) "detail")
        then JS.to_string (JS.opt (JS.response_data e) "detail")
        else "Failed to create order. Check backend logs.")
  (* Check Availability: the call fails *)
  /\ (forall s s0 sdk e,
      JS.str_truthy (Chatbot.checkIn s) = true ->
      JS.str_truthy (Chatbot.checkOut s) = true ->
      answer env (Chatbot.availability_request s) = Rejected e ->
      snd (complete env (Chatbot.checkRoomAvailability s) s0 sdk)
      = [ Http (Chatbot.availability_request s);
          ConsoleError "Availability check failed:" e;
          Alert "Failed to fetch availability." ])
  (* chat: the call fails *)
  /\ (forall s s0 sdk e,
      JS.str_truthy (JS.trim (Chatbot.currentInput s)) = true ->
      answer env (Chatbot.chat_request s) = Rejected e ->
      snd (complete env (Chatbot.handleChatSubmit s) s0 sdk)
      = [ Http (Chatbot.chat_request s); ConsoleError "Chat error:" e ]).
Proof.
  repeat match goal with |- _ /\ _ => split end.
  - intros s s0 sdk He Hi Ho.
    unfold Chatbot.handleBookingSubmit. rewrite He, Hi, Ho.
    paths; reflexivity.
  - intros s s0 sdk Hi Ho.
    unfold Chatbot.checkRoomAvailability. rewrite Hi, Ho.
    paths; reflexivity.
  - intros s s0 sdk Hr Hp Ht.
    unfold Chatbot.handleRequestSubmit. rewrite Hr, Hp, Ht.
    paths; reflexivity.
  - intros s s0 sdk Hb.
    unfold PaymentPage.createOrder. rewrite Hb.
    paths; reflexivity.
  - intros s s0 sdk e He Hi Ho Hans.
    unfold Chatbot.handleBookingSubmit. rewrite He, Hi, Ho.
    follow. rewrite Hans. follow. reflexivity.
  - intros s s0 sdk booked e He Hi Ho Hb Hid Hans.
    unfold Chatbot.handleBookingSubmit. rewrite He, Hi, Ho.
    follow. rewrite Hb. follow. rewrite Hid. follow. rewrite Hans.
    follow. reflexivity.
  - intros e. unfold Chatbot.booking_alert, JS.or.
    destruct (JS.truthy (JS.opt (JS.response_data e) "detail")) eqn:Hd.
    + rewrite Hd. reflexivity.
    + cbn [JS.truthy]. destruct (JS.str_truthy (JS.message e)); reflexivity.
  - intros s s0 sdk e Hb Hans.
    unfold PaymentPage.createOrder. rewrite Hb.
    follow. rewrite Hans. follow. reflexivity.
  - intros e. unfold PaymentPage.order_alert, JS.or.
    destruct (JS.truthy (JS.opt (JS.response_data e) "detail")); reflexivity.
  - intros s s0 sdk e Hi Ho Hans.
    unfold Chatbot.checkRoomAvailability. rewrite Hi, Ho.
    follow. rewrite Hans. follow. reflexivity.
  - intros s s0 sdk e Hc Hans.
    unfold Chatbot.handleChatSubmit. rewrite Hc.
    follow. rewrite Hans. follow. reflexivity.
Qed.

Lemma network_errors_and_loading_flags_witness :
  let s := ui (chatbot_after (Chatbot.mounted true) example_form) in
  Chatbot.isBookingLoading
    (fst (fst (complete refusing_backend (Chatbot.handleBookingSubmit s) s true)))
  = false
  /\ snd (complete refusing_backend (Chatbot.handleBookingSubmit s) s true)
     = [ Http (Chatbot.booking_request s);
         ConsoleError "Book & Pay error:" sold_out;
         Alert "No rooms left for these dates" ]
  /\ snd (complete unreachable_backend (Chatbot.handleBookingSubmit s) s true)
     = [ Http (Chatbot.booking_request s);
         ConsoleError "Book & Pay error:" network_error;
         Alert "Network Error" ]
  /\ snd (complete unreachable_backend (Chatbot.checkRoomAvailability s) s true)
     = [ Http (Chatbot.availability_request s);
         ConsoleError "Availability check failed:" network_error;
         Alert "Failed to fetch availability." ].
Proof.
  intros s.
  destruct (network_errors_and_loading_flags refusing_backend)
    as (Hflag & _ & _ & _ & Hrefused & _).
  destruct (network_errors_and_loading_flags unreachable_backend)
    as (_ & _ & _ & _ & Hdown & _ & _ & _ & _ & Havail & _).
  split; [exact (Hflag s s true eq_refl eq_refl eq_refl)|].
  split; [exact (Hrefused s s true sold_out eq_refl eq_refl eq_refl eq_refl)|].
  split; [exact (Hdown s s true network_error eq_refl eq_refl eq_refl eq_refl)|].
  exact (Havail s s true network_error eq_refl eq_refl eq_refl).
Defined.

(** C5. On the Payment Page an order created for one booking is paid
    under another: after an order is created for [booking-A] and the
    booking id is edited to [booking-B], Pay Now opens the checkout with
    the order made for [booking-A] and the note [booking_id = booking-B]. *)
Theorem stale_order_is_paid_under_edited_booking_id :
  exists w,
    PaymentPage.steps (PaymentPage.mounted true) stale_order = Some w
    /\ log w =
       [ Http (mkRequest POST
                 "http://localhost:8000/booking/booking-A/create-order"
                 JS.Undefined);
         Alert "Order created: order_for_booking-A";
         CheckoutOpened
           (mkOptions (JS.Str "rzp_test_x") (JS.Str "order_for_booking-A")
              "The Grand Palace Hotel" "Room booking payment"
              (JS.Str "Guest") (JS.Str "guest@example.com")
              (JS.Str "booking-B") (Some "#3399cc")) ].
Proof.
  eexists. split; vm_compute; reflexivity.
Qed.

(** The booking panel, by contrast, always opens the checkout with the
    booking id the order was requested for: both come from the same
    [booking.id]. *)
Lemma panel_checkout_pairs_order_and_booking
      (s : Chatbot.state) (booked : JS.value) (env : answers) :
  JS.str_truthy (Chatbot.email s) = true ->
  JS.str_truthy (Chatbot.checkIn s) = true ->
  JS.str_truthy (Chatbot.checkOut s) = true ->
  answer env (Chatbot.booking_request s) = Resolved booked ->
  forall o s0 sdk,
    In (CheckoutOpened o)
       (snd (complete env (Chatbot.handleBookingSubmit s) s0 sdk)) ->
    In (Http (Chatbot.order_request (notes_booking_id o)))
       (snd (complete env (Chatbot.handleBookingSubmit s) s0 sdk)).
Proof.
  intros He Hi Ho Hb o s0 sdk.
  unfold Chatbot.handleBookingSubmit. rewrite He, Hi, Ho.
  lazy [negb orb complete try_finally try_catch await seq]. rewrite Hb.
  destruct (JS.truthy (JS.opt (JS.opt booked "booking") "id"));
    lazy [negb complete try_finally try_catch await seq snd].
  2: { intros [H|[H|[H|[]]]]; discriminate H. }
  destruct (answer env (Chatbot.order_request _)) as [data|e];
    lazy [negb complete try_finally try_catch await seq snd].
  2: { intros [H|[H|[H|[H|[]]]]]; discriminate H. }
  unfold destructure, member, loadRazorpay.
  destruct (JS.nullish data);
    lazy [negb complete try_finally try_catch await seq snd].
  1: { intros [H|[H|[H|[H|[]]]]]; discriminate H. }
  destruct (JS.nullish (JS.opt data "order"));
    lazy [negb complete try_finally try_catch await seq snd].
  1: { intros [H|[H|[H|[H|[]]]]]; discriminate H. }
  destruct sdk, (script_loads env), (script_defines_sdk env);
    lazy [negb orb complete try_finally try_catch await seq snd];
    intros H; repeat (destruct H as [H|H]; try discriminate H);
    try contradiction;
    injection H as <-; right; left; reflexivity.
Qed.

(** C6, as stated, fails.  A query for June is in flight when the panel
    is left with Back (which clears the loading flag) and entered again;
    a query for July is started and answered, and its counts are shown;
    then the June query succeeds and its counts replace them. *)
Lemma older_availability_overwrites_newer :
  exists w_newer w_older,
    Chatbot.steps (Chatbot.mounted true) overtaken_query = Some w_newer
    /\ Chatbot.checkIn (ui w_newer) = "2024-07-10"
    /\ Chatbot.availability_list (ui w_newer)
       = Some (JS.Num 5, JS.Num 2, JS.Num 9)
    /\ map fst (inflight w_newer)
       = [ mkRequest GET "https://chieftrain.onrender.com/booking/availability/"
             (JS.Obj [("check_in", JS.Str "2024-06-01");
                      ("check_out", JS.Str "2024-06-03")]) ]
    /\ Chatbot.step w_newer (Chatbot.Env (Settle 0 (Resolved (counts 0 0 1))))
       = Some w_older
    /\ Chatbot.checkIn (ui w_older) = "2024-07-10"
    /\ Chatbot.availability_list (ui w_older)
       = Some (JS.Num 0, JS.Num 0, JS.Num 1).
Proof.
  eexists; eexists.
  split; [vm_compute; reflexivity|].
  repeat split; vm_compute; reflexivity.
Qed.

(** Check Availability, once its two dates are filled in, sets the
    loading flag and leaves one call suspended, with
    [availability_settled] as what remains to run. *)
Lemma checkRoomAvailability_run (s : Chatbot.state) (w : World Chatbot.state) :
  JS.str_truthy (Chatbot.checkIn s) = true ->
  JS.str_truthy (Chatbot.checkOut s) = true ->
  run (Chatbot.checkRoomAvailability s) w
  = mkWorld (Chatbot.setIsCheckingLoading true (ui w)) (window_Razorpay w)
            (inflight w ++ [(Chatbot.availability_request s, availability_settled)])
            (scripts w) (widgets w)
            (log w ++ [Http (Chatbot.availability_request s)]).
Proof.
  intros Hi Ho. unfold Chatbot.checkRoomAvailability. rewrite Hi, Ho.
  reflexivity.
Qed.

(** C6, amended.  The availability display shows the counts of the query
    that succeeded last: whenever an availability call that is in flight
    succeeds — wherever it stands among the calls in flight, and whatever
    is displayed — its data replace the displayed counts and the loading
    flag is cleared. *)
Theorem availability_shows_last_settled
        (w : World Chatbot.state) (i : nat) (r : request)
        (rest : list (request * (outcome -> Task Chatbot.state)))
        (data : JS.value) :
  take_out i (inflight w) = Some ((r, availability_settled), rest) ->
  exists w',
    Chatbot.step w (Chatbot.Env (Settle i (Resolved data))) = Some w'
    /\ Chatbot.availability (ui w') = data
    /\ Chatbot.availability_list (ui w')
       = (if JS.truthy data
          then Some (JS.opt data "Deluxe", JS.opt data "Suite",
                     JS.opt data "Standard")
          else None)
    /\ Chatbot.isCheckingLoading (ui w') = false
    /\ inflight w' = rest
    /\ log w' = log w.
Proof.
  intros Hi. unfold Chatbot.step, deliver. rewrite Hi.
  eexists; split; [reflexivity|].
  unfold availability_settled. exec.
  destruct w as [[] g fl sc wd lg]. repeat split.
Qed.

Lemma availability_shows_last_settled_witness :
  exists w_newer w_older,
    Chatbot.steps (Chatbot.mounted true) overtaken_query = Some w_newer
    /\ Chatbot.step w_newer (Chatbot.Env (Settle 0 (Resolved (counts 0 0 1))))
       = Some w_older
    /\ Chatbot.availability (ui w_older) = counts 0 0 1.
Proof.
  destruct (Chatbot.steps (Chatbot.mounted true) overtaken_query)
    as [w_newer|] eqn:E; [|vm_compute in E; discriminate E].
  assert (Hpending :
            take_out 0 (inflight w_newer)
            = Some ((Chatbot.availability_request
                       (Chatbot.setCheckOut "2024-06-03"
                          (Chatbot.setCheckIn "2024-06-01" Chatbot.initial)),
                     availability_settled), [])).
  { vm_compute in E. apply some_eq in E. subst w_newer.
    vm_compute. reflexivity. }
  destruct (availability_shows_last_settled w_newer 0 _ _ (counts 0 0 1) Hpending)
    as (w_older & Hstep & Hav & _).
  exists w_newer, w_older. repeat split; assumption.
Defined.

(** C7, as stated, fails.  The chat send button is never disabled: a
    second message is sent while the first call is in flight.  And Back
    clears the loading flags: after it, Check Availability is enabled
    again while the availability call is still in flight. *)
Lemma buttons_enabled_during_calls :
  (exists w,
      Chatbot.steps (Chatbot.mounted true) double_chat = Some w
      /\ map (fun rk => url (fst rk)) (inflight w)
         = [ "https://chieftrain.onrender.com/chat/";
             "https://chieftrain.onrender.com/chat/" ]
      /\ Chatbot.chat_send_disabled (ui w) = false)
  /\
  (exists w,
      Chatbot.steps (Chatbot.mounted true) back_during_query = Some w
      /\ map (fun rk => url (fst rk)) (inflight w)
         = [ "https://chieftrain.onrender.com/booking/availability/" ]
      /\ Chatbot.section (ui w) = Some "booking"
      /\ Chatbot.check_availability_disabled (ui w) = false).
Proof.
  split; eexists; (split; [vm_compute; reflexivity|]);
    repeat split; vm_compute; reflexivity.
Qed.

(** C7, amended.  Four buttons are disabled by a loading flag for the
    whole time their operation has a call suspended:
    - in the [Chatbot], Send Request while a [/request/] call is in
      flight, Check Availability while an availability call is in flight,
      Book & Pay while its booking-create or create-order call is in
      flight or the checkout script is loading: each in every world in
      which Back has not been pressed since the operation last had
      nothing suspended (Back pressed while the operation is idle does no
      harm);
    - on the Payment Page, always: Create Order while a create-order call
      is in flight.
    So at most one call of each of these operations is suspended at a
    time, and a disabled button runs no handler.  Back, pressed in the
    room-service or booking panel, clears the three flags and leaves
    what is suspended in flight.  The chat send button has no disabled
    state.  Pay Now is disabled exactly while there is no order, no key
    or no SDK, runs no handler then, and is enabled while the verify
    call of a payment is in flight. *)
Theorem loading_flags_disable_their_buttons :
  (forall w : World Chatbot.state,
      chatbot_kept is_room_service_call false w ->
      (forall r k, In (r, k) (inflight w) -> is_room_service_call r = true ->
                   Chatbot.send_request_disabled (ui w) = true)
      /\ pending_mine is_room_service_call false w <= 1)
  /\
  (forall w : World Chatbot.state,
      chatbot_kept is_availability_call false w ->
      (forall r k, In (r, k) (inflight w) -> is_availability_call r = true ->
                   Chatbot.check_availability_disabled (ui w) = true)
      /\ pending_mine is_availability_call false w <= 1)
  /\
  (forall w : World Chatbot.state,
      chatbot_kept is_booking_call true w ->
      (forall r k, In (r, k) (inflight w) -> is_booking_call r = true ->
                   Chatbot.book_pay_disabled (ui w) = true)
      /\ (scripts w <> [] -> Chatbot.book_pay_disabled (ui w) = true)
      /\ pending_mine is_booking_call true w <= 1)
  /\
  (forall w : World Chatbot.state,
      Chatbot.loading (ui w) = false ->
      Chatbot.shows (ui w) "request" || Chatbot.shows (ui w) "booking" = true ->
      exists w',
        Chatbot.step w (Chatbot.User Chatbot.ClickBack) = Some w'
        /\ inflight w' = inflight w
        /\ scripts w' = scripts w
        /\ Chatbot.send_request_disabled (ui w') = false
        /\ Chatbot.check_availability_disabled (ui w') = false
        /\ Chatbot.book_pay_disabled (ui w') = false)
  /\
  (forall w : World PaymentPage.state,
      payment_reachable w ->
      (forall r k, In (r, k) (inflight w) -> is_order_call r = true ->
                   PaymentPage.create_order_disabled (ui w) = true)
      /\ pending_mine is_order_call false w <= 1)
  /\
  (forall w : World Chatbot.state,
      (Chatbot.send_request_disabled (ui w) = true ->
       Chatbot.step w (Chatbot.User Chatbot.ClickSendRequest) = None)
      /\ (Chatbot.check_availability_disabled (ui w) = true ->
          Chatbot.step w (Chatbot.User Chatbot.ClickCheckAvailability) = None)
      /\ (Chatbot.book_pay_disabled (ui w) = true ->
          Chatbot.step w (Chatbot.User Chatbot.ClickBookPay) = None)
      /\ Chatbot.chat_send_disabled (ui w) = false)
  /\
  (forall w : World PaymentPage.state,
      PaymentPage.create_order_disabled (ui w) = true ->
      PaymentPage.step w (PaymentPage.User PaymentPage.ClickCreateOrder) = None)
  /\
  (forall w : World PaymentPage.state,
      (PaymentPage.pay_now_disabled (ui w) = true
       <-> (JS.truthy (PaymentPage.order (ui w)) = false
            \/ JS.truthy (PaymentPage.keyId (ui w)) = false
            \/ PaymentPage.sdkReady (ui w) = false))
      /\ (PaymentPage.pay_now_disabled (ui w) = true ->
          PaymentPage.step w (PaymentPage.User PaymentPage.ClickPayNow) = None))
  /\
  (exists p,
      PaymentPage.steps (PaymentPage.mounted true) page_verifying = Some p
      /\ map (fun rk => url (fst rk)) (inflight p)
         = [ "http://localhost:8000/booking/payment/verify" ]
      /\ length (widgets p) = 0
      /\ PaymentPage.pay_now_disabled (ui p) = false).
Proof.
  split; [|split; [|split; [|split; [|split; [|split; [|split; [|split]]]]]]].
  - intros w Hw.
    pose proof (kept_disciplined Chatbot.isRequestLoading is_room_service_call
                  false ltac:(unfold Chatbot.ping; disc)
                  handlers_respect_request_flag
                  (goHome_is_owner _ _ _ (or_introl eq_refl)) w Hw) as Hd.
    split; [|apply Hd].
    intros r k. exact (disciplined_flag _ _ _ w r k Hd).
  - intros w Hw.
    pose proof (kept_disciplined Chatbot.isCheckingLoading is_availability_call
                  false ltac:(unfold Chatbot.ping; disc)
                  handlers_respect_checking_flag
                  (goHome_is_owner _ _ _ (or_intror (or_introl eq_refl))) w Hw) as Hd.
    split; [|apply Hd].
    intros r k. exact (disciplined_flag _ _ _ w r k Hd).
  - intros w Hw.
    pose proof (kept_disciplined Chatbot.isBookingLoading is_booking_call
                  true ltac:(unfold Chatbot.ping; disc)
                  handlers_respect_booking_flag
                  (goHome_is_owner _ _ _ (or_intror (or_intror eq_refl))) w Hw) as Hd.
    split; [|split; [|apply Hd]].
    + intros r k. exact (disciplined_flag _ _ _ w r k Hd).
    + intros Hsc. destruct Hd as (_ & _ & Hz).
      unfold Chatbot.book_pay_disabled.
      destruct (Chatbot.isBookingLoading (ui w)); [reflexivity|].
      specialize (Hz eq_refl). unfold pending_mine in Hz.
      destruct (scripts w); [contradiction|]. cbn in Hz. lia.
  - intros w Hl Hshow. exists (run Chatbot.goHome w).
    split.
    { unfold Chatbot.step, Chatbot.handler_of, Chatbot.when.
      rewrite Hl, Hshow. reflexivity. }
    rewrite goHome_run. repeat split.
  - intros w Hw. pose proof (page_disciplined w Hw) as Hd. split.
    + intros r k. exact (disciplined_flag _ _ _ w r k Hd).
    + apply Hd.
  - intros w. unfold Chatbot.step, Chatbot.handler_of, Chatbot.when.
    repeat split; try intros ->; destruct (Chatbot.loading (ui w));
      try reflexivity; now rewrite andb_false_r.
  - intros w Hd. unfold PaymentPage.step, PaymentPage.handler_of.
    now rewrite Hd.
  - intros w. split.
    + unfold PaymentPage.pay_now_disabled.
      rewrite !orb_true_iff, !negb_true_iff. tauto.
    + intros Hd. unfold PaymentPage.step, PaymentPage.handler_of.
      now rewrite Hd.
  - eexists. split; [vm_compute; reflexivity|].
    split; [vm_compute; reflexivity|].
    split; vm_compute; reflexivity.
Qed.

Lemma loading_flags_disable_their_buttons_witness :
  let w0 := chatbot_after (Chatbot.mounted false) towels_then_form in
  let w := chatbot_after w0 [Chatbot.User Chatbot.ClickBookPay] in
  let p := payment_after (PaymentPage.mounted true)
                         [ PaymentPage.User (PaymentPage.TypeBookingId "abc-123");
                           PaymentPage.User PaymentPage.ClickCreateOrder ] in
  Chatbot.steps (Chatbot.mounted false)
                (towels_then_form ++ [Chatbot.User Chatbot.ClickBookPay]) = Some w
  /\ map (fun rk => url (fst rk)) (inflight w)
     = [ "https://chieftrain.onrender.com/booking/" ]
  /\ Chatbot.book_pay_disabled (ui w) = true
  /\ Chatbot.step w (Chatbot.User Chatbot.ClickBookPay) = None
  /\ map (fun rk => url (fst rk)) (inflight p)
     = [ "http://localhost:8000/booking/abc-123/create-order" ]
  /\ PaymentPage.create_order_disabled (ui p) = true
  /\ PaymentPage.step p (PaymentPage.User PaymentPage.ClickCreateOrder) = None.
Proof.
  intros w0 w p.
  destruct loading_flags_disable_their_buttons
    as (_ & _ & Hpanel & _ & Hpage & Hoff & Hoff' & _).
  assert (Hw0 : chatbot_kept is_booking_call true w0).
  { apply kept_idle.
    - apply reachable_after. apply chatbot_mounted.
    - vm_compute. reflexivity. }
  assert (Hw : chatbot_kept is_booking_call true w).
  { apply kept_after; [exact Hw0|]. vm_compute. reflexivity. }
  assert (Hp : payment_reachable p).
  { apply payment_reachable_after. apply payment_mounted. }
  destruct (Hpanel w Hw) as (Hbook & _).
  destruct (Hpage p Hp) as (Horder & _).
  destruct (inflight w) as [|[r k] fl] eqn:Ew; [vm_compute in Ew; discriminate Ew|].
  destruct (inflight p) as [|[r' k'] fl'] eqn:Ep; [vm_compute in Ep; discriminate Ep|].
  assert (Hr : is_booking_call r = true).
  { vm_compute in Ew. injection Ew as <- _ _. vm_compute. reflexivity. }
  assert (Hr' : is_order_call r' = true).
  { vm_compute in Ep. injection Ep as <- _ _. vm_compute. reflexivity. }
  pose proof (Hbook r k (or_introl eq_refl) Hr) as Hdis.
  pose proof (Horder r' k' (or_introl eq_refl) Hr') as Hdis'.
  split; [vm_compute; reflexivity|].
  split; [rewrite <- Ew; vm_compute; reflexivity|].
  split; [exact Hdis|].
  split; [exact (proj1 (proj2 (proj2 (Hoff w))) Hdis)|].
  split; [rewrite <- Ep; vm_compute; reflexivity|].
  split; [exact Hdis'|].
  exact (Hoff' p Hdis').
Defined.

(** C8. The displayed amount is the order's amount in minor units divided
    by 100 and written with two decimal places, after the rupee sign and
    followed by the currency code: for every amount below [2^52] in
    absolute value and every currency string, in the booking panel's
    payment summary once the order call of Book & Pay has resolved, and
    in the Payment Page's order block (next to the order's status) once
    Create Order has resolved.  For amount [400000] and currency
    ["INR"] the text is ["₹4000.00 INR"]. *)
Theorem amount_display_4000_INR :
  (forall (s : Chatbot.state) (w : World Chatbot.state) (booked created : JS.value)
          (a : Z) (c : string),
      JS.str_truthy (Chatbot.email s) = true ->
      JS.str_truthy (Chatbot.checkIn s) = true ->
      JS.str_truthy (Chatbot.checkOut s) = true ->
      JS.truthy (JS.opt (JS.opt booked "booking") "id") = true ->
      JS.opt (JS.opt created "order") "amount" = JS.Num a ->
      (Z.abs a < 2 ^ 52)%Z ->
      JS.opt (JS.opt created "order") "currency" = JS.Str c ->
      exists w2 w3,
        deliver (Settle (length (inflight w)) (Resolved booked))
                (run (Chatbot.handleBookingSubmit s) w) = Some w2
        /\ deliver (Settle (length (inflight w)) (Resolved created)) w2 = Some w3
        /\ Chatbot.payment_block (ui w3)
           = Some ("Payment Pending",
                   Some ("₹" ++ two_decimal_places a ++ " " ++ c)))
  /\
  (forall (s : PaymentPage.state) (w : World PaymentPage.state) (created : JS.value)
          (a : Z) (c : string),
      JS.str_truthy (JS.trim (PaymentPage.bookingId s)) = true ->
      JS.opt (JS.opt created "order") "amount" = JS.Num a ->
      (Z.abs a < 2 ^ 52)%Z ->
      JS.opt (JS.opt created "order") "currency" = JS.Str c ->
      exists w2,
        deliver (Settle (length (inflight w)) (Resolved created))
                (run (PaymentPage.createOrder s) w) = Some w2
        /\ PaymentPage.order_block (ui w2)
           = Some (Some ("₹" ++ two_decimal_places a ++ " " ++ c),
                   PaymentPage.status_text (JS.opt created "order")))
  /\
  "₹" ++ two_decimal_places 400000 ++ " " ++ "INR" = "₹4000.00 INR".
Proof.
  split; [|split].
  - intros s w booked created a c He Hi Ho Hid Ham Hrange Hcur.
    assert (Hord : exists fs, JS.opt created "order" = JS.Obj fs)
      by (apply (obj_of_opt _ "amount"); congruence).
    destruct Hord as [ofs Hord].
    assert (Hdat : exists fs, created = JS.Obj fs)
      by (apply (obj_of_opt _ "order"); congruence).
    destruct Hdat as [dfs ->].
    unfold Chatbot.handleBookingSubmit. rewrite He, Hi, Ho.
    destruct w as [u g fl sc wd lg].
    exec. rewrite settle_last. exec. rewrite Hid. exec.
    eexists; eexists. split; [reflexivity|].
    rewrite settle_last. exec.
    unfold destructure, member. rewrite Hord in *.
    lazy [JS.nullish]. rewrite Ham, Hcur.
    split; [reflexivity|].
    unfold loadRazorpay. exec.
    match goal with |- Chatbot.payment_block ?st = _ =>
      assert (Hps : Chatbot.paySummary st
                    = Some (Chatbot.mkSummary (JS.Num a) (JS.Str c)
                              (JS.opt (JS.Obj ofs) "id") JS.Undefined))
        by (destruct g; exec; destruct u; vm_compute; reflexivity);
      unfold Chatbot.payment_block; rewrite Hps
    end.
    unfold Chatbot.chip_text, Chatbot.price_text.
    cbn [Chatbot.amount Chatbot.currency Chatbot.status JS.is_str JS.child].
    now rewrite (amount_text_two_places a Hrange).
  - intros s w created a c Hb Ham Hrange Hcur.
    assert (Hord : exists fs, JS.opt created "order" = JS.Obj fs)
      by (apply (obj_of_opt _ "amount"); congruence).
    destruct Hord as [ofs Hord].
    assert (Hdat : exists fs, created = JS.Obj fs)
      by (apply (obj_of_opt _ "order"); congruence).
    destruct Hdat as [dfs ->].
    unfold PaymentPage.createOrder. rewrite Hb.
    destruct w as [u g fl sc wd lg].
    exec. rewrite settle_last. exec.
    unfold member. lazy [JS.nullish]. rewrite Hord. exec.
    eexists. split; [reflexivity|].
    match goal with |- PaymentPage.order_block ?st = _ =>
      assert (Hst : PaymentPage.order st = JS.Obj ofs)
        by (destruct u; vm_compute; reflexivity);
      unfold PaymentPage.order_block; rewrite Hst
    end.
    rewrite Hord in *.
    unfold PaymentPage.price_text. rewrite Ham, Hcur.
    cbn [JS.truthy JS.child].
    now rewrite (amount_text_two_places a Hrange).
  - vm_compute. reflexivity.
Qed.

Lemma amount_display_4000_INR_witness :
  let w := chatbot_after (Chatbot.mounted true) example_form in
  let p := payment_after (PaymentPage.mounted true) example_page in
  (exists w2 w3,
      deliver (Settle 0 (Resolved example_booking_data))
              (run (Chatbot.handleBookingSubmit (ui w)) w) = Some w2
      /\ deliver (Settle 0 (Resolved example_order_data)) w2 = Some w3
      /\ Chatbot.payment_block (ui w3)
         = Some ("Payment Pending", Some "₹4000.00 INR"))
  /\
  (exists p2,
      deliver (Settle 0 (Resolved example_order_data))
              (run (PaymentPage.createOrder (ui p)) p) = Some p2
      /\ PaymentPage.order_block (ui p2)
         = Some (Some "₹4000.00 INR", Some "created")).
Proof.
  intros w p.
  destruct amount_display_4000_INR as (Hpanel & Hpage & _).
  split.
  - exact (Hpanel (ui w) w example_booking_data example_order_data 400000%Z "INR"
                  eq_refl eq_refl eq_refl eq_refl eq_refl eq_refl eq_refl).
  - exact (Hpage (ui p) p example_order_data 400000%Z "INR"
                 eq_refl eq_refl eq_refl eq_refl).
Defined.



(** C10. Submitting the chat input when it is empty or holds only white
    space does nothing: the handler returns at its guard, so the world
    after it (cells, log of effects, calls in flight) is the world before
    it, and a click on the send button leaves the world as it was. *)
Theorem chat_submit_blank_is_noop (w : World Chatbot.state) :
  blank (JS.bytes (Chatbot.currentInput (ui w))) ->
  run (Chatbot.handleChatSubmit (ui w)) w = w
  /\ (forall w', Chatbot.step w (Chatbot.User Chatbot.ClickChatSend) = Some w'
                 -> w' = w).
Proof.
  intros Hblank.
  assert (Hrun : run (Chatbot.handleChatSubmit (ui w)) w = w).
  { unfold Chatbot.handleChatSubmit.
    rewrite (trim_blank _ Hblank). reflexivity. }
  split; [exact Hrun|].
  intros w' Hstep.
  unfold Chatbot.step, Chatbot.handler_of, Chatbot.when in Hstep.
  destruct (Chatbot.loading (ui w)); [discriminate|].
  destruct (Chatbot.shows (ui w) "faq"); [|discriminate].
  rewrite Hrun in Hstep. now inversion Hstep.
Qed.

Lemma chat_submit_blank_is_noop_witness :
  let w := chatbot_after (Chatbot.mounted false)
             [ Chatbot.Env (Settle 0 (Resolved JS.Null));
               Chatbot.User (Chatbot.OpenSection Chatbot.AskQuestion);
               Chatbot.User (Chatbot.TypeChat (JS.of_bytes [32; 9; 194; 160])) ] in
  Chatbot.step w (Chatbot.User Chatbot.ClickChatSend) = Some w.
Proof.
  intros w.
  assert (Hblank : blank (JS.bytes (Chatbot.currentInput (ui w)))).
  { apply (blank_cons [32] [9; 194; 160]); [simpl; tauto|].
    apply (blank_cons [9] [194; 160]); [simpl; tauto|].
    apply (blank_cons [194; 160] []); [simpl; tauto|].
    apply blank_nil. }
  destruct (chat_submit_blank_is_noop w Hblank) as [_ Hstep].
  destruct (Chatbot.step w (Chatbot.User Chatbot.ClickChatSend)) as [w'|] eqn:E.
  - now rewrite (Hstep w' eq_refl).
  - vm_compute in E. discriminate E.
Defined.


(* ================================================================== *)
(** ** Further properties of the handlers *)

(** X1. A chat exchange.  Sending a non-blank message appends it to the
    log and clears the input before the call is issued, with [user_id]
    the booking email or ["guest"].  When the call resolves with a body,
    its [response] is appended as the bot's message and the input is
    cleared again, whatever has been typed meanwhile.  When it resolves
    with no body, or is rejected, the error goes to the console and the
    cells stay as they are: the sent text is not put back. *)
Theorem chat_exchange (s : Chatbot.state) (w : World Chatbot.state) :
  JS.str_truthy (JS.trim (Chatbot.currentInput s)) = true ->
  exists k,
    run (Chatbot.handleChatSubmit s) w
    = mkWorld
        (Chatbot.setCurrentInput ""
           (Chatbot.setChatMessages
              (Chatbot.chatMessages (ui w)
               ++ [Chatbot.mkMessage Chatbot.user (JS.Str (Chatbot.currentInput s))])
              (ui w)))
        (window_Razorpay w)
        (inflight w ++ [(Chatbot.chat_request s, k)])
        (scripts w) (widgets w)
        (log w ++ [Http (Chatbot.chat_request s)])
    /\ forall (w1 : World Chatbot.state) i rest,
        take_out i (inflight w1) = Some ((Chatbot.chat_request s, k), rest) ->
        (forall data, JS.nullish data = false -> exists w2,
            Chatbot.step w1 (Chatbot.Env (Settle i (Resolved data))) = Some w2
            /\ ui w2
               = Chatbot.setCurrentInput ""
                   (Chatbot.setChatMessages
                      (Chatbot.chatMessages (ui w1)
                       ++ [Chatbot.mkMessage Chatbot.bot (JS.opt data "response")])
                      (ui w1))
            /\ inflight w2 = rest
            /\ log w2 = log w1)
        /\ (forall data, JS.nullish data = true -> exists w2,
               Chatbot.step w1 (Chatbot.Env (Settle i (Resolved data))) = Some w2
               /\ ui w2 = ui w1
               /\ inflight w2 = rest
               /\ log w2 = (log w1 ++ [ConsoleError "Chat error:"
                                         (JS.TypeError "response" data)])%list)
        /\ (forall e, exists w2,
               Chatbot.step w1 (Chatbot.Env (Settle i (Rejected e))) = Some w2
               /\ ui w2 = ui w1
               /\ inflight w2 = rest
               /\ log w2 = (log w1 ++ [ConsoleError "Chat error:" e])%list).
Proof.
  intros Hc. unfold Chatbot.handleChatSubmit. rewrite Hc.
  eexists. split; [reflexivity|].
  intros w1 i rest Htake.
  unfold Chatbot.step, deliver. rewrite Htake.
  split; [|split].
  - intros data Hd. eexists. split; [reflexivity|].
    exec. unfold member. rewrite Hd. exec. repeat split.
  - intros data Hd. eexists. split; [reflexivity|].
    exec. unfold member. rewrite Hd. exec. repeat split.
  - intros e. eexists. split; [reflexivity|]. exec. repeat split.
Qed.

Lemma chat_exchange_witness :
  let w := chatbot_after (Chatbot.mounted true) example_question in
  let w1 := chatbot_after w [ Chatbot.User Chatbot.ClickChatSend;
                              Chatbot.User (Chatbot.TypeChat "And lunch?") ] in
  let reply := JS.Obj [("response", JS.Str "Yes, from 7 AM to 10 AM.")] in
  Chatbot.currentInput (ui w1) = "And lunch?"
  /\ exists w2,
      Chatbot.step w1 (Chatbot.Env (Settle 0 (Resolved reply))) = Some w2
      /\ Chatbot.chatMessages (ui w2)
         = [ Chatbot.mkMessage Chatbot.bot (JS.Str "How can I help you today?");
             Chatbot.mkMessage Chatbot.user (JS.Str "Is breakfast free?");
             Chatbot.mkMessage Chatbot.bot (JS.Str "Yes, from 7 AM to 10 AM.") ]
      /\ Chatbot.currentInput (ui w2) = "".
Proof.
  intros w w1 reply. split; [vm_compute; reflexivity|].
  destruct (chat_exchange (ui w) w eq_refl) as (k & Hrun & Hsettle).
  assert (Hw1 : w1 = chatbot_after (run (Chatbot.handleChatSubmit (ui w)) w)
                       [Chatbot.User (Chatbot.TypeChat "And lunch?")])
    by (vm_compute; reflexivity).
  assert (Htake : take_out 0 (inflight w1)
                  = Some ((Chatbot.chat_request (ui w), k), [])).
  { rewrite Hw1, Hrun. reflexivity. }
  destruct (Hsettle w1 0 [] Htake) as (Hok & _ & _).
  destruct (Hok reply eq_refl) as (w2 & Hstep & Hui & _).
  exists w2. split; [exact Hstep|].
  rewrite Hui, Hw1, Hrun. split; vm_compute; reflexivity.
Defined.

(** X2. The room-service form.  With the room number, the phone number
    or the request empty, Send Request only alerts
    ["Please fill all fields."]: no call, no cell changes.  Otherwise it
    sets the loading flag and posts the three fields.  When the call
    resolves, the success mark is set, the three fields are cleared and
    the flag is cleared.  When it is rejected, only the flag is cleared:
    the fields keep what they hold, the success mark keeps its value, and
    the rejection is left unhandled (no alert). *)
Theorem room_service_submit (s : Chatbot.state) (w : World Chatbot.state) :
  (JS.str_truthy (Chatbot.roomNumber s) = false
   \/ JS.str_truthy (Chatbot.phoneNumber s) = false
   \/ JS.str_truthy (Chatbot.requestText s) = false ->
   run (Chatbot.handleRequestSubmit s) w
   = mkWorld (ui w) (window_Razorpay w) (inflight w) (scripts w) (widgets w)
             (log w ++ [Alert "Please fill all fields."]))
  /\
  (JS.str_truthy (Chatbot.roomNumber s) = true ->
   JS.str_truthy (Chatbot.phoneNumber s) = true ->
   JS.str_truthy (Chatbot.requestText s) = true ->
   exists k,
     run (Chatbot.handleRequestSubmit s) w
     = mkWorld (Chatbot.setIsRequestLoading true (ui w)) (window_Razorpay w)
               (inflight w ++ [(Chatbot.room_service_request s, k)])
               (scripts w) (widgets w)
               (log w ++ [Http (Chatbot.room_service_request s)])
     /\ forall (w1 : World Chatbot.state) i rest,
         take_out i (inflight w1)
         = Some ((Chatbot.room_service_request s, k), rest) ->
         (forall data, exists w2,
             Chatbot.step w1 (Chatbot.Env (Settle i (Resolved data))) = Some w2
             /\ ui w2
                = Chatbot.setIsRequestLoading false
                    (Chatbot.setRequestText ""
                       (Chatbot.setPhoneNumber ""
                          (Chatbot.setRoomNumber ""
                             (Chatbot.setRequestSuccess true (ui w1)))))
             /\ inflight w2 = rest
             /\ log w2 = log w1)
         /\ (forall e, exists w2,
                Chatbot.step w1 (Chatbot.Env (Settle i (Rejected e))) = Some w2
                /\ ui w2 = Chatbot.setIsRequestLoading false (ui w1)
                /\ inflight w2 = rest
                /\ log w2 = (log w1 ++ [Unhandled e])%list)).
Proof.
  split.
  - intros Hempty. unfold Chatbot.handleRequestSubmit.
    assert (Hguard : negb (JS.str_truthy (Chatbot.roomNumber s))
                     || negb (JS.str_truthy (Chatbot.phoneNumber s))
                     || negb (JS.str_truthy (Chatbot.requestText s)) = true).
    { destruct Hempty as [H | [H | H]]; rewrite H; cbn;
        rewrite ?orb_true_r; reflexivity. }
    rewrite Hguard. reflexivity.
  - intros Hr Hp Ht. unfold Chatbot.handleRequestSubmit. rewrite Hr, Hp, Ht.
    eexists. split; [reflexivity|].
    intros w1 i rest Htake.
    unfold Chatbot.step, deliver. rewrite Htake. split.
    + intros data. eexists. split; [reflexivity|]. exec. repeat split.
    + intros e. eexists. split; [reflexivity|]. exec. repeat split.
Qed.

Lemma room_service_submit_witness :
  let w := chatbot_after (Chatbot.mounted true) example_towels in
  let w1 := chatbot_after w [Chatbot.User Chatbot.ClickSendRequest] in
  Chatbot.isRequestLoading (ui w1) = true
  /\ (exists w2,
         Chatbot.step w1 (Chatbot.Env (Settle 0 (Resolved JS.Null))) = Some w2
         /\ Chatbot.requestSuccess (ui w2) = true
         /\ Chatbot.requestText (ui w2) = ""
         /\ Chatbot.isRequestLoading (ui w2) = false)
  /\ (exists w2,
         Chatbot.step w1 (Chatbot.Env (Settle 0 (Rejected network_error))) = Some w2
         /\ Chatbot.requestSuccess (ui w2) = false
         /\ Chatbot.requestText (ui w2) = "Two extra towels"
         /\ Chatbot.isRequestLoading (ui w2) = false
         /\ log w2 = [ Http Chatbot.ping_request;
                       Http (Chatbot.room_service_request (ui w));
                       Unhandled network_error ]).
Proof.
  intros w w1.
  destruct (room_service_submit (ui w) w) as [_ Hsend].
  destruct (Hsend eq_refl eq_refl eq_refl) as (k & Hrun & Hsettle).
  assert (Hw1 : w1 = run (Chatbot.handleRequestSubmit (ui w)) w)
    by (vm_compute; reflexivity).
  assert (Htake : take_out 0 (inflight w1)
                  = Some ((Chatbot.room_service_request (ui w), k), [])).
  { rewrite Hw1, Hrun. reflexivity. }
  destruct (Hsettle w1 0 [] Htake) as (Hok & Hfail).
  split; [rewrite Hw1, Hrun; reflexivity|]. split.
  - destruct (Hok JS.Null) as (w2 & Hstep & Hui & _).
    exists w2. split; [exact Hstep|].
    rewrite Hui. repeat split.
  - destruct (Hfail network_error) as (w2 & Hstep & Hui & _ & Hlog).
    exists w2. split; [exact Hstep|].
    rewrite Hui, Hlog, Hw1, Hrun. repeat split; vm_compute; reflexivity.
Defined.

(** X3. Check Availability.  With either date empty it only alerts
    ["Select both check-in & check-out dates."]: no call, no cell
    changes.  When an availability call in flight is rejected, the counts
    on display stay as they are: the error goes to the console, a fixed
    text is alerted, and the loading flag is cleared. *)
Theorem availability_guard_and_failure :
  (forall (s : Chatbot.state) (w : World Chatbot.state),
      JS.str_truthy (Chatbot.checkIn s) = false
      \/ JS.str_truthy (Chatbot.checkOut s) = false ->
      run (Chatbot.checkRoomAvailability s) w
      = mkWorld (ui w) (window_Razorpay w) (inflight w) (scripts w) (widgets w)
                (log w ++ [Alert "Select both check-in & check-out dates."]))
  /\
  (forall (w : World Chatbot.state) i r rest e,
      take_out i (inflight w) = Some ((r, availability_settled), rest) ->
      exists w',
        Chatbot.step w (Chatbot.Env (Settle i (Rejected e))) = Some w'
        /\ ui w' = Chatbot.setIsCheckingLoading false (ui w)
        /\ Chatbot.availability_list (ui w') = Chatbot.availability_list (ui w)
        /\ inflight w' = rest
        /\ log w' = (log w ++ [ ConsoleError "Availability check failed:" e;
                               Alert "Failed to fetch availability." ])%list).
Proof.
  split.
  - intros s w Hempty. unfold Chatbot.checkRoomAvailability.
    assert (Hguard : negb (JS.str_truthy (Chatbot.checkIn s))
                     || negb (JS.str_truthy (Chatbot.checkOut s)) = true).
    { destruct Hempty as [H | H]; rewrite H; cbn;
        rewrite ?orb_true_r; reflexivity. }
    rewrite Hguard. reflexivity.
  - intros w i r rest e Htake.
    unfold Chatbot.step, deliver. rewrite Htake.
    eexists. split; [reflexivity|].
    unfold availability_settled. exec. rewrite <- app_assoc.
    destruct w as [[] g fl sc wd lg]. repeat split.
Qed.

Lemma availability_guard_and_failure_witness :
  let w := chatbot_after (Chatbot.mounted true)
             [ Chatbot.Env (Settle 0 (Resolved JS.Null));
               Chatbot.User (Chatbot.OpenSection Chatbot.BookRoom);
               Chatbot.User (Chatbot.PickCheckIn "2024-06-01") ] in
  let q := chatbot_after (Chatbot.mounted true)
             [ Chatbot.Env (Settle 0 (Resolved JS.Null));
               Chatbot.User (Chatbot.OpenSection Chatbot.BookRoom);
               Chatbot.User (Chatbot.PickCheckIn "2024-06-01");
               Chatbot.User (Chatbot.PickCheckOut "2024-06-03");
               Chatbot.User Chatbot.ClickCheckAvailability;
               Chatbot.Env (Settle 0 (Resolved (counts 5 2 9)));
               Chatbot.User Chatbot.ClickCheckAvailability ] in
  log (run (Chatbot.checkRoomAvailability (ui w)) w)
  = [ Http Chatbot.ping_request;
      Alert "Select both check-in & check-out dates." ]
  /\ exists q',
      Chatbot.step q (Chatbot.Env (Settle 0 (Rejected network_error))) = Some q'
      /\ Chatbot.availability_list (ui q') = Some (JS.Num 5, JS.Num 2, JS.Num 9)
      /\ Chatbot.isCheckingLoading (ui q') = false.
Proof.
  intros w q.
  destruct availability_guard_and_failure as [Hguard Hfail].
  split.
  - rewrite (Hguard (ui w) w (or_intror eq_refl)). reflexivity.
  - assert (Htake : take_out 0 (inflight q)
                    = Some ((Chatbot.availability_request
                               (Chatbot.setCheckOut "2024-06-03"
                                  (Chatbot.setCheckIn "2024-06-01" Chatbot.initial)),
                             availability_settled), []))
      by (vm_compute; reflexivity).
    destruct (Hfail q 0 _ [] network_error Htake) as (q' & Hstep & Hui & Hav & _).
    exists q'. split; [exact Hstep|]. split.
    + rewrite Hav. vm_compute. reflexivity.
    + rewrite Hui. reflexivity.
Defined.

(** X4. Book & Pay and the checkout script.  Once the booking and the
    order are created, the payment summary is set, and then:
    - with the SDK on [window], or after a script load that defines it,
      the checkout is opened with the order's key and id, the booking id
      as note and the email as prefill, and nothing is alerted;
    - when the script fails to load, ["Failed to load Razorpay"] is
      alerted;
    - when the script loads without defining the SDK,
      ["Razorpay SDK not available"] is alerted.
    In the last two cases no checkout is opened, yet the payment summary
    stays set.  The loading flag ends cleared in every case. *)
Theorem book_and_pay_after_order
        (env : answers) (s s0 : Chatbot.state) (sdk : bool)
        (booked created : JS.value) :
  JS.str_truthy (Chatbot.email s) = true ->
  JS.str_truthy (Chatbot.checkIn s) = true ->
  JS.str_truthy (Chatbot.checkOut s) = true ->
  answer env (Chatbot.booking_request s) = Resolved booked ->
  JS.truthy (JS.opt (JS.opt booked "booking") "id") = true ->
  answer env (Chatbot.order_request (JS.opt (JS.opt booked "booking") "id"))
  = Resolved created ->
  JS.nullish created = false ->
  JS.nullish (JS.opt created "order") = false ->
  let id := JS.opt (JS.opt booked "booking") "id" in
  let calls := [Http (Chatbot.booking_request s); Http (Chatbot.order_request id)] in
  let failure msg := [ConsoleError "Book & Pay error:" (JS.Error msg); Alert msg] in
  fst (fst (complete env (Chatbot.handleBookingSubmit s) s0 sdk))
  = Chatbot.setIsBookingLoading false
      (Chatbot.setPaySummary (Some (summary_of created))
         (Chatbot.setIsBookingLoading true s0))
  /\ snd (complete env (Chatbot.handleBookingSubmit s) s0 sdk)
     = (calls ++
        if sdk || (script_loads env && script_defines_sdk env)
        then [CheckoutOpened (panel_options s id created)]
        else if script_loads env
             then failure "Razorpay SDK not available"
             else failure "Failed to load Razorpay")%list.
Proof.
  intros He Hi Ho Hb Hid Hc Hn Hno id calls failure.
  subst id calls failure.
  unfold Chatbot.handleBookingSubmit. rewrite He, Hi, Ho.
  follow. rewrite Hb. follow. rewrite Hid. follow.
  rewrite Hc. follow. rewrite Hn. follow. rewrite Hno. follow.
  destruct sdk, (script_loads env), (script_defines_sdk env);
    follow; split; reflexivity.
Qed.

Lemma book_and_pay_after_order_witness :
  let s := ui (chatbot_after (Chatbot.mounted false) example_form) in
  Chatbot.payment_block
    (fst (fst (complete (example_backend false false)
                        (Chatbot.handleBookingSubmit s) s false)))
  = Some ("Payment Pending", Some "₹4000.00 INR")
  /\ snd (complete (example_backend false false)
                   (Chatbot.handleBookingSubmit s) s false)
     = [ Http (Chatbot.booking_request s);
         Http (Chatbot.order_request (JS.Str "abc-123"));
         ConsoleError "Book & Pay error:" (JS.Error "Failed to load Razorpay");
         Alert "Failed to load Razorpay" ]
  /\ snd (complete (example_backend true false)
                   (Chatbot.handleBookingSubmit s) s false)
     = [ Http (Chatbot.booking_request s);
         Http (Chatbot.order_request (JS.Str "abc-123"));
         ConsoleError "Book & Pay error:" (JS.Error "Razorpay SDK not available");
         Alert "Razorpay SDK not available" ].
Proof.
  intros s.
  destruct (book_and_pay_after_order (example_backend false false) s s false
              example_booking_data example_order_data
              eq_refl eq_refl eq_refl eq_refl eq_refl eq_refl eq_refl eq_refl)
    as [Hui Hlog].
  destruct (book_and_pay_after_order (example_backend true false) s s false
              example_booking_data example_order_data
              eq_refl eq_refl eq_refl eq_refl eq_refl eq_refl eq_refl eq_refl)
    as [_ Hlog'].
  split; [rewrite Hui; vm_compute; reflexivity|].
  split; [rewrite Hlog | rewrite Hlog']; reflexivity.
Defined.

(** X5. Book & Pay opens a checkout only at the end of a run in which
    both calls resolved, the booking carried an id and the SDK was
    there: then the two calls and the opening are all it does, and the
    options are built from that booking id and that order. *)
Theorem checkout_only_after_both_calls
        (env : answers) (s s0 : Chatbot.state) (sdk : bool) (o : checkout_options) :
  In (CheckoutOpened o) (snd (complete env (Chatbot.handleBookingSubmit s) s0 sdk)) ->
  exists booked created,
    let id := JS.opt (JS.opt booked "booking") "id" in
    answer env (Chatbot.booking_request s) = Resolved booked
    /\ JS.truthy id = true
    /\ answer env (Chatbot.order_request id) = Resolved created
    /\ (sdk = true \/ (script_loads env = true /\ script_defines_sdk env = true))
    /\ o = panel_options s id created
    /\ snd (complete env (Chatbot.handleBookingSubmit s) s0 sdk)
       = [ Http (Chatbot.booking_request s);
           Http (Chatbot.order_request id);
           CheckoutOpened o ].
Proof.
  unfold Chatbot.handleBookingSubmit.
  destruct (negb (JS.str_truthy (Chatbot.email s))
            || negb (JS.str_truthy (Chatbot.checkIn s))
            || negb (JS.str_truthy (Chatbot.checkOut s))).
  { follow. intros [H|[]]. discriminate H. }
  follow.
  destruct (answer env (Chatbot.booking_request s)) as [booked|e] eqn:Hb; follow.
  2: { intros H. repeat (destruct H as [H|H]; try discriminate H). contradiction. }
  destruct (JS.truthy (JS.opt (JS.opt booked "booking") "id")) eqn:Hid; follow.
  2: { intros H. repeat (destruct H as [H|H]; try discriminate H). contradiction. }
  destruct (answer env (Chatbot.order_request _)) as [created|e] eqn:Hc; follow.
  2: { intros H. repeat (destruct H as [H|H]; try discriminate H). contradiction. }
  destruct (JS.nullish created) eqn:Hn; follow.
  1: { intros H. repeat (destruct H as [H|H]; try discriminate H). contradiction. }
  destruct (JS.nullish (JS.opt created "order")) eqn:Hno; follow.
  1: { intros H. repeat (destruct H as [H|H]; try discriminate H). contradiction. }
  destruct sdk, (script_loads env) eqn:Hl, (script_defines_sdk env) eqn:Hd;
    follow; intros H;
    repeat (destruct H as [H|H]; try discriminate H); try contradiction;
    injection H as <-;
    exists booked, created; cbn zeta;
    (split; [reflexivity|]); (split; [exact Hid|]); (split; [exact Hc|]);
    (split; [solve [left; reflexivity | right; split; reflexivity]|]);
    split; reflexivity.
Qed.

Lemma checkout_only_after_both_calls_witness :
  let s := ui (chatbot_after (Chatbot.mounted true) example_form) in
  let o := panel_options s (JS.Str "abc-123") example_order_data in
  snd (complete (example_backend true true) (Chatbot.handleBookingSubmit s) s true)
  = [ Http (Chatbot.booking_request s);
      Http (Chatbot.order_request (JS.Str "abc-123"));
      CheckoutOpened o ].
Proof.
  intros s o.
  assert (Hin : In (CheckoutOpened o)
                   (snd (complete (example_backend true true)
                                  (Chatbot.handleBookingSubmit s) s true))).
  { vm_compute. right. right. left. reflexivity. }
  destruct (checkout_only_after_both_calls _ _ _ _ _ Hin)
    as (booked & created & Hb & _ & Hc & _ & _ & Hlog).
  rewrite Hlog.
  assert (Hbooked : booked = example_booking_data).
  { vm_compute in Hb. injection Hb as <-. reflexivity. }
  subst booked. reflexivity.
Defined.

(** X6. Create Order on the Payment Page.  With a blank booking id it
    only alerts ["Enter a Booking ID first."].  Otherwise it sets
    [creating] and posts to the booking's create-order URL, and when the
    call settles [creating] is cleared and:
    - a body with an order replaces the stored order and key and alerts
      the order id;
    - a body without an order still overwrites the stored order (with
      [undefined]) and the key before the failure is alerted, so Pay Now
      ends disabled;
    - a rejection leaves the stored order and key as they were and alerts
      the server's [detail], else a generic text. *)
Theorem page_create_order (s : PaymentPage.state) (w : World PaymentPage.state) :
  (blank (JS.bytes (PaymentPage.bookingId s)) ->
   run (PaymentPage.createOrder s) w
   = mkWorld (ui w) (window_Razorpay w) (inflight w) (scripts w) (widgets w)
             (log w ++ [Alert "Enter a Booking ID first."]))
  /\
  (JS.str_truthy (JS.trim (PaymentPage.bookingId s)) = true ->
   exists k,
     run (PaymentPage.createOrder s) w
     = mkWorld (PaymentPage.setCreating true (ui w)) (window_Razorpay w)
               (inflight w ++ [(PaymentPage.order_request s, k)])
               (scripts w) (widgets w)
               (log w ++ [Http (PaymentPage.order_request s)])
     /\ forall (w1 : World PaymentPage.state) i rest,
         take_out i (inflight w1) = Some ((PaymentPage.order_request s, k), rest) ->
         (forall data,
             JS.nullish data = false ->
             JS.nullish (JS.opt data "order") = false ->
             exists w2,
               PaymentPage.step w1 (PaymentPage.Env (Settle i (Resolved data)))
               = Some w2
               /\ ui w2
                  = PaymentPage.setCreating false
                      (PaymentPage.setKeyId (JS.opt data "key_id")
                         (PaymentPage.setOrder (JS.opt data "order") (ui w1)))
               /\ inflight w2 = rest
               /\ log w2
                  = (log w1 ++
                     [Alert ("Order created: "
                             ++ JS.to_string (JS.opt (JS.opt data "order") "id"))])%list)
         /\ (forall data,
                JS.nullish data = false ->
                JS.nullish (JS.opt data "order") = true ->
                exists w2,
                  PaymentPage.step w1 (PaymentPage.Env (Settle i (Resolved data)))
                  = Some w2
                  /\ PaymentPage.order (ui w2) = JS.opt data "order"
                  /\ PaymentPage.creating (ui w2) = false
                  /\ PaymentPage.pay_now_disabled (ui w2) = true
                  /\ inflight w2 = rest
                  /\ log w2
                     = (log w1 ++
                        [ ConsoleError "" (JS.TypeError "id" (JS.opt data "order"));
                          Alert "Failed to create order. Check backend logs." ])%list)
         /\ (forall e, exists w2,
                PaymentPage.step w1 (PaymentPage.Env (Settle i (Rejected e)))
                = Some w2
                /\ ui w2 = PaymentPage.setCreating false (ui w1)
                /\ inflight w2 = rest
                /\ log w2 = (log w1 ++ [ ConsoleError "" e;
                                        Alert (PaymentPage.order_alert e) ])%list)).
Proof.
  split.
  - intros Hb. unfold PaymentPage.createOrder.
    rewrite (trim_blank _ Hb). reflexivity.
  - intros Hb. unfold PaymentPage.createOrder. rewrite Hb.
    eexists. split; [reflexivity|].
    intros w1 i rest Htake.
    unfold PaymentPage.step, deliver. rewrite Htake.
    split; [|split].
    + intros data Hd Ho. eexists. split; [reflexivity|].
      exec. unfold member. rewrite Hd. exec. rewrite Ho. exec.
      repeat split.
    + intros data Hd Ho. eexists. split; [reflexivity|].
      exec. unfold member. rewrite Hd. exec. rewrite Ho. exec.
      rewrite <- app_assoc.
      destruct w1 as [[] g fl sc wd lg]. cbn.
      repeat split.
      destruct (JS.opt data "order"); try discriminate Ho; reflexivity.
    + intros e. eexists. split; [reflexivity|]. exec.
      rewrite <- app_assoc. repeat split.
Qed.

Lemma page_create_order_witness :
  let w := payment_after (PaymentPage.mounted true) page_order_created in
  let w1 := payment_after w [ PaymentPage.User (PaymentPage.TypeBookingId "other");
                              PaymentPage.User PaymentPage.ClickCreateOrder ] in
  let not_found :=
    JS.mkError "Request failed with status code 404"
               (JS.Obj [("detail", JS.Str "Booking not found")]) in
  PaymentPage.pay_now_disabled (ui w1) = false
  /\ (exists w2,
         PaymentPage.step w1 (PaymentPage.Env (Settle 0 (Rejected not_found)))
         = Some w2
         /\ PaymentPage.order (ui w2) = JS.opt example_order_data "order"
         /\ PaymentPage.pay_now_disabled (ui w2) = false
         /\ log w2 = (log w1 ++ [ ConsoleError "" not_found;
                                 Alert "Booking not found" ])%list)
  /\ (exists w2,
         PaymentPage.step w1
           (PaymentPage.Env (Settle 0 (Resolved (JS.Obj [("key_id", JS.Str "k")]))))
         = Some w2
         /\ PaymentPage.order (ui w2) = JS.Undefined
         /\ PaymentPage.pay_now_disabled (ui w2) = true).
Proof.
  intros w w1 not_found.
  set (s := PaymentPage.setBookingId "other" (ui w)).
  set (w0 := payment_after w [PaymentPage.User (PaymentPage.TypeBookingId "other")]).
  destruct (page_create_order s w0) as [_ Hsend].
  destruct (Hsend eq_refl) as (k & Hrun & Hsettle).
  assert (Hw1 : w1 = run (PaymentPage.createOrder s) w0)
    by (vm_compute; reflexivity).
  assert (Htake : take_out 0 (inflight w1)
                  = Some ((PaymentPage.order_request s, k), [])).
  { rewrite Hw1, Hrun. reflexivity. }
  destruct (Hsettle w1 0 [] Htake) as (_ & Hmissing & Hfail).
  split; [rewrite Hw1, Hrun; vm_compute; reflexivity|]. split.
  - destruct (Hfail not_found) as (w2 & Hstep & Hui & _ & Hlog).
    exists w2. split; [exact Hstep|].
    rewrite Hui, Hlog, Hw1, Hrun. repeat split; vm_compute; reflexivity.
  - destruct (Hmissing (JS.Obj [("key_id", JS.Str "k")]) eq_refl eq_refl)
      as (w2 & Hstep & Hord & _ & Hdis & _).
    exists w2. split; [exact Hstep|]. split; [exact Hord|exact Hdis].
Defined.

(** X7. Pay Now and the checkout's dismissal.  Pay Now, when enabled,
    makes no HTTP call: with the SDK on [window] it opens one checkout
    for the stored order and key, carrying the content of the booking-id
    field as note; without it, it alerts that the SDK is not loaded.
    Dismissing that checkout alerts the cancellation, issues no verify
    call and leaves the cells alone, so the order can be paid again.
    A checkout opened without a dismiss callback, as the booking panel's
    is, closes silently. *)
Theorem page_pay_now_and_dismiss :
  (forall w : World PaymentPage.state,
      PaymentPage.pay_now_disabled (ui w) = false ->
      PaymentPage.step w (PaymentPage.User PaymentPage.ClickPayNow)
      = Some
          (if window_Razorpay w
           then mkWorld (ui w) (window_Razorpay w) (inflight w) (scripts w)
                        (widgets w ++
                         [mkWidget (PaymentPage.pay_options (ui w))
                                   PaymentPage.verify_handler
                                   (Some page_cancelled)])
                        (log w ++ [CheckoutOpened (PaymentPage.pay_options (ui w))])
           else mkWorld (ui w) (window_Razorpay w) (inflight w) (scripts w)
                        (widgets w)
                        (log w ++ [Alert "Razorpay SDK not loaded yet."])))
  /\
  (forall (w : World PaymentPage.state) i o h rest,
      take_out i (widgets w) = Some (mkWidget o h (Some page_cancelled), rest) ->
      PaymentPage.step w (PaymentPage.Env (CheckoutDismissed i))
      = Some (mkWorld (ui w) (window_Razorpay w) (inflight w) (scripts w) rest
                      (log w ++ [Alert "❌ Payment cancelled by user."])))
  /\
  (forall (w : World Chatbot.state) i o h rest,
      take_out i (widgets w) = Some (mkWidget o h None, rest) ->
      Chatbot.step w (Chatbot.Env (CheckoutDismissed i))
      = Some (mkWorld (ui w) (window_Razorpay w) (inflight w) (scripts w) rest
                      (log w))).
Proof.
  split; [|split].
  - intros [u g fl sc wd lg] Hen. cbn [ui window_Razorpay] in *.
    unfold PaymentPage.step, PaymentPage.handler_of.
    cbn [ui]. rewrite Hen. f_equal.
    unfold PaymentPage.pay_now_disabled in Hen.
    apply orb_false_elim in Hen. destruct Hen as [Hen Hsdk].
    unfold PaymentPage.payNow. rewrite Hen.
    apply negb_false_iff in Hsdk. rewrite Hsdk.
    destruct g; reflexivity.
  - intros w i o h rest Htake.
    unfold PaymentPage.step, deliver. rewrite Htake. reflexivity.
  - intros w i o h rest Htake.
    unfold Chatbot.step, deliver. rewrite Htake. reflexivity.
Qed.

Lemma page_pay_now_and_dismiss_witness :
  let w := payment_after (PaymentPage.mounted true) page_order_created in
  let w1 := payment_after w [PaymentPage.User PaymentPage.ClickPayNow] in
  let w2 := payment_after w1 [PaymentPage.Env (CheckoutDismissed 0)] in
  inflight w2 = []
  /\ ui w2 = ui w
  /\ PaymentPage.pay_now_disabled (ui w2) = false
  /\ log w2 = (log w ++ [ CheckoutOpened (PaymentPage.pay_options (ui w));
                         Alert "❌ Payment cancelled by user." ])%list.
Proof.
  intros w w1 w2.
  destruct page_pay_now_and_dismiss as (Hpay & Hdismiss & _).
  assert (Hen : PaymentPage.pay_now_disabled (ui w) = false)
    by (vm_compute; reflexivity).
  pose proof (Hpay w Hen) as H1.
  assert (Hw1 : Some w1 = PaymentPage.step w (PaymentPage.User PaymentPage.ClickPayNow))
    by (vm_compute; reflexivity).
  rewrite H1 in Hw1. apply some_eq in Hw1.
  assert (Htake : take_out 0 (widgets w1)
                  = Some (mkWidget (PaymentPage.pay_options (ui w))
                                   PaymentPage.verify_handler
                                   (Some page_cancelled), []))
    by (rewrite Hw1; vm_compute; reflexivity).
  pose proof (Hdismiss w1 0 _ _ [] Htake) as H2.
  assert (Hw2 : Some w2 = PaymentPage.step w1 (PaymentPage.Env (CheckoutDismissed 0)))
    by (vm_compute; reflexivity).
  rewrite H2 in Hw2. apply some_eq in Hw2.
  rewrite Hw2, Hw1. repeat split; vm_compute; reflexivity.
Defined.

(** *** Invariants of the cells, continued *)

Section PendingFacts.

Context {St : Type}.
Variable I : St -> Prop.

Lemma run_pending (t : Task St) :
  forall w, obeys I never t -> pending_obeys I w -> pending_obeys I (run t w).
Proof.
  induction t as [ | e | r k IH | k IH | k IH | o k IH | f k IH | o h _ d k IH ];
    intros w Ht (Hfl & Hsc & Hwd); cbn [run].
  - repeat split; assumption.
  - repeat split; assumption.
  - repeat split; cbn; try assumption.
    apply Forall_app; split; [assumption|].
    constructor; [|constructor]. exact Ht.
  - repeat split; cbn; try assumption.
    apply Forall_app; split; [assumption|].
    constructor; [|constructor]. exact Ht.
  - apply IH; [apply Ht|]. repeat split; assumption.
  - apply IH; [exact Ht|]. repeat split; assumption.
  - destruct Ht as [_ Hk]. apply IH; [exact Hk|]. repeat split; assumption.
  - destruct Ht as (Hh & Hd & Hk). apply IH; [exact Hk|].
    repeat split; cbn; try assumption.
    apply Forall_app; split; [assumption|].
    constructor; [|constructor]. split; assumption.
Qed.

Lemma deliver_pending (w w' : World St) (e : external) :
  pending_obeys I w -> deliver e w = Some w' -> pending_obeys I w'.
Proof.
  intros (Hfl & Hsc & Hwd) Hd.
  destruct e as [i res | i b | i | i resp | i]; cbn [deliver] in Hd.
  - destruct (take_out i (inflight w)) as [[[r k] rest]|] eqn:E; [|discriminate].
    apply some_eq in Hd. subst w'.
    destruct (take_out_Forall _ _ _ _ _ E Hfl) as [Hk Hrest].
    apply run_pending; [now apply Hk|]. repeat split; assumption.
  - destruct (take_out i (scripts w)) as [[k rest]|] eqn:E; [|discriminate].
    apply some_eq in Hd. subst w'.
    destruct (take_out_Forall _ _ _ _ _ E Hsc) as [Hk Hrest].
    apply run_pending; [apply Hk|]. repeat split; assumption.
  - destruct (take_out i (scripts w)) as [[k rest]|] eqn:E; [|discriminate].
    apply some_eq in Hd. subst w'.
    destruct (take_out_Forall _ _ _ _ _ E Hsc) as [Hk Hrest].
    apply run_pending; [apply Hk|]. repeat split; assumption.
  - destruct (take_out i (widgets w)) as [[wd rest]|] eqn:E; [|discriminate].
    apply some_eq in Hd. subst w'.
    destruct (take_out_Forall _ _ _ _ _ E Hwd) as [[Hs _] Hrest].
    apply run_pending; [apply Hs|]. repeat split; assumption.
  - destruct (take_out i (widgets w)) as [[wd rest]|] eqn:E; [|discriminate].
    apply some_eq in Hd.
    destruct (take_out_Forall _ _ _ _ _ E Hwd) as [[_ Hdis] Hrest].
    destruct (on_dismiss wd) as [t|]; subst w'.
    + apply run_pending; [exact Hdis|]. repeat split; assumption.
    + repeat split; assumption.
Qed.

End PendingFacts.

(** An invariant that every handler keeps holds after a step from any
    reachable world in which it holds. *)
Section ChatbotKeeps.

Variable I : Chatbot.state -> Prop.
Hypothesis ping_obeys : obeys I never Chatbot.ping.
Hypothesis handlers_obey :
  forall s a t, Chatbot.handler_of s a = Some t -> obeys I never t.

Lemma reachable_pending (w : World Chatbot.state) :
  chatbot_reachable w -> pending_obeys I w.
Proof.
  induction 1 as [sdk | w w' ev _ IH Hstep].
  - apply run_pending; [exact ping_obeys|]. repeat split; constructor.
  - destruct ev as [a | e]; cbn [Chatbot.step] in Hstep.
    + destruct (Chatbot.handler_of (ui w) a) as [t|] eqn:E; [|discriminate].
      apply some_eq in Hstep. subst w'.
      apply run_pending; [|exact IH]. exact (handlers_obey _ _ _ E).
    + exact (deliver_pending I w w' e IH Hstep).
Qed.

Lemma step_keeps (w w' : World Chatbot.state) (ev : Chatbot.event) :
  chatbot_reachable w -> I (ui w) -> Chatbot.step w ev = Some w' -> I (ui w').
Proof.
  intros Hreach HI Hstep.
  assert (Hw : world_obeys I never w).
  { destruct (reachable_pending w Hreach) as (H1 & H2 & H3).
    repeat split; assumption. }
  destruct ev as [a | e]; cbn [Chatbot.step] in Hstep.
  - destruct (Chatbot.handler_of (ui w) a) as [t|] eqn:E; [|discriminate].
    apply some_eq in Hstep. subst w'.
    apply (run_obeys I never t w (handlers_obey _ _ _ E) Hw).
  - assert (Hex : exempted never w e = false).
    { destruct e; cbn; try reflexivity.
      destruct (nth_error (inflight w) i) as [[]|]; reflexivity. }
    apply (deliver_obeys I never w w' e Hw Hex Hstep).
Qed.

End ChatbotKeeps.

Ltac chatbot_handlers keep :=
  let H := fresh "H" in
  intros ? ? ? H; unfold Chatbot.handler_of, Chatbot.when in H;
  match type of H with
  | (if ?b then _ else _) = Some _ => destruct b; [discriminate H|]
  end;
  match type of H with
  | match ?a with _ => _ end = Some _ => destruct a
  end;
  match type of H with
  | (if ?b then _ else _) = Some _ => destruct b; [|discriminate H]
  end;
  apply some_eq in H; subst;
  unfold_handlers; obey keep.

Lemma handlers_extend_log (l : list Chatbot.message) :
  forall s a t, Chatbot.handler_of s a = Some t -> obeys (extends l) never t.
Proof.
  chatbot_handlers
    ltac:(unfold extends; intros [] [more Hm]; cbn in *;
          first [ exists more; exact Hm
                | eexists; rewrite Hm, <- app_assoc; reflexivity ]).
Qed.

(** X8. The chat log only grows: along any events from a reachable world
    the log is the earlier log followed by further messages.  No handler
    removes or rewrites a message, Back included. *)
Theorem chat_log_only_grows (evs : list Chatbot.event) :
  forall w w' : World Chatbot.state,
    chatbot_reachable w ->
    Chatbot.steps w evs = Some w' ->
    exists more,
      Chatbot.chatMessages (ui w') = (Chatbot.chatMessages (ui w) ++ more)%list.
Proof.
  induction evs as [|ev evs IH]; intros w w' Hreach Hsteps; cbn in Hsteps.
  - apply some_eq in Hsteps. subst w'. exists []. now rewrite app_nil_r.
  - destruct (Chatbot.step w ev) as [w1|] eqn:E; [|discriminate].
    assert (H1 : extends (Chatbot.chatMessages (ui w)) (ui w1)).
    { apply (step_keeps (extends (Chatbot.chatMessages (ui w)))) with (w := w) (ev := ev);
        try assumption.
      - unfold Chatbot.ping.
        obey ltac:(unfold extends; intros [] [more Hm]; cbn in *;
                   exists more; exact Hm).
      - apply handlers_extend_log.
      - exists []. now rewrite app_nil_r. }
    destruct H1 as [m1 Hm1].
    destruct (IH w1 w' (chatbot_stepped w w1 ev Hreach E) Hsteps) as [m2 Hm2].
    exists (m1 ++ m2)%list. now rewrite Hm2, Hm1, app_assoc.
Qed.

Lemma chat_log_only_grows_witness :
  let w := chatbot_after (Chatbot.mounted true) example_question in
  let evs := [ Chatbot.User Chatbot.ClickChatSend;
               Chatbot.User Chatbot.ClickChatBack;
               Chatbot.User (Chatbot.OpenSection Chatbot.RoomService);
               Chatbot.User Chatbot.ClickBack;
               Chatbot.Env (Settle 0 (Resolved (JS.Obj [("response", JS.Str "Yes.")]))) ] in
  exists w' more,
    Chatbot.steps w evs = Some w'
    /\ Chatbot.chatMessages (ui w') = (Chatbot.chatMessages (ui w) ++ more)%list
    /\ length (Chatbot.chatMessages (ui w')) = 3.
Proof.
  intros w evs.
  destruct (Chatbot.steps w evs) as [w'|] eqn:E; [|vm_compute in E; discriminate E].
  assert (Hreach : chatbot_reachable w)
    by (apply reachable_after; apply chatbot_mounted).
  destruct (chat_log_only_grows evs w w' Hreach E) as [more Hmore].
  exists w', more. split; [reflexivity|]. split; [exact Hmore|].
  vm_compute in E. apply some_eq in E. subst w'. reflexivity.
Defined.

Lemma handlers_keep_awake :
  forall s a t, Chatbot.handler_of s a = Some t -> obeys awake never t.
Proof.
  chatbot_handlers ltac:(unfold awake; intros [] Hs; cbn in *; exact Hs).
Qed.

Lemma ping_keeps_awake : obeys awake never Chatbot.ping.
Proof.
  unfold Chatbot.ping.
  obey ltac:(unfold awake; intros [] Hs; cbn in *; first [exact Hs | reflexivity]).
Qed.

Lemma asleep_is_dormant (w : World Chatbot.state) :
  chatbot_reachable w -> Chatbot.loading (ui w) = true -> dormant w.
Proof.
  induction 1 as [sdk | w w' ev Hreach IH Hstep]; intros Hload.
  - repeat split. now right.
  - destruct (Chatbot.loading (ui w)) eqn:Hw.
    + destruct (IH eq_refl) as (Hui & Hsc & Hwd & Hfl).
      destruct ev as [a | e]; cbn [Chatbot.step] in Hstep.
      * unfold Chatbot.handler_of in Hstep. rewrite Hw in Hstep. discriminate.
      * destruct w as [u g fl sc wd lg]. cbn [ui scripts widgets inflight] in *.
        subst u sc wd.
        destruct e as [i res | i b | i | i resp | i]; cbn [deliver] in Hstep;
          cbn [ui scripts widgets inflight window_Razorpay log] in Hstep;
          try (destruct i; discriminate Hstep).
        destruct Hfl as [-> | ->]; [destruct i; discriminate Hstep|].
        destruct i as [|i]; [|destruct i; discriminate Hstep].
        vm_compute in Hstep. destruct res as [data | err];
          apply some_eq in Hstep; subst w'.
        -- discriminate Hload.
        -- repeat split. now left.
    + assert (Hawake : awake (ui w')).
      { apply (step_keeps awake ping_keeps_awake handlers_keep_awake w w' ev);
          assumption. }
      unfold awake in Hawake. congruence.
Qed.

(** X9. The readiness gate.  Until the ping has succeeded the component
    is untouched: its cells are the initial ones and no user action runs
    a handler.  A failed ping is written to the console and a reload is
    scheduled, the spinner staying up; a successful ping takes the
    spinner down and changes nothing else.  Once down, the spinner never
    comes back. *)
Theorem readiness_gate :
  (forall w : World Chatbot.state,
      chatbot_reachable w -> Chatbot.loading (ui w) = true ->
      ui w = Chatbot.initial
      /\ forall a, Chatbot.step w (Chatbot.User a) = None)
  /\ (forall (w w' : World Chatbot.state) ev,
         chatbot_reachable w -> Chatbot.loading (ui w) = false ->
         Chatbot.step w ev = Some w' -> Chatbot.loading (ui w') = false)
  /\ (forall sdk e,
         Chatbot.step (Chatbot.mounted sdk) (Chatbot.Env (Settle 0 (Rejected e)))
         = Some (mkWorld Chatbot.initial sdk [] [] []
                         [ Http Chatbot.ping_request;
                           ConsoleError "Backend not ready yet:" e;
                           ReloadScheduled ]))
  /\ (forall sdk data,
         Chatbot.step (Chatbot.mounted sdk) (Chatbot.Env (Settle 0 (Resolved data)))
         = Some (mkWorld (Chatbot.setLoading false Chatbot.initial) sdk [] [] []
                         [Http Chatbot.ping_request])).
Proof.
  split; [|split; [|split]].
  - intros w Hreach Hload.
    destruct (asleep_is_dormant w Hreach Hload) as (Hui & _).
    split; [exact Hui|].
    intros a. unfold Chatbot.step, Chatbot.handler_of. now rewrite Hload.
  - intros w w' ev Hreach Hload Hstep.
    exact (step_keeps awake ping_keeps_awake handlers_keep_awake w w' ev
                      Hreach Hload Hstep).
  - intros sdk e. reflexivity.
  - intros sdk data. reflexivity.
Qed.

Lemma readiness_gate_witness :
  let w := chatbot_after (Chatbot.mounted true)
             [ Chatbot.User (Chatbot.OpenSection Chatbot.BookRoom);
               Chatbot.Env (Settle 0 (Rejected network_error));
               Chatbot.User (Chatbot.OpenSection Chatbot.BookRoom) ] in
  let w' := chatbot_after (Chatbot.mounted true) example_form in
  ui w = Chatbot.initial
  /\ Chatbot.step w (Chatbot.User (Chatbot.OpenSection Chatbot.AskQuestion)) = None
  /\ forall w2, Chatbot.step w' (Chatbot.User Chatbot.ClickBookPay) = Some w2 ->
                Chatbot.loading (ui w2) = false.
Proof.
  intros w w'.
  destruct readiness_gate as (Hasleep & Hawake & _).
  assert (Hw : chatbot_reachable w) by (apply reachable_after; apply chatbot_mounted).
  assert (Hw' : chatbot_reachable w') by (apply reachable_after; apply chatbot_mounted).
  destruct (Hasleep w Hw eq_refl) as [Hui Hnone].
  split; [exact Hui|]. split; [apply Hnone|].
  intros w2 Hstep. exact (Hawake w' w2 _ Hw' eq_refl Hstep).
Defined.

Lemma handlers_keep_section :
  forall s a t, Chatbot.handler_of s a = Some t -> obeys section_known never t.
Proof.
  chatbot_handlers
    ltac:(unfold section_known; intros [] Hs; cbn in *;
          first [ exact Hs | left; reflexivity | right; eexists; reflexivity ]).
Qed.

Lemma forallb_false {A : Type} (f : A -> bool) (l : list A) :
  forallb f l = false -> exists x, In x l /\ f x = false.
Proof.
  induction l as [|a l IH]; cbn; [discriminate|].
  destruct (f a) eqn:E; cbn.
  - intros H. destruct (IH H) as (x & Hin & Hx). exists x. auto.
  - intros _. exists a. auto.
Qed.

(** X10. One branch at a time.  In every reachable world the section
    cell is [null] or one of the four names the menu sets, so the render
    selects exactly one branch: the spinner while [loading] holds and
    only then, else the menu or one of the four panels.  That branch is
    what the render yields unless one of its children is a plain object,
    which makes React throw; an object where the chat reply's text is
    expected does that. *)
Theorem one_view_at_a_time :
  (forall w : World Chatbot.state,
      chatbot_reachable w ->
      section_known (ui w)
      /\ exists v,
           selected (ui w) = [v]
           /\ (v = Spinner <-> Chatbot.loading (ui w) = true)
           /\ (render (ui w) = Some [v]
               \/ (render (ui w) = None
                   /\ exists c, In c (children (ui w) v) /\ JS.child c = None)))
  /\
  (exists w,
      Chatbot.steps (Chatbot.mounted true) object_reply = Some w
      /\ selected (ui w) = [ChatPanel]
      /\ render (ui w) = None).
Proof.
  split.
  - intros w Hreach.
    assert (Hknown : section_known (ui w)).
    { induction Hreach as [sdk | w w' ev Hreach IH Hstep].
      - now left.
      - apply (step_keeps section_known) with (w := w) (ev := ev); try assumption.
        + unfold Chatbot.ping.
          obey ltac:(unfold section_known; intros [] Hs; cbn in *; exact Hs).
        + apply handlers_keep_section. }
    split; [exact Hknown|].
    assert (Hone : exists v, selected (ui w) = [v]
                             /\ (v = Spinner <-> Chatbot.loading (ui w) = true)).
    { unfold selected, Chatbot.at_menu, Chatbot.shows.
      destruct (Chatbot.loading (ui w)).
      - exists Spinner. split; [reflexivity|]. split; reflexivity.
      - destruct Hknown as [-> | [b ->]].
        + exists Menu. split; [reflexivity|]. split; discriminate.
        + destruct b; cbn;
            [ exists ChatPanel | exists RoomServicePanel
            | exists BookingPanel | exists FaqPanel ];
            (split; [reflexivity|]); split; discriminate. }
    destruct Hone as (v & Hsel & Hspin).
    exists v. split; [exact Hsel|]. split; [exact Hspin|].
    unfold render. rewrite Hsel. cbn [flat_map]. rewrite app_nil_r.
    destruct (forallb renders (children (ui w) v)) eqn:E; [left; reflexivity|].
    right. split; [reflexivity|].
    destruct (forallb_false _ _ E) as (c & Hin & Hc).
    exists c. split; [exact Hin|].
    unfold renders in Hc. destruct (JS.child c); [discriminate|reflexivity].
  - eexists. split; [vm_compute; reflexivity|].
    split; vm_compute; reflexivity.
Qed.

Lemma one_view_at_a_time_witness :
  let w := chatbot_after (Chatbot.mounted true) example_paid in
  Chatbot.section (ui w) = Some "booking"
  /\ section_known (ui w)
  /\ exists v,
       selected (ui w) = [v]
       /\ (v = Spinner <-> Chatbot.loading (ui w) = true)
       /\ (render (ui w) = Some [v]
           \/ (render (ui w) = None
               /\ exists c, In c (children (ui w) v) /\ JS.child c = None)).
Proof.
  intros w.
  assert (Hw : chatbot_reachable w) by (apply reachable_after; apply chatbot_mounted).
  split; [vm_compute; reflexivity|].
  exact (proj1 one_view_at_a_time w Hw).
Defined.

(** *** The Payment Page's SDK flag *)

Lemma page_handlers_leave_sdk (s : PaymentPage.state) (a : PaymentPage.action)
      (t : Task PaymentPage.state) :
  PaymentPage.handler_of s a = Some t -> bystander sdk_unready no_call true t.
Proof.
  intros H. unfold PaymentPage.handler_of in H.
  destruct a.
  - apply some_eq in H. subst t. disc.
  - destruct (PaymentPage.create_order_disabled s); [discriminate|].
    apply some_eq in H. subst t. unfold PaymentPage.createOrder. disc.
  - destruct (PaymentPage.pay_now_disabled s); [discriminate|].
    apply some_eq in H. subst t.
    unfold PaymentPage.payNow, PaymentPage.verify_handler. disc.
Qed.

Lemma page_sdk_disciplined (w : World PaymentPage.state) :
  payment_reachable w -> disciplined sdk_unready no_call true w.
Proof.
  induction 1 as [sdk | w w' ev _ IH Hstep].
  - apply run_owner.
    + unfold PaymentPage.load_sdk. disc.
    + repeat split; constructor.
    + reflexivity.
    + reflexivity.
  - destruct ev as [a | e]; cbn [PaymentPage.step] in Hstep.
    + destruct (PaymentPage.handler_of (ui w) a) as [t|] eqn:E; [|discriminate].
      apply some_eq in Hstep. subst w'.
      apply bystander_disciplined; [|exact IH].
      exact (page_handlers_leave_sdk _ _ _ E).
    + exact (deliver_disciplined _ _ _ w w' e IH Hstep).
Qed.

Lemma no_call_pending (w : World PaymentPage.state) :
  pending_mine no_call true w = length (scripts w).
Proof.
  unfold pending_mine.
  assert (H : filter (call_mine no_call) (inflight w) = []).
  { induction (inflight w) as [|x l IHl]; [reflexivity|exact IHl]. }
  now rewrite H.
Qed.

Lemma sdk_settled_step (w w' : World PaymentPage.state) (ev : PaymentPage.event) :
  payment_reachable w -> scripts w = [] ->
  PaymentPage.step w ev = Some w' ->
  scripts w' = [] /\ PaymentPage.sdkReady (ui w') = PaymentPage.sdkReady (ui w).
Proof.
  intros Hreach Hsc Hstep.
  destruct (page_sdk_disciplined w Hreach) as (Htidy & _ & _).
  assert (Hgoal : forall t w0,
             bystander sdk_unready no_call true t ->
             tidy sdk_unready no_call true w0 ->
             scripts w0 = [] ->
             scripts (run t w0) = []
             /\ PaymentPage.sdkReady (ui (run t w0)) = PaymentPage.sdkReady (ui w0)).
  { intros t w0 Ht Hw0 Hs0.
    destruct (run_bystander sdk_unready no_call true t w0 Ht Hw0) as (_ & Hp & Hf).
    rewrite !no_call_pending, Hs0 in Hp. split.
    - destruct (scripts (run t w0)); [reflexivity|discriminate Hp].
    - unfold sdk_unready in Hf.
      destruct (PaymentPage.sdkReady (ui (run t w0))),
               (PaymentPage.sdkReady (ui w0)); try reflexivity; discriminate Hf. }
  destruct Htidy as (Hfl & Hscr & Hwd).
  destruct ev as [a | e]; cbn [PaymentPage.step] in Hstep.
  - destruct (PaymentPage.handler_of (ui w) a) as [t|] eqn:E; [|discriminate].
    apply some_eq in Hstep. subst w'.
    apply Hgoal; [exact (page_handlers_leave_sdk _ _ _ E) | | exact Hsc].
    repeat split; assumption.
  - destruct e as [i res | i b | i | i resp | i]; cbn [deliver] in Hstep.
    + destruct (take_out i (inflight w)) as [[[r k] rest]|] eqn:E; [|discriminate].
      apply some_eq in Hstep. subst w'.
      destruct (take_out_Forall _ _ _ _ _ E Hfl) as [Hk Hrest].
      exact (Hgoal (k res)
                   (mkWorld (ui w) (window_Razorpay w) rest (scripts w)
                            (widgets w) (log w))
                   (Hk res) (conj Hrest (conj Hscr Hwd)) Hsc).
    + rewrite Hsc in Hstep. destruct i; discriminate Hstep.
    + rewrite Hsc in Hstep. destruct i; discriminate Hstep.
    + destruct (take_out i (widgets w)) as [[wd rest]|] eqn:E; [|discriminate].
      apply some_eq in Hstep. subst w'.
      destruct (take_out_Forall _ _ _ _ _ E Hwd) as [[Hs _] Hrest].
      exact (Hgoal (on_success wd resp)
                   (mkWorld (ui w) (window_Razorpay w) (inflight w) (scripts w)
                            rest (log w))
                   (Hs resp) (conj Hfl (conj Hscr Hrest)) Hsc).
    + destruct (take_out i (widgets w)) as [[wd rest]|] eqn:E; [|discriminate].
      apply some_eq in Hstep.
      destruct (take_out_Forall _ _ _ _ _ E Hwd) as [[_ Hdis] Hrest].
      destruct (on_dismiss wd) as [t|]; subst w'.
      * exact (Hgoal t
                     (mkWorld (ui w) (window_Razorpay w) (inflight w) (scripts w)
                              rest (log w))
                     Hdis (conj Hfl (conj Hscr Hrest)) Hsc).
      * split; [exact Hsc | reflexivity].
Qed.

(** X11. The Payment Page loads the checkout script once, at mount, and
    never again.  If the load fails, the failure is alerted and the SDK
    flag stays down; and once no script load is pending the flag never
    changes, whatever the user does and whatever settles.  So after a
    failed load Pay Now is disabled for good. *)
Theorem sdk_load_is_not_retried :
  (PaymentPage.step (PaymentPage.mounted false) (PaymentPage.Env (ScriptFailed 0))
   = Some (mkWorld PaymentPage.initial false [] [] []
                   [Alert "Could not load Razorpay. Check your network/adblock."]))
  /\
  (forall (evs : list PaymentPage.event) (w w' : World PaymentPage.state),
      payment_reachable w -> scripts w = [] ->
      PaymentPage.steps w evs = Some w' ->
      scripts w' = []
      /\ PaymentPage.sdkReady (ui w') = PaymentPage.sdkReady (ui w)
      /\ (PaymentPage.sdkReady (ui w) = false ->
          PaymentPage.pay_now_disabled (ui w') = true)).
Proof.
  split; [reflexivity|].
  induction evs as [|ev evs IH]; intros w w' Hreach Hsc Hsteps; cbn in Hsteps.
  - apply some_eq in Hsteps. subst w'.
    split; [exact Hsc|]. split; [reflexivity|].
    intros Hoff. unfold PaymentPage.pay_now_disabled. rewrite Hoff.
    now rewrite orb_true_r.
  - destruct (PaymentPage.step w ev) as [w1|] eqn:E; [|discriminate].
    destruct (sdk_settled_step w w1 ev Hreach Hsc E) as [Hsc1 Hsdk1].
    destruct (IH w1 w' (payment_stepped w w1 ev Hreach E) Hsc1 Hsteps)
      as (Hsc' & Hsdk' & Hdis).
    split; [exact Hsc'|]. split; [congruence|].
    intros Hoff. apply Hdis. congruence.
Qed.

Lemma sdk_load_is_not_retried_witness :
  let w := payment_after (PaymentPage.mounted false)
                         [PaymentPage.Env (ScriptFailed 0)] in
  let evs := [ PaymentPage.User (PaymentPage.TypeBookingId "abc-123");
               PaymentPage.User PaymentPage.ClickCreateOrder;
               PaymentPage.Env (Settle 0 (Resolved example_order_data)) ] in
  exists w',
    PaymentPage.steps w evs = Some w'
    /\ JS.truthy (PaymentPage.order (ui w')) = true
    /\ PaymentPage.pay_now_disabled (ui w') = true
    /\ PaymentPage.step w' (PaymentPage.User PaymentPage.ClickPayNow) = None.
Proof.
  intros w evs.
  destruct sdk_load_is_not_retried as [_ Hstays].
  assert (Hw : payment_reachable w)
    by (apply payment_reachable_after; apply payment_mounted).
  destruct (PaymentPage.steps w evs) as [w'|] eqn:E; [|vm_compute in E; discriminate E].
  destruct (Hstays evs w w' Hw eq_refl E) as (_ & _ & Hdis).
  specialize (Hdis eq_refl).
  exists w'. split; [reflexivity|].
  split; [vm_compute in E; apply some_eq in E; subst w'; reflexivity|].
  split; [exact Hdis|].
  unfold PaymentPage.step, PaymentPage.handler_of. now rewrite Hdis.
Defined.

(** X12. The FAQ list is an accordion.  Clicking a question opens it and
    closes whichever was open; clicking the open question closes it.
    Nothing else is touched.  Leaving the list with its Back button and
    opening it again gives back the same world, the open question
    included. *)
Theorem faq_accordion (w : World Chatbot.state) (idx : nat) :
  Chatbot.loading (ui w) = false ->
  Chatbot.section (ui w) = Some "faqList" ->
  idx < 12 ->
  let closed_or_other :=
    match Chatbot.openFAQ (ui w) with
    | Some j => negb (Nat.eqb j idx)
    | None => true
    end in
  Chatbot.step w (Chatbot.User (Chatbot.ToggleFAQ idx))
  = Some (mkWorld (Chatbot.setOpenFAQ (if closed_or_other then Some idx else None)
                                      (ui w))
                  (window_Razorpay w) (inflight w) (scripts w) (widgets w) (log w))
  /\ Chatbot.steps w [ Chatbot.User Chatbot.ClickFAQBack;
                       Chatbot.User (Chatbot.OpenSection Chatbot.FAQs) ]
     = Some w.
Proof.
  intros Hl Hs Hidx closed_or_other. subst closed_or_other.
  destruct w as [[sec ? ? ? ? ? ? ? ? ? ? ? ? open ? ? ? ? ld] g fl sc wd lg].
  cbn in Hl, Hs. subst sec ld.
  assert (Hlt : Nat.ltb idx 12 = true) by now apply Nat.ltb_lt.
  split.
  - unfold Chatbot.step, Chatbot.handler_of, Chatbot.when, Chatbot.shows.
    cbn [ui Chatbot.loading Chatbot.section Chatbot.openFAQ].
    rewrite Hlt. cbn [String.eqb Ascii.eqb Bool.eqb andb]. cbn [run].
    destruct open as [j|]; [destruct (Nat.eqb j idx)|]; reflexivity.
  - reflexivity.
Qed.

Lemma faq_accordion_witness :
  let w := chatbot_after (Chatbot.mounted true) example_faqs in
  let w1 := chatbot_after w [Chatbot.User (Chatbot.ToggleFAQ 2)] in
  let w2 := chatbot_after w1 [Chatbot.User (Chatbot.ToggleFAQ 7)] in
  let w3 := chatbot_after w2 [Chatbot.User (Chatbot.ToggleFAQ 7)] in
  Chatbot.openFAQ (ui w1) = Some 2
  /\ Chatbot.openFAQ (ui w2) = Some 7
  /\ Chatbot.openFAQ (ui w3) = None.
Proof.
  intros w w1 w2 w3.
  assert (H1 : Some w1 = Chatbot.step w (Chatbot.User (Chatbot.ToggleFAQ 2)))
    by (vm_compute; reflexivity).
  assert (H2 : Some w2 = Chatbot.step w1 (Chatbot.User (Chatbot.ToggleFAQ 7)))
    by (vm_compute; reflexivity).
  assert (H3 : Some w3 = Chatbot.step w2 (Chatbot.User (Chatbot.ToggleFAQ 7)))
    by (vm_compute; reflexivity).
  assert (L7 : 7 < 12) by lia. assert (L2 : 2 < 12) by lia.
  rewrite (proj1 (faq_accordion w 2 eq_refl eq_refl L2)) in H1.
  rewrite (proj1 (faq_accordion w1 7 eq_refl eq_refl L7)) in H2.
  rewrite (proj1 (faq_accordion w2 7 eq_refl eq_refl L7)) in H3.
  apply some_eq in H1, H2, H3.
  rewrite H3, H2, H1. repeat split; vm_compute; reflexivity.
Defined.

(** X13. The two reset helpers.  [resetBookingUI] writes the nine
    booking cells exactly as Back does and nothing else, so it changes
    nothing after Back and Back makes it redundant.  [resetRoomServiceUI]
    clears the room number and then stops with a [ReferenceError] at
    [setGuestPhone]: the phone number, the request text, the loading flag
    and the success mark are never reached. *)
Theorem reset_helpers (w : World Chatbot.state) :
  run resetBookingUI w
  = mkWorld
      (Chatbot.mkState
         (Chatbot.section (ui w)) (Chatbot.chatMessages (ui w))
         (Chatbot.currentInput (ui w)) (Chatbot.roomNumber (ui w))
         (Chatbot.phoneNumber (ui w)) (Chatbot.requestText (ui w))
         (Chatbot.requestSuccess (ui w))
         "" "Deluxe" "" "" "" JS.Null
         (Chatbot.openFAQ (ui w)) (Chatbot.isRequestLoading (ui w))
         false false None (Chatbot.loading (ui w)))
      (window_Razorpay w) (inflight w) (scripts w) (widgets w) (log w)
  /\ run resetBookingUI (run Chatbot.goHome w) = run Chatbot.goHome w
  /\ run Chatbot.goHome (run resetBookingUI w) = run Chatbot.goHome w
  /\ run resetRoomServiceUI w
     = mkWorld (Chatbot.setRoomNumber "" (ui w))
               (window_Razorpay w) (inflight w) (scripts w) (widgets w)
               (log w ++ [Unhandled (JS.Error "setGuestPhone is not defined")]).
Proof.
  destruct w as [[] g fl sc wd lg].
  split; [|split; [|split]]; vm_compute; reflexivity.
Qed.

